(** * Authorization-and-audit core of the user-management API

    A shallow embedding of the permission evaluator ([utils/rbac.js]), the
    credential issuer ([utils/jwt.js]), the audit interceptor
    ([middleware/audit.js]), the role service ([services/roleService.js])
    and the session lifecycle manager ([services/authService.js]), followed
    by the properties of these components.

    Conventions of the embedding:
    - a JavaScript function that may throw returns an [outcome];
    - MongoDB collections are finite maps from document ids to documents;
    - calls to the diagnostic [logger] are not part of the model;
    - strings reach the store as they are given: the schema setters
      ([trim], [lowercase]) are not modelled;
    - [jsonwebtoken] and [bcryptjs] are an interface ([Crypto]). *)

From Stdlib Require Import ZArith Ascii String List Lia Bool.
From stdpp Require Import base option gmap strings list fin_maps pretty.

Local Open Scope string_scope.
Local Open Scope Z_scope.

(* ===================================================================== *)
(** * Part I: the model *)
(* ===================================================================== *)

(** ** JavaScript values, strings and exceptions *)
Module JS.

Inductive exn : Type :=
| TypeError
| RangeError
| Error (message : string).

Inductive outcome (A : Type) : Type :=
| Ret (a : A)
| Throw (e : exn).
Arguments Ret {A} a.
Arguments Throw {A} e.

Definition bind {A B : Type} (m : outcome A) (k : A -> outcome B) : outcome B :=
  match m with
  | Ret a => k a
  | Throw e => Throw e
  end.

(** Primitive values that can reach the evaluator as an argument. *)
Inductive jsval : Type :=
| JsUndefined
| JsNull
| JsBool (b : bool)
| JsNumber (n : Z)
| JsString (s : string).

(** [String(v)], the conversion used by [v + ':self']. *)
Definition ToString (v : jsval) : string :=
  match v with
  | JsUndefined => "undefined"
  | JsNull => "null"
  | JsBool true => "true"
  | JsBool false => "false"
  | JsNumber n => pretty n
  | JsString s => s
  end.

(** [v.toString()]: a property access on [undefined] or [null] throws. *)
Definition toString (v : jsval) : outcome string :=
  match v with
  | JsUndefined | JsNull => Throw TypeError
  | _ => Ret (ToString v)
  end.

(** [s.startsWith(p)] *)
Fixpoint startsWith (s p : string) {struct p} : bool :=
  match p with
  | EmptyString => true
  | String a p' =>
      match s with
      | EmptyString => false
      | String b s' => if Ascii.eqb a b then startsWith s' p' else false
      end
  end.

(** [s.endsWith(suffix)] *)
Fixpoint endsWith (s suffix : string) : bool :=
  String.eqb s suffix ||
  match s with
  | EmptyString => false
  | String _ s' => endsWith s' suffix
  end.

(** [s.slice(n)] *)
Fixpoint slice (n : nat) (s : string) : string :=
  match n with
  | O => s
  | S n' => match s with
            | EmptyString => EmptyString
            | String _ s' => slice n' s'
            end
  end.

(** [s.replace(pattern, replacement)] with a string pattern: only the
    FIRST occurrence of [pattern] is replaced. *)
Fixpoint replace (s pattern replacement : string) : string :=
  if startsWith s pattern
  then replacement +:+ slice (String.length pattern) s
  else match s with
       | EmptyString => EmptyString
       | String c s' => String c (replace s' pattern replacement)
       end.

(** [s.split(sep)] for a one-character separator; never the empty array. *)
Fixpoint split (s : string) (sep : ascii) : list string :=
  match s with
  | EmptyString => [EmptyString]
  | String c s' =>
      if Ascii.eqb c sep then EmptyString :: split s' sep
      else match split s' sep with
           | [] => [String c EmptyString]
           | h :: t => String c h :: t
           end
  end.

(** [array.includes(v)] on an array of strings (strict equality). *)
Definition includes (array : list string) (v : jsval) : bool :=
  match v with
  | JsString s => existsb (String.eqb s) array
  | _ => false
  end.

(** [array.some(callback)]: stops at the first [true], and at the first
    exception. *)
Fixpoint some {A : Type} (callback : A -> outcome bool) (array : list A)
    : outcome bool :=
  match array with
  | [] => Ret false
  | x :: rest =>
      bind (callback x) (fun found => if found then Ret true else some callback rest)
  end.

(** [array.every(callback)]: stops at the first [false], and at the first
    exception. *)
Fixpoint every {A : Type} (callback : A -> outcome bool) (array : list A)
    : outcome bool :=
  match array with
  | [] => Ret true
  | x :: rest =>
      bind (callback x) (fun ok => if ok then every callback rest else Ret false)
  end.

(** A string in which the separator does not occur. *)
Definition sepFree (sep : ascii) (s : string) : Prop :=
  forall c, In c (list_ascii_of_string s) -> c <> sep.

End JS.

(** ** JSON values, as [JSON.parse] builds them and [req.body] holds them *)
Module Json.
Import JS.

(** Numbers are kept as integers: only their truthiness is observed.
    An object is its list of fields in insertion order, keys distinct. *)
#[warnings="-register-all"]
Inductive json : Type :=
| JNull
| JBool (b : bool)
| JNumber (n : Z)
| JString (s : string)
| JArray (items : list json)
| JObject (fields : list (string * json)).

(** [!!v] *)
Definition truthy (v : json) : bool :=
  match v with
  | JNull => false
  | JBool b => b
  | JNumber n => negb (n =? 0)
  | JString s => negb (String.eqb s "")
  | JArray _ | JObject _ => true
  end.

(** [!!v] where [None] is [undefined]. *)
Definition truthy_opt (v : option json) : bool :=
  match v with
  | None => false
  | Some j => truthy j
  end.

Fixpoint lookup (fields : list (string * json)) (key : string) : option json :=
  match fields with
  | [] => None
  | (k, v) :: rest => if String.eqb k key then Some v else lookup rest key
  end.

(** [v.key]: throws on [null], [undefined] on every other non-object. *)
Definition get (v : json) (key : string) : outcome (option json) :=
  match v with
  | JNull => Throw TypeError
  | JObject fields => Ret (lookup fields key)
  | _ => Ret None
  end.

(** [delete fields[key]] *)
Definition delete (fields : list (string * json)) (key : string)
    : list (string * json) :=
  List.filter (fun kv => negb (String.eqb (fst kv) key)) fields.

(** [{...array}]: the elements under their indices. *)
Definition spread (items : list json) : list (string * json) :=
  imap (fun i item => (pretty i, item)) items.

(** The keys of an object, [Object.keys(v)]. *)
Definition keys (v : json) : list string :=
  match v with
  | JObject fields => map fst fields
  | _ => []
  end.

End Json.

(** ** MongoDB object ids *)
Module Mongo.

(** An [ObjectId]: an object (always truthy) rendered by [toString()] as
    its hexadecimal string, which is also its key in a collection. *)
Record ObjectId : Type := { hex : string }.

End Mongo.

(** ** The Role model: [models/Role.js] *)
Module RoleModel.
Import JS.
Export Mongo.

Record doc : Type := {
  name : string;
  permissions : list string;
  description : string
}.

(** The permission format enforced by the pre-save hook,
    [/^[a-zA-Z0-9*]+:[a-zA-Z0-9*]+(:self)?$/]. *)
Definition segmentChar (c : ascii) : bool :=
  let n := nat_of_ascii c in
  ((48 <=? n) && (n <=? 57) || (65 <=? n) && (n <=? 90)
   || (97 <=? n) && (n <=? 122) || (n =? 42))%nat.

Fixpoint allSegmentChars (s : string) : bool :=
  match s with
  | EmptyString => true
  | String c s' => segmentChar c && allSegmentChars s'
  end.

Definition segment (s : string) : bool :=
  negb (String.eqb s "") && allSegmentChars s.

Definition validPattern (permission : string) : bool :=
  match split permission ":" with
  | [r; a] => segment r && segment a
  | [r; a; s] => segment r && segment a && String.eqb s "self"
  | _ => false
  end.

(** [role.hasPermission(permission)], the method of the schema: the
    wildcard, the exact match and [resource:*], without the self scope. *)
Definition hasPermission (r : doc) (permission : string) : bool :=
  if includes (permissions r) (JsString "*:*") then true
  else if includes (permissions r) (JsString permission) then true
  else includes (permissions r)
         (JsString (hd "undefined" (split permission ":") +:+ ":*")).

(** The fields that [$set] may carry; [None] is an absent property. *)
Record update : Type := {
  set_name : option string;
  set_permissions : option (list string);
  set_description : option string
}.

(** The schema validators that [runValidators] applies to the updated
    paths: [name] is required and at most 50 characters, every element of
    [permissions] is required, [description] is at most 200 characters. *)
Definition validateName (u : update) : outcome unit :=
  match set_name u with
  | Some n =>
      if String.eqb n "" then
        Throw (Error "Validation failed: name: Role name is required")
      else if (50 <? String.length n)%nat then
        Throw (Error "Validation failed: name: Role name cannot exceed 50 characters")
      else Ret tt
  | None => Ret tt
  end.

Definition validateDescription (u : update) : outcome unit :=
  match set_description u with
  | Some d =>
      if (200 <? String.length d)%nat then
        Throw (Error "Validation failed: description: Description cannot exceed 200 characters")
      else Ret tt
  | None => Ret tt
  end.

(** The element validator of [permissions: [{ type: String, required:
    true }]]: [required] on a string refuses the empty string.  The
    elements are numbered from [i]; [label] opens the validation error. *)
Fixpoint validateElements (label : string) (i : nat) (permissions : list string)
    : outcome unit :=
  match permissions with
  | [] => Ret tt
  | permission :: rest =>
      if String.eqb permission "" then
        Throw (Error (label +:+ "permissions." +:+ pretty i
                      +:+ ": Path `permissions." +:+ pretty i +:+ "` is required."))
      else validateElements label (S i) rest
  end.

Definition validatePermissions (u : update) : outcome unit :=
  match set_permissions u with
  | Some permissions => validateElements "Validation failed: " 0 permissions
  | None => Ret tt
  end.

Definition validateUpdate (u : update) : outcome unit :=
  bind (validateName u) (fun _ =>
  bind (validatePermissions u) (fun _ => validateDescription u)).

Definition applyUpdate (u : update) (r : doc) : doc :=
  {| name := default (name r) (set_name u);
     permissions := default (permissions r) (set_permissions u);
     description := default (description r) (set_description u) |}.

(** [Role.findOne({ name })] *)
Definition findByName (roles : gmap string doc) (n : string)
    : option (string * doc) :=
  List.find (fun kv => String.eqb (name (snd kv)) n) (map_to_list roles).

(** [Role.findByIdAndUpdate(id, update, { new: true, runValidators: true })] *)
Definition findByIdAndUpdate (roles : gmap string doc) (id : ObjectId) (u : update)
    : outcome (option doc * gmap string doc) :=
  bind (validateUpdate u) (fun _ =>
    match roles !! hex id with
    | None => Ret (None, roles)
    | Some r => Ret (Some (applyUpdate u r), <[hex id := applyUpdate u r]> roles)
    end).

(** The validators that [save] runs on a new document: [name] is
    required and at most 50 characters, every element of [permissions] is
    required, [description] is at most 200 characters. *)
Definition validate (r : doc) : outcome unit :=
  if String.eqb (name r) "" then
    Throw (Error "Role validation failed: name: Role name is required")
  else if (50 <? String.length (name r))%nat then
    Throw (Error "Role validation failed: name: Role name cannot exceed 50 characters")
  else
    bind (validateElements "Role validation failed: " 0 (permissions r)) (fun _ =>
      if (200 <? String.length (description r))%nat then
        Throw (Error "Role validation failed: description: Description cannot exceed 200 characters")
      else Ret tt).

(** The pre-save hook: the first permission that fails the pattern stops
    the save. *)
Definition preSave (r : doc) : outcome unit :=
  match List.find (fun permission => negb (validPattern permission)) (permissions r) with
  | Some permission =>
      Throw (Error ("Invalid permission format: " +:+ permission
                    +:+ ". Expected format: resource:action or resource:action:self"))
  | None => Ret tt
  end.

(** [role.save()] of a new document whose id is [id]: validation, the
    pre-save hook, then the insertion, which the index on [_id] refuses
    for an id that is taken. *)
Definition save (roles : gmap string doc) (id : ObjectId) (r : doc)
    : outcome (gmap string doc) :=
  bind (validate r) (fun _ =>
  bind (preSave r) (fun _ =>
    match roles !! hex id with
    | Some _ => Throw (Error "E11000 duplicate key error")
    | None => Ret (<[hex id := r]> roles)
    end)).

End RoleModel.

(** ** Role validation schemas: [validators/roleValidator.js] *)
Module RoleValidator.
Import JS.

(** The vocabulary of the [permissions] check of [createRoleSchema] and
    [updateRoleSchema]. *)
Definition validPermissions : list string :=
  ["user:create"; "user:read"; "user:update"; "user:delete";
   "user:read:self"; "user:update:self";
   "role:create"; "role:read"; "role:update"; "role:delete";
   "audit:read"; "audit:read:self";
   "*:*"].

(** The [custom] validator of [permissions]: throws at the first
    permission outside the vocabulary. *)
Fixpoint custom (permissions : list string) : outcome bool :=
  match permissions with
  | [] => Ret true
  | permission :: rest =>
      if negb (includes validPermissions (JsString permission))
      then Throw (Error ("Invalid permission: " +:+ permission))
      else custom rest
  end.

End RoleValidator.

(** ** Permission evaluator: [utils/rbac.js] *)
Module RBAC.
Import JS.
Export Mongo.

(** [user.role], populated; the permission list may be missing. *)
Record Role : Type := { permissions : option (list string) }.

(** [req.user] as the evaluator reads it. *)
Record User : Type := { userId : option ObjectId; role : option Role }.

(** [user.role.permissions && user.role.permissions.includes(v)] *)
Definition permissionsInclude (r : Role) (v : jsval) : bool :=
  match permissions r with
  | None => false
  | Some array => includes array v
  end.

(** [RBAC.hasPermission], with the depth of the call stack explicit:
    the recursive call on the base permission consumes one frame. *)
Fixpoint hasPermission_depth (depth : nat) (user : option User)
    (requiredPermission : jsval) : outcome bool :=
  match user with
  | None => Ret false
  | Some u =>
    match role u with
    | None => Ret false
    | Some r =>
      if permissionsInclude r (JsString "*:*") then Ret true
      else if permissionsInclude r requiredPermission then Ret true
      else
        match requiredPermission with
        | JsString p =>
          let resource := hd "undefined" (split p ":") in
          if permissionsInclude r (JsString (resource +:+ ":*")) then Ret true
          else if endsWith p ":self" then
            let basePermission := replace p ":self" "" in
            match depth with
            | O => Throw RangeError
            | S depth' => hasPermission_depth depth' user (JsString basePermission)
            end
          else Ret false
        | _ => Throw TypeError
        end
    end
  end.

(** Every recursive call shortens the permission by five characters, so
    a stack as deep as the string is long is never exhausted
    ([hasPermission_depth_enough] below). *)
Definition stackDepth (requiredPermission : jsval) : nat :=
  match requiredPermission with
  | JsString p => String.length p
  | _ => O
  end.

Definition hasPermission (user : option User) (requiredPermission : jsval)
    : outcome bool :=
  hasPermission_depth (stackDepth requiredPermission) user requiredPermission.

(** [RBAC.canAccessResource] *)
Definition canAccessResource (user : option User) (resourceUserId : jsval)
    (requiredPermission : jsval) : outcome bool :=
  match user with
  | None => Throw TypeError
  | Some u =>
    match userId u with
    | Some id =>
      bind (toString resourceUserId) (fun owner =>
        if String.eqb (hex id) owner then
          let selfPermission := ToString requiredPermission +:+ ":self" in
          hasPermission user (JsString selfPermission)
        else hasPermission user requiredPermission)
    | None => hasPermission user requiredPermission
    end
  end.

(** [RBAC.getUserPermissions] *)
Definition getUserPermissions (user : option User) : list string :=
  match user with
  | None => []
  | Some u =>
      match role u with
      | None => []
      | Some r => default [] (permissions r)
      end
  end.

(** [RBAC.hasAnyPermission]; an absent list is [None]. *)
Definition hasAnyPermission (user : option User) (permissions : option (list jsval))
    : outcome bool :=
  match permissions with
  | None => Ret false
  | Some [] => Ret false
  | Some array => some (hasPermission user) array
  end.

(** [RBAC.hasAllPermissions] *)
Definition hasAllPermissions (user : option User) (permissions : option (list jsval))
    : outcome bool :=
  match permissions with
  | None => Ret false
  | Some [] => Ret false
  | Some array => every (hasPermission user) array
  end.

(** The principals of the documentation's test suite: a role holding
    exactly the listed permissions. *)
Definition holder (id : option ObjectId) (granted : list string) : User :=
  {| userId := id; role := Some {| permissions := Some granted |} |}.

(** A string without a colon: one segment of a permission. *)
Definition colonFree (s : string) : Prop :=
  forall c, In c (list_ascii_of_string s) -> c <> ":"%char.

End RBAC.

(** ** Credential issuer: [utils/jwt.js] *)
Module Jwt.
Import JS.
Export Mongo.

(** [process.env], as the issuer reads it.  The lifetimes are the parsed
    spans in seconds; [None] is an unset variable. *)
Record Env : Type := {
  JWT_ACCESS_SECRET : string;
  JWT_REFRESH_SECRET : string;
  JWT_ACCESS_EXPIRES_IN : option Z;
  JWT_REFRESH_EXPIRES_IN : option Z
}.

(** The object handed to [jwt.sign]; an absent property is [None]. *)
Record Claims : Type := {
  userId : ObjectId;
  email : option string;
  roleId : option ObjectId;
  permissions : option (list string);
  type : option string
}.

(** The decoded payload: the claims with the issue and expiry times
    (seconds) that [jwt.sign] adds. *)
Record Payload : Type := {
  claims : Claims;
  iat : Z;
  exp : Z
}.

(** A token string, identified with what it encodes. *)
Record Token : Type := {
  payload : Payload;
  signature : string
}.

(** The cryptographic libraries: the HS256 tag of [jsonwebtoken] and the
    password hash of [bcryptjs]. *)
Class Crypto : Type := {
  HS256 : string -> Payload -> string;
  bcrypt_hash : string -> string;
  bcrypt_compare : string -> string -> bool
}.

Global Instance ObjectId_eq_dec : EqDecision ObjectId.
Proof. solve_decision. Defined.
Global Instance Claims_eq_dec : EqDecision Claims.
Proof. solve_decision. Defined.
Global Instance Payload_eq_dec : EqDecision Payload.
Proof. solve_decision. Defined.
Global Instance Token_eq_dec : EqDecision Token.
Proof. solve_decision. Defined.

(** [Math.floor(Date.now() / 1000)] *)
Definition seconds (now : Z) : Z := now / 1000.

Section Issuer.
Context `{Crypto}.
Variable env : Env.

(** [jwt.sign(payload, secret, { expiresIn })] at time [now] (ms). *)
Definition sign (now : Z) (c : Claims) (secret : string) (expiresIn : Z) : Token :=
  let p := {| claims := c; iat := seconds now; exp := seconds now + expiresIn |} in
  {| payload := p; signature := HS256 secret p |}.

(** [jwt.verify(token, secret)] at time [now] (ms). *)
Definition verify (now : Z) (token : Token) (secret : string) : outcome Payload :=
  if negb (String.eqb (signature token) (HS256 secret (payload token)))
  then Throw (Error "invalid signature")
  else if exp (payload token) <=? seconds now
  then Throw (Error "jwt expired")
  else Ret (payload token).

(** [try { ... } catch (error) { throw new Error(message) }] *)
Definition rethrow {A : Type} (m : outcome A) (message : string) : outcome A :=
  match m with
  | Ret a => Ret a
  | Throw _ => Throw (Error message)
  end.

(** [user.role] as the issuer finds it: the populated role document, a
    bare reference, or [null] when the reference dangles. *)
Inductive RoleRef : Type :=
| Populated (role_id : ObjectId) (role_permissions : list string)
| Unpopulated (role_id : ObjectId)
| Dangling.

(** The user handed to the issuer. *)
Record Subject : Type := {
  subject_id : ObjectId;
  subject_email : string;
  subject_role : RoleRef
}.

Definition generateAccessToken (now : Z) (user : Subject) : outcome Token :=
  match subject_role user with
  | Dangling => Throw TypeError
  | Populated role_id role_permissions =>
      let payload := {| userId := subject_id user;
                        email := Some (subject_email user);
                        roleId := Some role_id;
                        permissions := Some role_permissions;
                        type := None |} in
      Ret (sign now payload (JWT_ACCESS_SECRET env)
             (default 900 (JWT_ACCESS_EXPIRES_IN env)))
  | Unpopulated role_id =>
      let payload := {| userId := subject_id user;
                        email := Some (subject_email user);
                        roleId := Some role_id;
                        permissions := Some [];
                        type := None |} in
      Ret (sign now payload (JWT_ACCESS_SECRET env)
             (default 900 (JWT_ACCESS_EXPIRES_IN env)))
  end.

Definition generateRefreshToken (now : Z) (user : Subject) : Token :=
  let payload := {| userId := subject_id user; email := None; roleId := None;
                    permissions := None; type := None |} in
  sign now payload (JWT_REFRESH_SECRET env)
    (default 604800 (JWT_REFRESH_EXPIRES_IN env)).

Definition verifyAccessToken (now : Z) (token : Token) : outcome Payload :=
  rethrow (verify now token (JWT_ACCESS_SECRET env))
    "Invalid or expired access token".

Definition verifyRefreshToken (now : Z) (token : Token) : outcome Payload :=
  rethrow (verify now token (JWT_REFRESH_SECRET env))
    "Invalid or expired refresh token".

Definition generatePasswordResetToken (now : Z) (user : ObjectId) : Token :=
  let payload := {| userId := user; email := None; roleId := None;
                    permissions := None; type := Some "password-reset" |} in
  sign now payload (JWT_ACCESS_SECRET env) 3600.

Definition verifyPasswordResetToken (now : Z) (token : Token) : outcome Payload :=
  rethrow
    (bind (verify now token (JWT_ACCESS_SECRET env)) (fun decoded =>
       if negb (bool_decide (type (claims decoded) = Some "password-reset"))
       then Throw (Error "Invalid token type")
       else Ret decoded))
    "Invalid or expired password reset token".

End Issuer.

(** [extractTokenFromHeader]; an absent header is [None]. *)
Definition extractTokenFromHeader (authHeader : option string) : option string :=
  match authHeader with
  | None => None
  | Some header =>
      if String.eqb header "" then None
      else match split header " " with
           | [scheme; token] =>
               if negb (String.eqb scheme "Bearer") then None else Some token
           | _ => None
           end
  end.

(** A stand-in for the libraries, to run the model on sample data: the
    tag spells out the key and the subject, the hash marks its input. *)
Definition sampleCrypto : Crypto := {|
  HS256 := fun secret p => secret +:+ "." +:+ hex (userId (claims p));
  bcrypt_hash := fun plain => "$2a$12$" +:+ plain;
  bcrypt_compare := fun candidate hash =>
    String.eqb ("$2a$12$" +:+ candidate) hash
|}.

Definition sampleEnv : Env := {|
  JWT_ACCESS_SECRET := "access-secret";
  JWT_REFRESH_SECRET := "refresh-secret";
  JWT_ACCESS_EXPIRES_IN := None;
  JWT_REFRESH_EXPIRES_IN := None
|}.

End Jwt.

(** ** The User model: [models/User.js] *)
Module UserModel.
Import JS.
Export Mongo.

Record doc : Type := {
  firstName : string;
  lastName : string;
  email : string;
  password : string;
  role : ObjectId;
  isActive : bool;
  lastLogin : option Z;
  resetPasswordToken : option Jwt.Token;
  resetPasswordExpires : option Z
}.

Definition set_lastLogin (v : option Z) (u : doc) : doc :=
  {| firstName := firstName u; lastName := lastName u; email := email u;
     password := password u; role := role u; isActive := isActive u;
     lastLogin := v;
     resetPasswordToken := resetPasswordToken u;
     resetPasswordExpires := resetPasswordExpires u |}.

Definition set_password (v : string) (u : doc) : doc :=
  {| firstName := firstName u; lastName := lastName u; email := email u;
     password := v; role := role u; isActive := isActive u;
     lastLogin := lastLogin u;
     resetPasswordToken := resetPasswordToken u;
     resetPasswordExpires := resetPasswordExpires u |}.

Definition set_reset (token : option Jwt.Token) (expires : option Z) (u : doc) : doc :=
  {| firstName := firstName u; lastName := lastName u; email := email u;
     password := password u; role := role u; isActive := isActive u;
     lastLogin := lastLogin u;
     resetPasswordToken := token;
     resetPasswordExpires := expires |}.

Section Methods.
Context `{Jwt.Crypto}.

(** [user.comparePassword(candidate)] *)
Definition comparePassword (u : doc) (candidatePassword : string) : bool :=
  Jwt.bcrypt_compare candidatePassword (password u).

(** [user.save()]: the schema validator of a modified password
    ([minlength: 6]) runs first, then the pre-save hook hashes it. *)
Definition save (users : gmap string doc) (id : ObjectId) (u : doc)
    (passwordModified : bool) : outcome (gmap string doc) :=
  if passwordModified then
    if (String.length (password u) <? 6)%nat then
      Throw (Error "User validation failed: password: Password must be at least 6 characters long")
    else Ret (<[hex id := set_password (Jwt.bcrypt_hash (password u)) u]> users)
  else Ret (<[hex id := u]> users).

End Methods.

(** [User.findOne({ email })] *)
Definition findByEmail (users : gmap string doc) (e : string)
    : option (ObjectId * doc) :=
  match List.find (fun kv => String.eqb (email (snd kv)) e) (map_to_list users) with
  | Some (k, u) => Some ({| hex := k |}, u)
  | None => None
  end.

(** [User.countDocuments({ role: roleId })] *)
Definition countByRole (users : gmap string doc) (roleId : ObjectId) : nat :=
  length (List.filter (fun kv => String.eqb (hex (role (snd kv))) (hex roleId))
            (map_to_list users)).

End UserModel.

(** ** The AuditLog model: [models/AuditLog.js] *)
Module AuditLogModel.
Import JS Json.
Export Mongo.

(** The [logData] object of the audit logger.  An [ObjectId] is stored
    as the JSON string of its hexadecimal form, [null] as [JNull]. *)
Record doc : Type := {
  userId : json;
  action : string;
  resource : string;
  resourceId : option string;
  before : option json;
  after : option json;
  ipAddress : option string;
  userAgent : option string
}.

Definition actions : list string :=
  ["CREATE_USER"; "UPDATE_USER"; "DELETE_USER"; "READ_USER"; "READ_USERS";
   "CREATE_ROLE"; "UPDATE_ROLE"; "DELETE_ROLE"; "READ_ROLE"; "READ_ROLES";
   "LOGIN"; "LOGOUT"; "FAILED_LOGIN";
   "CHANGE_PASSWORD"; "RESET_PASSWORD";
   "ASSIGN_ROLE"].

Definition resources : list string := ["users"; "roles"; "auth"].

(** The [enum] validators of the schema, run by [save]. *)
Definition validate (d : doc) : bool :=
  existsb (String.eqb (action d)) actions
  && existsb (String.eqb (resource d)) resources.

End AuditLogModel.

(** ** The database: the three collections *)
Module Store.
Export Mongo.

Record Db : Type := {
  users : gmap string UserModel.doc;
  roles : gmap string RoleModel.doc;
  auditlogs : list AuditLogModel.doc
}.

Definition set_users (v : gmap string UserModel.doc) (db : Db) : Db :=
  {| users := v; roles := roles db; auditlogs := auditlogs db |}.

Definition set_roles (v : gmap string RoleModel.doc) (db : Db) : Db :=
  {| users := users db; roles := v; auditlogs := auditlogs db |}.

Definition set_auditlogs (v : list AuditLogModel.doc) (db : Db) : Db :=
  {| users := users db; roles := roles db; auditlogs := v |}.

(** The audit log of [db'] extends that of [db]. *)
Definition extends (db db' : Db) : Prop :=
  exists records, auditlogs db' = (auditlogs db ++ records)%list.

(** The unique index of the User schema on [email]. *)
Definition uniqueEmails (users : gmap string UserModel.doc) : Prop :=
  forall k1 k2 u1 u2,
    users !! k1 = Some u1 -> users !! k2 = Some u2 ->
    UserModel.email u1 = UserModel.email u2 -> k1 = k2.

(** The unique index of the Role schema on [name]. *)
Definition uniqueNames (roles : gmap string RoleModel.doc) : Prop :=
  forall k1 k2 r1 r2,
    roles !! k1 = Some r1 -> roles !! k2 = Some r2 ->
    RoleModel.name r1 = RoleModel.name r2 -> k1 = k2.

(** Every user references a role of the database. *)
Definition referencesResolve (db : Db) : Prop :=
  forall k u, users db !! k = Some u -> is_Some (roles db !! hex (UserModel.role u)).

End Store.

(** ** Audit interceptor: [middleware/audit.js] *)
Module AuditLogger.
Import JS Json.
Export Store.

(** The parts of the Express request that the logger reads. *)
Record Request : Type := {
  user : option RBAC.User;
  params_id : option string;
  body : option json;
  ip : option string;
  remoteAddress : option string;
  userAgentHeader : option string
}.

(** What [res.send] captured: nothing, a string that [JSON.parse]
    rejects, or a string that parses to the given value. *)
Inductive SentData : Type :=
| NotSent
| Unparsable (raw : string)
| Parsable (parsed : json).

(** The response when its [finish] event fires. *)
Record Response : Type := {
  statusCode : Z;
  responseData : SentData
}.

Record Options : Type := {
  captureBefore : bool;
  captureAfter : bool;
  resourceIdExtractor : option (Request -> option string)
}.

(** The options of the user routes that record the response. *)
Definition recordBoth : Options :=
  {| captureBefore := true; captureAfter := true; resourceIdExtractor := None |}.

(** [a || b] on optional strings *)
Definition orElse (a b : option string) : option string :=
  match a with
  | Some s => if String.eqb s "" then b else a
  | None => b
  end.

Definition objectIdJson (id : option ObjectId) : json :=
  match id with
  | Some i => JString (hex i)
  | None => JNull
  end.

(** [AuditLogger.log]: the record is saved when the schema accepts it (its
    ids are taken to be well-formed); a failure to save is swallowed. *)
Definition log (logData : AuditLogModel.doc) (auditlogs : list AuditLogModel.doc)
    : list AuditLogModel.doc :=
  if AuditLogModel.validate logData then auditlogs ++ [logData] else auditlogs.

(** [AuditLogger.extractResourceId] *)
Definition extractResourceId (req : Request) (options : Options) : option string :=
  match resourceIdExtractor options with
  | Some extractor => extractor req
  | None => orElse (params_id req) None
  end.

(** [AuditLogger.extractAfterData] *)
Definition extractAfterData (responseData : SentData) (options : Options)
    : option json :=
  match responseData with
  | NotSent => None
  | Unparsable _ => None
  | Parsable parsed =>
      if negb (captureAfter options) then None
      else
        match get parsed "data" with
        | Throw _ => None
        | Ret data =>
            if truthy_opt data then
              match data with
              | Some (JObject fields) =>
                  if truthy_opt (lookup fields "password")
                  then Some (JObject (delete fields "password"))
                  else data
              | _ => data
              end
            else Some parsed
        end
  end.

(** [AuditLogger.sanitizeData] *)
Definition sensitiveFields : list string := ["password"; "token"; "secret"].

Definition removeIfTruthy (sanitized : list (string * json)) (field : string)
    : list (string * json) :=
  if truthy_opt (lookup sanitized field) then delete sanitized field
  else sanitized.

Definition sanitizeData (data : option json) : option json :=
  match data with
  | Some (JObject fields) =>
      Some (JObject (fold_left removeIfTruthy sensitiveFields fields))
  | Some (JArray items) =>
      Some (JObject (fold_left removeIfTruthy sensitiveFields (spread items)))
  | _ => data
  end.

(** The id that the [finish] handler reads from the response:
    [parsed.data._id], else [parsed._id]; a parse error is ignored. *)
Definition responseUserId (responseData : SentData) : option json :=
  match responseData with
  | Parsable parsed =>
      match get parsed "data" with
      | Throw _ => None
      | Ret data =>
          let data_id :=
            match data with
            | Some (JObject fields) => lookup fields "_id"
            | _ => None
            end in
          if truthy_opt data && truthy_opt data_id then data_id
          else match get parsed "_id" with
               | Ret id => if truthy_opt id then id else None
               | Throw _ => None
               end
      end
  | _ => None
  end.

Definition sent (responseData : SentData) : bool :=
  match responseData with
  | NotSent => false
  | Unparsable raw => negb (String.eqb raw "")
  | Parsable _ => true
  end.

(** The actor recorded by the [finish] handler. *)
Definition resolveUserId (action : string) (req : Request) (responseData : SentData)
    : json :=
  let userId := objectIdJson (match user req with
                              | Some u => RBAC.userId u
                              | None => None
                              end) in
  let userId :=
    if negb (truthy userId) && String.eqb action "CREATE_USER" && sent responseData
    then default userId (responseUserId responseData) else userId in
  let userId :=
    if negb (truthy userId) && sent responseData
       && negb (String.eqb action "CREATE_USER")
    then default userId (responseUserId responseData) else userId in
  match user req with
  | Some u =>
      if negb (truthy userId) && String.eqb action "CREATE_USER"
         && truthy (objectIdJson (RBAC.userId u))
      then objectIdJson (RBAC.userId u) else userId
  | None => userId
  end.

(** The body of the [res.on('finish', ...)] handler. *)
Definition onFinish (action resource : string) (options : Options)
    (req : Request) (res : Response) (auditlogs : list AuditLogModel.doc)
    : list AuditLogModel.doc :=
  if (200 <=? statusCode res) && (statusCode res <? 300) then
    let logData := {|
      AuditLogModel.userId := resolveUserId action req (responseData res);
      AuditLogModel.action := action;
      AuditLogModel.resource := resource;
      AuditLogModel.resourceId := extractResourceId req options;
      AuditLogModel.before :=
        if captureBefore options then sanitizeData (body req) else None;
      AuditLogModel.after := extractAfterData (responseData res) options;
      AuditLogModel.ipAddress := orElse (ip req) (remoteAddress req);
      AuditLogModel.userAgent := userAgentHeader req |} in
    log logData auditlogs
  else auditlogs.

(** [AuditLogger.auditAction(action, resource, options)] around the rest of
    the chain [next]: the wrapped operation runs on the database and
    answers, and the [finish] handler then sees the database it left. *)
Definition auditAction (action resource : string) (options : Options)
    (next : Request -> Db -> Response * Db) (req : Request) (db : Db)
    : Response * Db :=
  let (res, db') := next req db in
  (res, set_auditlogs (onFinish action resource options req res (auditlogs db')) db').

(** [AuditLogger.logAuthEvent] *)
Definition logAuthEvent (action : string) (req : Request) (user : option ObjectId)
    (additionalData : json) (auditlogs : list AuditLogModel.doc)
    : list AuditLogModel.doc :=
  let logData := {|
    AuditLogModel.userId := objectIdJson user;
    AuditLogModel.action := action;
    AuditLogModel.resource := "auth";
    AuditLogModel.resourceId := option_map hex user;
    AuditLogModel.before := None;
    AuditLogModel.after := Some additionalData;
    AuditLogModel.ipAddress := orElse (ip req) (remoteAddress req);
    AuditLogModel.userAgent := userAgentHeader req |} in
  log logData auditlogs.

(** [AuditLogger.logUserAction] *)
Definition logUserAction (action resource : string) (resourceId : ObjectId)
    (user : ObjectId) (before after : option json) (req : option Request)
    (auditlogs : list AuditLogModel.doc) : list AuditLogModel.doc :=
  let logData := {|
    AuditLogModel.userId := JString (hex user);
    AuditLogModel.action := action;
    AuditLogModel.resource := resource;
    AuditLogModel.resourceId := Some (hex resourceId);
    AuditLogModel.before := sanitizeData before;
    AuditLogModel.after := sanitizeData after;
    AuditLogModel.ipAddress :=
      match req with
      | Some r => orElse (ip r) (remoteAddress r)
      | None => None
      end;
    AuditLogModel.userAgent :=
      match req with
      | Some r => userAgentHeader r
      | None => None
      end |} in
  log logData auditlogs.

End AuditLogger.

(** ** Express middleware: the gates of [utils/rbac.js] and
       [middleware/auth.js] *)
Module Middleware.
Import JS Json.
Export Store.
Import AuditLogger.

(** [res.status(status).json(body)] *)
Definition respond (status : Z) (body : json) : Response :=
  {| statusCode := status; responseData := Parsable body |}.

Definition failure (message : string) : json :=
  JObject [("success", JBool false); ("message", JString message)].

(** [req.params[name]]; the request carries the one route parameter that
    the routes declare, [id]. *)
Definition param (req : Request) (name : string) : jsval :=
  if String.eqb name "id" then
    match params_id req with
    | Some v => JsString v
    | None => JsUndefined
    end
  else JsUndefined.

(** [RBAC.checkPermission(requiredPermission)] before the rest of the
    chain [next]. *)
Definition checkPermission (requiredPermission : jsval)
    (next : Request -> Db -> Response * Db) (req : Request) (db : Db)
    : outcome (Response * Db) :=
  match user req with
  | None => Ret (respond 401 (failure "Authentication required"), db)
  | Some _ =>
      bind (RBAC.hasPermission (user req) requiredPermission) (fun granted =>
        if negb granted
        then Ret (respond 403 (failure "Insufficient permissions"), db)
        else Ret (next req db))
  end.

(** [RBAC.checkSelfPermission(requiredPermission, userIdParam)] *)
Definition checkSelfPermission (requiredPermission : jsval) (userIdParam : string)
    (next : Request -> Db -> Response * Db) (req : Request) (db : Db)
    : outcome (Response * Db) :=
  match user req with
  | None => Ret (respond 401 (failure "Authentication required"), db)
  | Some _ =>
      let resourceUserId := param req userIdParam in
      bind (RBAC.canAccessResource (user req) resourceUserId requiredPermission)
        (fun granted =>
           if negb granted
           then Ret (respond 403 (failure "Insufficient permissions"), db)
           else Ret (next req db))
  end.

Definition set_user (u : option RBAC.User) (req : Request) : Request :=
  {| user := u; params_id := params_id req; body := body req; ip := ip req;
     remoteAddress := remoteAddress req; userAgentHeader := userAgentHeader req |}.

(** The [req.user] that the authentication middleware attaches: the id of
    the user document and its role as [populate] finds it in the database
    ([null] when the reference dangles). *)
Definition attached (db : Db) (id : ObjectId) (u : UserModel.doc) : RBAC.User :=
  {| RBAC.userId := Some id;
     RBAC.role :=
       match roles db !! hex (UserModel.role u) with
       | Some r => Some {| RBAC.permissions := Some (RoleModel.permissions r) |}
       | None => None
       end |}.

Section Auth.
Context `{Jwt.Crypto}.
Variable env : Jwt.Env.

(** The compact serialization read back: the token that a string encodes,
    [None] for a string that is no token. *)
Variable decode : string -> option Jwt.Token.

(** [verifyAccessToken] on the string of the header. *)
Definition verifyAccessString (now : Z) (token : string) : outcome Jwt.Payload :=
  match decode token with
  | Some t => Jwt.verifyAccessToken env now t
  | None => Throw (Error "Invalid or expired access token")
  end.

(** [authenticateToken], given [req.headers.authorization], at time [now] *)
Definition authenticateToken (now : Z) (authorization : option string)
    (next : Request -> Db -> Response * Db) (req : Request) (db : Db)
    : Response * Db :=
  match Jwt.extractTokenFromHeader authorization with
  | None => (respond 401 (failure "Access token required"), db)
  | Some token =>
      if String.eqb token ""
      then (respond 401 (failure "Access token required"), db)
      else
        match verifyAccessString now token with
        | Throw _ => (respond 403 (failure "Invalid or expired token"), db)
        | Ret decoded =>
            let id := Jwt.userId (Jwt.claims decoded) in
            match users db !! hex id with
            | None => (respond 401 (failure "User not found"), db)
            | Some u =>
                if negb (UserModel.isActive u)
                then (respond 401 (failure "Account is deactivated"), db)
                else next (set_user (Some (attached db id u)) req) db
            end
        end
  end.

(** [optionalAuth] *)
Definition optionalAuth (now : Z) (authorization : option string)
    (next : Request -> Db -> Response * Db) (req : Request) (db : Db)
    : Response * Db :=
  match Jwt.extractTokenFromHeader authorization with
  | None => next req db
  | Some token =>
      if String.eqb token "" then next req db
      else
        match verifyAccessString now token with
        | Throw _ => next req db
        | Ret decoded =>
            let id := Jwt.userId (Jwt.claims decoded) in
            match users db !! hex id with
            | None => next req db
            | Some u =>
                if UserModel.isActive u
                then next (set_user (Some (attached db id u)) req) db
                else next req db
            end
        end
  end.

End Auth.

(** [requireAuth] *)
Definition requireAuth (next : Request -> Db -> Response * Db) (req : Request)
    (db : Db) : Response * Db :=
  match user req with
  | None => (respond 401 (failure "Authentication required"), db)
  | Some _ => next req db
  end.

End Middleware.

(** ** Role service: [services/roleService.js] *)
Module RoleService.
Import JS.
Export Store.

(** [!!s] for an optional string *)
Definition present (s : option string) : bool :=
  match s with
  | Some n => negb (String.eqb n "")
  | None => false
  end.

Definition differs (s : option string) (n : string) : bool :=
  match s with
  | Some m => negb (String.eqb m n)
  | None => true
  end.

(** [RoleService.updateRole] *)
Definition updateRole (db : Db) (roleId : ObjectId) (updateData : RoleModel.update)
    : outcome (option RoleModel.doc) * Db :=
  match roles db !! hex roleId with
  | None => (Throw (Error "Role not found"), db)
  | Some currentRole =>
      let name := RoleModel.set_name updateData in
      if present name && differs name (RoleModel.name currentRole)
         && bool_decide (is_Some (RoleModel.findByName (roles db) (default "" name)))
      then (Throw (Error "Role name already exists"), db)
      else if String.eqb (RoleModel.name currentRole) "super-admin"
              && present name && differs name "super-admin"
      then (Throw (Error "Cannot rename super-admin role"), db)
      else if String.eqb (RoleModel.name currentRole) "super-admin"
              && match RoleModel.set_permissions updateData with
                 | Some permissions => negb (includes permissions (JsString "*:*"))
                 | None => false
                 end
      then (Throw (Error "Super-admin role must have *:* permission"), db)
      else
        match RoleModel.findByIdAndUpdate (roles db) roleId updateData with
        | Throw e => (Throw e, db)
        | Ret (updatedRole, roles') => (Ret updatedRole, set_roles roles' db)
        end
  end.

(** [RoleService.deleteRole] *)
Definition deleteRole (db : Db) (roleId : ObjectId)
    : outcome RoleModel.doc * Db :=
  match roles db !! hex roleId with
  | None => (Throw (Error "Role not found"), db)
  | Some roleToDelete =>
      if String.eqb (RoleModel.name roleToDelete) "super-admin"
      then (Throw (Error "Cannot delete super-admin role"), db)
      else if (0 <? UserModel.countByRole (users db) roleId)%nat
      then (Throw (Error "Cannot delete role that is assigned to users"), db)
      else (Ret roleToDelete, set_roles (base.delete (hex roleId) (roles db)) db)
  end.

(** The [roleData] of [createRole]. *)
Record RoleData : Type := {
  data_name : string;
  data_description : option string;
  data_permissions : list string
}.

(** [RoleService.createRole]; [id] is the id that [new Role] draws. *)
Definition createRole (db : Db) (id : ObjectId) (roleData : RoleData)
    : outcome RoleModel.doc * Db :=
  match RoleModel.findByName (roles db) (data_name roleData) with
  | Some _ => (Throw (Error "Role with this name already exists"), db)
  | None =>
      let role := {|
        RoleModel.name := data_name roleData;
        RoleModel.description :=
          if present (data_description roleData)
          then default "" (data_description roleData) else "";
        RoleModel.permissions := data_permissions roleData |} in
      match RoleModel.save (roles db) id role with
      | Throw e => (Throw e, db)
      | Ret roles' => (Ret role, set_roles roles' db)
      end
  end.

(** [RoleService.getRoleById] *)
Definition getRoleById (db : Db) (roleId : ObjectId) : outcome RoleModel.doc :=
  match roles db !! hex roleId with
  | None => Throw (Error "Role not found")
  | Some role => Ret role
  end.

End RoleService.

(** ** Session lifecycle manager: [services/authService.js] *)
Module AuthService.
Import JS Json.
Export Store.

Record LoginResult : Type := {
  login_user : ObjectId * UserModel.doc;
  accessToken : Jwt.Token;
  refreshToken : Jwt.Token
}.

Record ForgotResult : Type := {
  message : string;
  resetToken : option Jwt.Token
}.

(** The record of a refused login. *)
Definition failedLoginRecord (req : AuditLogger.Request) (user : option ObjectId)
    (additionalData : json) : AuditLogModel.doc :=
  {| AuditLogModel.userId := AuditLogger.objectIdJson user;
     AuditLogModel.action := "FAILED_LOGIN";
     AuditLogModel.resource := "auth";
     AuditLogModel.resourceId := option_map hex user;
     AuditLogModel.before := None;
     AuditLogModel.after := Some additionalData;
     AuditLogModel.ipAddress :=
       AuditLogger.orElse (AuditLogger.ip req) (AuditLogger.remoteAddress req);
     AuditLogModel.userAgent := AuditLogger.userAgentHeader req |}.

Section Service.
Context `{Jwt.Crypto}.
Variable env : Jwt.Env.

(** [.populate('role')] *)
Definition populate (db : Db) (id : ObjectId) (user : UserModel.doc) : Jwt.Subject :=
  {| Jwt.subject_id := id;
     Jwt.subject_email := UserModel.email user;
     Jwt.subject_role :=
       match roles db !! hex (UserModel.role user) with
       | Some r => Jwt.Populated (UserModel.role user) (RoleModel.permissions r)
       | None => Jwt.Dangling
       end |}.

Definition failedLogin (db : Db) (req : AuditLogger.Request) (user : option ObjectId)
    (additionalData : json) : Db :=
  set_auditlogs
    (AuditLogger.logAuthEvent "FAILED_LOGIN" req user additionalData (auditlogs db))
    db.

(** [AuthService.login] at time [now] *)
Definition login (now : Z) (db : Db) (email password : string)
    (req : AuditLogger.Request) : outcome LoginResult * Db :=
  match UserModel.findByEmail (users db) email with
  | None =>
      (Throw (Error "Invalid credentials"),
       failedLogin db req None (JObject [("email", JString email)]))
  | Some (id, user) =>
      if negb (UserModel.isActive user) then
        (Throw (Error "Account is deactivated"),
         failedLogin db req (Some id)
           (JObject [("reason", JString "Account deactivated")]))
      else if negb (UserModel.comparePassword user password) then
        (Throw (Error "Invalid credentials"),
         failedLogin db req (Some id) (JObject [("email", JString email)]))
      else
        let user := UserModel.set_lastLogin (Some now) user in
        match UserModel.save (users db) id user false with
        | Throw e => (Throw e, db)
        | Ret users' =>
            let db := set_users users' db in
            match Jwt.generateAccessToken env now (populate db id user) with
            | Throw e => (Throw e, db)
            | Ret accessToken =>
                let refreshToken :=
                  Jwt.generateRefreshToken env now (populate db id user) in
                (Ret {| login_user := (id, user);
                        accessToken := accessToken;
                        refreshToken := refreshToken |},
                 set_auditlogs
                   (AuditLogger.logAuthEvent "LOGIN" req (Some id) (JObject [])
                      (auditlogs db))
                   db)
            end
        end
  end.

Definition forgotMessage : string :=
  "If an account with this email exists, a password reset link has been sent".

(** [AuthService.forgotPassword] at time [now] *)
Definition forgotPassword (now : Z) (db : Db) (email : string)
    (req : AuditLogger.Request) : outcome ForgotResult * Db :=
  match UserModel.findByEmail (users db) email with
  | None => (Ret {| message := forgotMessage; resetToken := None |}, db)
  | Some (id, user) =>
      let resetToken := Jwt.generatePasswordResetToken env now id in
      let user := UserModel.set_reset (Some resetToken) (Some (now + 3600000)) user in
      match UserModel.save (users db) id user false with
      | Throw e => (Throw e, db)
      | Ret users' =>
          let db := set_users users' db in
          (Ret {| message := forgotMessage; resetToken := Some resetToken |},
           set_auditlogs
             (AuditLogger.logUserAction "RESET_PASSWORD" "auth" id id None
                (Some (JObject [("email", JString email)])) (Some req)
                (auditlogs db))
             db)
      end
  end.

(** [User.findOne({ _id, resetPasswordToken: token,
                    resetPasswordExpires: { $gt: Date.now() } })] *)
Definition findByResetToken (now : Z) (db : Db) (id : ObjectId) (token : Jwt.Token)
    : option UserModel.doc :=
  match users db !! hex id with
  | Some user =>
      if bool_decide (UserModel.resetPasswordToken user = Some token)
         && match UserModel.resetPasswordExpires user with
            | Some expires => now <? expires
            | None => false
            end
      then Some user else None
  | None => None
  end.

(** [AuthService.resetPassword] at time [now] *)
Definition resetPassword (now : Z) (db : Db) (token : Jwt.Token)
    (newPassword : string) (req : AuditLogger.Request) : outcome string * Db :=
  match Jwt.verifyPasswordResetToken env now token with
  | Throw e => (Throw e, db)
  | Ret decoded =>
      let id := Jwt.userId (Jwt.claims decoded) in
      match findByResetToken now db id token with
      | None => (Throw (Error "Invalid or expired reset token"), db)
      | Some user =>
          let user := UserModel.set_password newPassword user in
          let user := UserModel.set_reset None None user in
          match UserModel.save (users db) id user true with
          | Throw e => (Throw e, db)
          | Ret users' =>
              let db := set_users users' db in
              (Ret "Password has been reset successfully",
               set_auditlogs
                 (AuditLogger.logUserAction "CHANGE_PASSWORD" "auth" id id None
                    (Some (JObject [("reason", JString "Password reset")]))
                    (Some req) (auditlogs db))
                 db)
          end
      end
  end.

End Service.

End AuthService.

(** ** Session lifecycle manager, continued: [AuthService.refreshToken],
       [AuthService.changePassword], [AuthService.logout] *)
Module Session.
Import JS Json.
Export Store.

Record Tokens : Type := {
  newAccessToken : Jwt.Token;
  newRefreshToken : Jwt.Token
}.

Section Service.
Context `{Jwt.Crypto}.
Variable env : Jwt.Env.

(** [AuthService.refreshToken] at time [now] *)
Definition refreshToken (now : Z) (db : Db) (refreshToken : Jwt.Token)
    (req : AuditLogger.Request) : outcome Tokens * Db :=
  match Jwt.verifyRefreshToken env now refreshToken with
  | Throw e => (Throw e, db)
  | Ret decoded =>
      let id := Jwt.userId (Jwt.claims decoded) in
      match users db !! hex id with
      | None => (Throw (Error "User not found or inactive"), db)
      | Some user =>
          if negb (UserModel.isActive user)
          then (Throw (Error "User not found or inactive"), db)
          else
            match Jwt.generateAccessToken env now (AuthService.populate db id user) with
            | Throw e => (Throw e, db)
            | Ret newAccessToken =>
                (Ret {| newAccessToken := newAccessToken;
                        newRefreshToken :=
                          Jwt.generateRefreshToken env now
                            (AuthService.populate db id user) |},
                 db)
            end
      end
  end.

(** [AuthService.changePassword] for the authenticated [req.user].  The
    stored document is loaded with its password, so [save] sees the
    password as modified only when the new value differs from it. *)
Definition changePassword (db : Db) (user : RBAC.User)
    (currentPassword newPassword : string) (req : AuditLogger.Request)
    : outcome string * Db :=
  match RBAC.userId user with
  | None => (Throw (Error "User not found"), db)
  | Some id =>
      match users db !! hex id with
      | None => (Throw (Error "User not found"), db)
      | Some userWithPassword =>
          if negb (UserModel.comparePassword userWithPassword currentPassword)
          then (Throw (Error "Current password is incorrect"), db)
          else
            let modified :=
              negb (String.eqb newPassword (UserModel.password userWithPassword)) in
            let userWithPassword := UserModel.set_password newPassword userWithPassword in
            match UserModel.save (users db) id userWithPassword modified with
            | Throw e => (Throw e, db)
            | Ret users' =>
                let db := set_users users' db in
                (Ret "Password changed successfully",
                 set_auditlogs
                   (AuditLogger.logUserAction "CHANGE_PASSWORD" "auth" id id None
                      (Some (JObject [("reason", JString "Password change")]))
                      (Some req) (auditlogs db))
                   db)
            end
      end
  end.

End Service.

(** [AuthService.logout] for the authenticated [req.user], which has a
    [userId] and no [_id]: the [user._id] that [logAuthEvent] reads is
    [undefined]. *)
Definition logout (db : Db) (user : option RBAC.User) (req : AuditLogger.Request)
    : outcome string * Db :=
  (Ret "Logged out successfully",
   set_auditlogs
     (AuditLogger.logAuthEvent "LOGOUT" req None (JObject []) (auditlogs db))
     db).

End Session.

(** ** Sample data, to run the model *)
Module Samples.
Import JS Json.
Export Store.

Definition userRole : RoleModel.doc :=
  {| RoleModel.name := "user";
     RoleModel.permissions := ["user:read:self"; "user:update:self"];
     RoleModel.description := "Standard user with limited permissions" |}.

Definition superAdmin : RoleModel.doc :=
  {| RoleModel.name := "super-admin";
     RoleModel.permissions := ["*:*"];
     RoleModel.description := "Full system access" |}.

(** Ann, whose account is deactivated. *)
Definition ann : UserModel.doc :=
  {| UserModel.firstName := "Ann"; UserModel.lastName := "Lee";
     UserModel.email := "ann@example.com";
     UserModel.password := "$2a$12$correct horse";
     UserModel.role := {| hex := "64b7f0c2a1d3e4f5a6b7c001" |};
     UserModel.isActive := false;
     UserModel.lastLogin := None;
     UserModel.resetPasswordToken := None;
     UserModel.resetPasswordExpires := None |}.

Definition annId : ObjectId := {| hex := "64b7f0c2a1d3e4f5a6b7c8d9" |}.

Definition db : Db :=
  {| users := {[ "64b7f0c2a1d3e4f5a6b7c8d9" := ann ]};
     roles := {[ "64b7f0c2a1d3e4f5a6b7c001" := userRole;
                 "64b7f0c2a1d3e4f5a6b7c002" := superAdmin ]};
     auditlogs := [] |}.

Definition req : AuditLogger.Request :=
  {| AuditLogger.user := None;
     AuditLogger.params_id := None;
     AuditLogger.body := None;
     AuditLogger.ip := Some "10.0.0.7";
     AuditLogger.remoteAddress := None;
     AuditLogger.userAgentHeader := Some "curl/8.4" |}.

(** Cy, whose account is active. *)
Definition cy : UserModel.doc :=
  {| UserModel.firstName := "Cy"; UserModel.lastName := "Ng";
     UserModel.email := "cy@example.com";
     UserModel.password := "$2a$12$battery staple";
     UserModel.role := {| hex := "64b7f0c2a1d3e4f5a6b7c001" |};
     UserModel.isActive := true;
     UserModel.lastLogin := None;
     UserModel.resetPasswordToken := None;
     UserModel.resetPasswordExpires := None |}.

Definition cyId : ObjectId := {| hex := "64b7f0c2a1d3e4f5a6b7c8da" |}.

Definition live : Db :=
  {| users := {[ "64b7f0c2a1d3e4f5a6b7c8d9" := ann;
                 "64b7f0c2a1d3e4f5a6b7c8da" := cy ]};
     roles := roles db;
     auditlogs := [] |}.

(** A handler that answers 200 and writes nothing. *)
Definition ok : AuditLogger.Request -> Db -> AuditLogger.Response * Db :=
  fun _ db => (Middleware.respond 200 (JObject [("success", JBool true)]), db).

(** The strings of two sample tokens. *)
Definition decode : string -> option Jwt.Token :=
  fun token =>
    if String.eqb token "reset.cy" then
      Some (@Jwt.generatePasswordResetToken Jwt.sampleCrypto Jwt.sampleEnv
              1700000000000 cyId)
    else if String.eqb token "access.cy" then
      Some (@Jwt.sign Jwt.sampleCrypto 1700000000000
              {| Jwt.userId := cyId; Jwt.email := Some "cy@example.com";
                 Jwt.roleId := Some {| hex := "64b7f0c2a1d3e4f5a6b7c002" |};
                 Jwt.permissions := Some ["*:*"]; Jwt.type := None |}
              "access-secret" 900)
    else None.

End Samples.

(* ===================================================================== *)
(** * Part II: properties *)
(* ===================================================================== *)

(** ** Strings *)
Module JSFacts.
Import JS.
#[local] Arguments String.append !s1 s2 : simpl nomatch.

Import RBAC.

Lemma colonFree_cons c s :
  colonFree (String c s) <-> c <> ":"%char /\ colonFree s.
Proof.
  unfold colonFree; cbn; split.
  - intros H; split; [apply H; now left | intros d Hd; apply H; now right].
  - intros [Hc Hs] d [<- | Hd]; [exact Hc | now apply Hs].
Qed.

Lemma colonFree_empty : colonFree "".
Proof. intros c []. Qed.

Lemma length_append (s t : string) :
  String.length (s +:+ t) = (String.length s + String.length t)%nat.
Proof. induction s as [|c s IH]; cbn; [reflexivity | now rewrite IH]. Qed.

Lemma append_empty_r (s : string) : s +:+ "" = s.
Proof. induction s as [|c s IH]; cbn; [reflexivity | now rewrite IH]. Qed.

Lemma append_assoc (s t u : string) : (s +:+ t) +:+ u = s +:+ (t +:+ u).
Proof. induction s as [|c s IH]; cbn; [reflexivity | now rewrite IH]. Qed.

Lemma append_inv_head (s t u : string) : s +:+ t = s +:+ u -> t = u.
Proof. induction s as [|c s IH]; cbn; [easy | intros [= H]; auto]. Qed.

Lemma startsWith_length (s p : string) :
  startsWith s p = true -> (String.length p <= String.length s)%nat.
Proof.
  revert s; induction p as [|a p IH]; intros [|b s]; cbn; try lia; try discriminate.
  destruct (Ascii.eqb a b); [|discriminate]. intros H; apply IH in H; lia.
Qed.

Lemma startsWith_refl (s : string) : startsWith s s = true.
Proof. induction s as [|c s IH]; cbn; [reflexivity | now rewrite Ascii.eqb_refl]. Qed.

Lemma startsWith_append (p t : string) : startsWith (p +:+ t) p = true.
Proof. induction p as [|c p IH]; cbn; [reflexivity | now rewrite Ascii.eqb_refl]. Qed.

Lemma slice_length (n : nat) (s : string) :
  String.length (slice n s) = (String.length s - n)%nat.
Proof.
  revert s; induction n as [|n IH]; intros [|c s]; cbn; try reflexivity.
  apply IH.
Qed.

Lemma slice_append (p t : string) : slice (String.length p) (p +:+ t) = t.
Proof. induction p as [|c p IH]; cbn; [reflexivity | exact IH]. Qed.

Lemma endsWith_cons (c : ascii) (s suffix : string) :
  endsWith (String c s) suffix
  = String.eqb (String c s) suffix || endsWith s suffix.
Proof. reflexivity. Qed.

Lemma replace_cons (c : ascii) (s pattern replacement : string) :
  replace (String c s) pattern replacement
  = if startsWith (String c s) pattern
    then replacement +:+ slice (String.length pattern) (String c s)
    else String c (replace s pattern replacement).
Proof. reflexivity. Qed.

(** Removing an occurrence that exists shortens the string by the
    length of the pattern. *)
Lemma replace_empty_length (s pattern : string) :
  endsWith s pattern = true ->
  (String.length (replace s pattern "") + String.length pattern)%nat
  = String.length s.
Proof.
  induction s as [|c s IH].
  - destruct pattern; cbn; [reflexivity | discriminate].
  - rewrite endsWith_cons, replace_cons. intros H.
    destruct (startsWith (String c s) pattern) eqn:Hp.
    + apply startsWith_length in Hp.
      change ("" +:+ ?x) with x. rewrite slice_length. lia.
    + apply orb_prop in H as [H | H].
      * apply String.eqb_eq in H. rewrite <- H, startsWith_refl in Hp.
        discriminate.
      * apply IH in H. cbn [String.length]. lia.
Qed.

Lemma endsWith_append (s suffix : string) : endsWith (s +:+ suffix) suffix = true.
Proof.
  induction s as [|c s IH]; cbn.
  - destruct suffix; cbn; [reflexivity|].
    now rewrite Ascii.eqb_refl, String.eqb_refl.
  - rewrite IH. apply orb_true_r.
Qed.

(** A suffix that begins with a colon cannot end a colon-free string. *)
Lemma endsWith_colonFree (s t : string) :
  colonFree s -> endsWith s (String ":" t) = false.
Proof.
  induction s as [|c s IH]; intros Hs; cbn; [reflexivity|].
  apply colonFree_cons in Hs as [Hc Hs]. rewrite (IH Hs), orb_false_r.
  destruct (Ascii.eqb c ":") eqn:E; [|reflexivity].
  apply Ascii.eqb_eq in E. contradiction.
Qed.

Lemma startsWith_colonFree (s t : string) :
  colonFree s -> s <> "" -> startsWith (String ":" t) s = false.
Proof.
  destruct s as [|c s]; [congruence|]. intros Hs _. cbn.
  apply colonFree_cons in Hs as [Hc _].
  destruct (Ascii.eqb c ":") eqn:E; [|reflexivity].
  apply Ascii.eqb_eq in E. contradiction.
Qed.

(** [r:rest] ends with [:self] only through [rest]. *)
Lemma endsWith_segment (r a : string) :
  colonFree r -> colonFree a ->
  endsWith (r +:+ ":" +:+ a) ":self" = true -> a = "self".
Proof.
  intros Hr Ha. induction r as [|c r IH]; cbn.
  - rewrite (endsWith_colonFree a "self" Ha), orb_false_r.
    intros H. now apply String.eqb_eq in H.
  - apply colonFree_cons in Hr as [Hc Hr].
    destruct (Ascii.eqb c ":") eqn:E.
    + apply Ascii.eqb_eq in E. contradiction.
    + cbn. auto.
Qed.

Lemma split_nonempty (s : string) (sep : ascii) : split s sep <> [].
Proof.
  induction s as [|c s IH]; cbn; [discriminate|].
  destruct (Ascii.eqb c sep); [discriminate|].
  destruct (split s sep); discriminate.
Qed.

(** The resource read by [const [resource, action] = p.split(':')]. *)
Lemma split_resource (r rest : string) :
  colonFree r -> hd "undefined" (split (r +:+ ":" +:+ rest) ":") = r.
Proof.
  change (":" +:+ rest) with (String ":" rest).
  induction r as [|c r IH]; intros Hr; cbn; [reflexivity|].
  apply colonFree_cons in Hr as [Hc Hr].
  destruct (Ascii.eqb c ":") eqn:E.
  - apply Ascii.eqb_eq in E. contradiction.
  - specialize (IH Hr).
    destruct (split (r +:+ String ":" rest) ":") as [|h t] eqn:Hsplit.
    + now apply split_nonempty in Hsplit.
    + cbn [hd] in *. now rewrite IH.
Qed.

Lemma split_colonFree (r : string) :
  colonFree r -> split r ":" = [r].
Proof.
  induction r as [|c r IH]; intros Hr; cbn; [reflexivity|].
  apply colonFree_cons in Hr as [Hc Hr].
  destruct (Ascii.eqb c ":") eqn:E.
  - apply Ascii.eqb_eq in E. contradiction.
  - now rewrite (IH Hr).
Qed.

(** No occurrence of a pattern that begins with a colon starts inside a
    colon-free prefix. *)
Lemma replace_after_prefix (r x p replacement : string) :
  colonFree r ->
  replace (r +:+ x) (String ":" p) replacement
  = r +:+ replace x (String ":" p) replacement.
Proof.
  induction r as [|c r IH]; intros Hr; [reflexivity|].
  apply colonFree_cons in Hr as [Hc Hr].
  cbn [String.append]. rewrite replace_cons. cbn [startsWith].
  destruct (Ascii.eqb ":" c) eqn:E.
  - apply Ascii.eqb_eq in E. congruence.
  - now rewrite IH.
Qed.

Lemma startsWith_before_colon (p a t : string) :
  colonFree p ->
  startsWith (a +:+ String ":" t) p = startsWith a p.
Proof.
  revert a; induction p as [|x p IH]; intros a Hp; [reflexivity|].
  apply colonFree_cons in Hp as [Hx Hp].
  destruct a as [|b a]; cbn [String.append startsWith].
  - destruct (Ascii.eqb x ":") eqn:E; [|reflexivity].
    apply Ascii.eqb_eq in E. contradiction.
  - destruct (Ascii.eqb x b); [now apply IH | reflexivity].
Qed.

Lemma colonFree_self : colonFree "self".
Proof. intros c [<-|[<-|[<-|[<-|[]]]]]; discriminate. Qed.

(** In [r:a:self] the first [:self] is the suffix unless the action
    itself begins with [self]. *)
Lemma replace_self_suffix (r a : string) :
  colonFree r -> colonFree a -> startsWith a "self" = false ->
  replace (r +:+ ":" +:+ a +:+ ":self") ":self" "" = r +:+ ":" +:+ a.
Proof.
  intros Hr Ha Hself.
  rewrite replace_after_prefix by assumption. f_equal.
  change (":" +:+ a +:+ ":self") with (String ":" (a +:+ String ":" "self")).
  rewrite replace_cons.
  change (startsWith (String ":" (a +:+ String ":" "self")) ":self")
    with (startsWith (a +:+ String ":" "self") "self").
  rewrite (startsWith_before_colon "self" a "self" colonFree_self), Hself.
  change (":" +:+ a) with (String ":" a). f_equal.
  rewrite (replace_after_prefix a ":self" "self" "") by assumption.
  apply append_empty_r.
Qed.

(** When the action does begin with [self], it is that occurrence which
    [replace] removes, and the suffix stays. *)
Lemma replace_self_action (r t : string) :
  colonFree r ->
  replace (r +:+ ":" +:+ ("self" +:+ t) +:+ ":self") ":self" ""
  = r +:+ t +:+ ":self".
Proof.
  intros Hr. rewrite replace_after_prefix by assumption. reflexivity.
Qed.

End JSFacts.

(** ** Permission evaluator *)
Module RBACFacts.
Import JS RBAC JSFacts.
#[local] Arguments String.append !s1 s2 : simpl nomatch.

Lemma endsWith_nonempty (p suffix : string) :
  suffix <> "" -> endsWith p suffix = true -> (0 < String.length p)%nat.
Proof.
  destruct p; cbn; [|lia]. destruct suffix; [congruence | discriminate].
Qed.

Lemma hasPermission_depth_absent (d : nat) (user : option User) (required : jsval) :
  match user with Some u => role u = None | None => True end ->
  hasPermission_depth d user required = Ret false.
Proof.
  destruct user as [u|]; [intros H | intros _]; destruct d; cbn;
    now rewrite ?H.
Qed.

Lemma hasPermission_depth_eq (d : nat) (u : User) (r : Role) (p : string) :
  role u = Some r ->
  hasPermission_depth d (Some u) (JsString p)
  = if permissionsInclude r (JsString "*:*") then Ret true
    else if permissionsInclude r (JsString p) then Ret true
    else if permissionsInclude r
              (JsString (hd "undefined" (split p ":") +:+ ":*")) then Ret true
    else if endsWith p ":self"
         then match d with
              | O => Throw RangeError
              | S d' => hasPermission_depth d' (Some u)
                          (JsString (replace p ":self" ""))
              end
         else Ret false.
Proof. intros Hrole. destruct d; cbn; now rewrite Hrole. Qed.

(** The call stack given by [hasPermission] is never exhausted: any two
    depths at least as large as the permission is long agree. *)
Lemma hasPermission_depth_enough (d1 d2 : nat) (user : option User) (p : string) :
  (String.length p <= d1)%nat -> (String.length p <= d2)%nat ->
  hasPermission_depth d1 user (JsString p)
  = hasPermission_depth d2 user (JsString p).
Proof.
  destruct user as [u|];
    [|intros; now rewrite !hasPermission_depth_absent].
  destruct (role u) as [r|] eqn:Hrole;
    [|intros; now rewrite !hasPermission_depth_absent].
  revert d2 p. induction d1 as [|d1 IH]; intros d2 p H1 H2;
    rewrite !(hasPermission_depth_eq _ u r p Hrole);
    repeat (match goal with
            | |- (if ?c then _ else _) = (if ?c then _ else _) => destruct c eqn:?
            end; [reflexivity|]);
    (destruct (endsWith p ":self") eqn:E; [|reflexivity]);
    pose proof (endsWith_nonempty p ":self" ltac:(discriminate) E);
    pose proof (replace_empty_length p ":self" E) as Hlen; cbn in Hlen.
  - lia.
  - destruct d2; [lia|]. apply IH; lia.
Qed.

(** The body of [hasPermission], one call unfolded. *)
Lemma hasPermission_unfold (u : User) (r : Role) (p : string) :
  role u = Some r ->
  hasPermission (Some u) (JsString p)
  = if permissionsInclude r (JsString "*:*") then Ret true
    else if permissionsInclude r (JsString p) then Ret true
    else if permissionsInclude r
              (JsString (hd "undefined" (split p ":") +:+ ":*")) then Ret true
    else if endsWith p ":self"
         then hasPermission (Some u) (JsString (replace p ":self" ""))
         else Ret false.
Proof.
  intros Hrole. unfold hasPermission. cbn [stackDepth].
  rewrite (hasPermission_depth_eq _ u r p Hrole).
  repeat (match goal with
          | |- (if ?c then _ else _) = (if ?c then _ else _) => destruct c eqn:?
          end; [reflexivity|]).
  destruct (endsWith p ":self") eqn:E; [|reflexivity].
  pose proof (endsWith_nonempty p ":self" ltac:(discriminate) E).
  pose proof (replace_empty_length p ":self" E) as Hlen. cbn in Hlen.
  destruct (String.length p) as [|n] eqn:Hn; [lia|].
  apply hasPermission_depth_enough; lia.
Qed.

(** On a string the evaluator always returns a boolean. *)
Lemma hasPermission_string_total (user : option User) (p : string) :
  exists b, hasPermission user (JsString p) = Ret b.
Proof.
  destruct user as [u|];
    [|exists false; now apply hasPermission_depth_absent].
  destruct (role u) as [r|] eqn:Hrole;
    [|exists false; now apply hasPermission_depth_absent].
  remember (String.length p) as n eqn:Hn. revert p Hn.
  induction n as [n IH] using lt_wf_ind. intros p ->.
  rewrite (hasPermission_unfold u r p Hrole).
  repeat (match goal with
          | |- exists _, (if ?c then _ else _) = _ => destruct c eqn:?
          end; [now exists true|]).
  destruct (endsWith p ":self") eqn:E; [|now exists false].
  pose proof (replace_empty_length p ":self" E) as Hrep. cbn in Hrep.
  apply (IH (String.length (replace p ":self" ""))); [lia | reflexivity].
Qed.

(** Step 1: the universal wildcard grants everything, whatever is asked. *)
Lemma hasPermission_universal (u : User) (r : Role) (required : jsval) :
  role u = Some r -> permissionsInclude r (JsString "*:*") = true ->
  hasPermission (Some u) required = Ret true.
Proof.
  intros Hrole Hall. unfold hasPermission.
  destruct (stackDepth required); cbn; now rewrite Hrole, Hall.
Qed.

(** Step 2: an exact match grants. *)
Lemma hasPermission_exact (u : User) (r : Role) (p : string) :
  role u = Some r -> permissionsInclude r (JsString p) = true ->
  hasPermission (Some u) (JsString p) = Ret true.
Proof.
  intros Hrole Hp. rewrite (hasPermission_unfold u r p Hrole), Hp.
  now destruct (permissionsInclude r (JsString "*:*")).
Qed.

(** Step 3: [resource:*] grants every permission whose first segment is
    [resource], self-scoped or not. *)
Lemma hasPermission_resource_wildcard (u : User) (r : Role) (resource rest : string) :
  role u = Some r -> colonFree resource ->
  permissionsInclude r (JsString (resource +:+ ":*")) = true ->
  hasPermission (Some u) (JsString (resource +:+ ":" +:+ rest)) = Ret true.
Proof.
  intros Hrole Hres Hw. rewrite (hasPermission_unfold u r _ Hrole).
  rewrite (split_resource resource rest Hres), Hw.
  now repeat match goal with |- (if ?c then _ else _) = _ => destruct c end.
Qed.

(** Step 4, where [replace] does strip the suffix: the self-scoped
    permission is granted as soon as the base permission is. *)
Lemma hasPermission_self_from_base (u : User) (r : Role) (resource action : string) :
  role u = Some r -> colonFree resource -> colonFree action ->
  startsWith action "self" = false ->
  hasPermission (Some u) (JsString (resource +:+ ":" +:+ action)) = Ret true ->
  hasPermission (Some u) (JsString (resource +:+ ":" +:+ action +:+ ":self"))
  = Ret true.
Proof.
  intros Hrole Hres Hact Hself Hbase.
  rewrite (hasPermission_unfold u r _ Hrole).
  repeat (match goal with |- (if ?c then _ else _) = _ => destruct c end;
          [reflexivity|]).
  rewrite <- !append_assoc, endsWith_append, !append_assoc.
  now rewrite replace_self_suffix.
Qed.

Lemma segment_colonFree (s : string) : RoleModel.segment s = true -> colonFree s.
Proof.
  unfold RoleModel.segment. intros H. apply andb_prop in H as [_ H].
  induction s as [|c s IH]; [apply colonFree_empty|].
  cbn in H. apply andb_prop in H as [Hc Hs].
  apply colonFree_cons. split; [|now apply IH].
  intros ->. discriminate Hc.
Qed.

Lemma segment_nonempty (s : string) :
  RoleModel.segment s = true -> (0 < String.length s)%nat.
Proof. destruct s; [discriminate | cbn; lia]. Qed.

Lemma eqb_length_ne (s t : string) :
  String.length s <> String.length t -> String.eqb s t = false.
Proof.
  intros H. destruct (String.eqb s t) eqn:E; [|reflexivity].
  apply String.eqb_eq in E. now subst.
Qed.

Ltac string_length :=
  repeat first [rewrite length_append | progress cbn [String.length]]; lia.

(** A role holding only [r:a:self] does not hold [r:a]. *)
Lemma hasPermission_self_only_denied (u : User) (resource action : string) :
  colonFree resource -> colonFree action ->
  role u = Some {| permissions := Some [resource +:+ ":" +:+ action +:+ ":self"] |} ->
  hasPermission (Some u) (JsString (resource +:+ ":" +:+ action)) = Ret false.
Proof.
  intros Hres Hact Hrole.
  assert (forall q, String.length q < String.length resource + String.length action + 6 ->
          permissionsInclude
            {| permissions := Some [resource +:+ ":" +:+ action +:+ ":self"] |}
            (JsString q) = false)%nat as Hshort.
  { intros q Hq. unfold permissionsInclude, includes. cbn [permissions existsb].
    rewrite orb_false_r. apply eqb_length_ne. string_length. }
  rewrite (hasPermission_unfold u _ _ Hrole).
  rewrite (split_resource resource action Hres).
  rewrite !Hshort by string_length.
  destruct (endsWith (resource +:+ ":" +:+ action) ":self") eqn:E; [|reflexivity].
  apply endsWith_segment in E; [|assumption..]. subst action.
  change (":" +:+ "self") with (":self" +:+ "").
  rewrite (replace_after_prefix resource (":self" +:+ "") "self" "" Hres).
  change (replace (":self" +:+ "") ":self" "") with "".
  rewrite append_empty_r, (hasPermission_unfold u _ _ Hrole).
  rewrite (split_colonFree resource Hres). cbn [hd].
  rewrite !Hshort by string_length.
  now rewrite endsWith_colonFree.
Qed.

(** Without a permission list nothing is granted. *)
Lemma hasPermission_no_permissions (u : User) (p : string) :
  role u = Some {| permissions := None |} ->
  hasPermission (Some u) (JsString p) = Ret false.
Proof.
  intros Hrole. remember (String.length p) as n eqn:Hn. revert p Hn.
  induction n as [n IH] using lt_wf_ind. intros p ->.
  rewrite (hasPermission_unfold u _ p Hrole). cbn [permissionsInclude permissions].
  destruct (endsWith p ":self") eqn:E; [|reflexivity].
  pose proof (replace_empty_length p ":self" E) as Hrep. cbn in Hrep.
  apply (IH (String.length (replace p ":self" ""))); [lia | reflexivity].
Qed.

Lemma append_self (resource action : string) :
  (resource +:+ ":" +:+ action) +:+ ":self"
  = resource +:+ ":" +:+ action +:+ ":self".
Proof. now rewrite append_assoc. Qed.

(** The cases of the documented test suite ([tests/rbac.test.js]). *)
Example super_admin_has_all_permissions :
  hasPermission (Some (holder None ["*:*"])) (JsString "user:create") = Ret true
  /\ hasPermission (Some (holder None ["*:*"])) (JsString "role:delete") = Ret true.
Proof. split; reflexivity. Qed.

Example exact_permissions_are_checked :
  hasPermission (Some (holder None ["user:read"])) (JsString "user:read") = Ret true
  /\ hasPermission (Some (holder None ["user:read"])) (JsString "user:create")
     = Ret false.
Proof. split; reflexivity. Qed.

Example wildcard_permissions_are_handled :
  hasPermission (Some (holder None ["user:*"])) (JsString "user:read") = Ret true
  /\ hasPermission (Some (holder None ["user:*"])) (JsString "user:create") = Ret true
  /\ hasPermission (Some (holder None ["user:*"])) (JsString "role:read") = Ret false.
Proof. repeat split; reflexivity. Qed.

(** C1 (defect). Step 4 of the evaluator removes the FIRST [:self] of the
    required permission instead of its suffix.  For the well-formed
    permission [user:selfservice:self] the base permission
    [user:selfservice] is granted, yet the self-scoped one is refused:
    the evaluator recurses on [userservice:self]. *)
Theorem hasPermission_self_strip_slip :
  let user := holder None ["user:selfservice"] in
  RoleModel.validPattern "user:selfservice" = true
  /\ RoleModel.validPattern "user:selfservice:self" = true
  /\ replace "user:selfservice:self" ":self" "" = "userservice:self"
  /\ hasPermission (Some user) (JsString "user:selfservice") = Ret true
  /\ hasPermission (Some user) (JsString "user:selfservice:self") = Ret false.
Proof. repeat split; vm_compute; reflexivity. Qed.

(** C2. [canAccessResource] checks [r:a:self] exactly when the
    principal has an id whose string is the owner id, and the unscoped
    [r:a] otherwise; a principal holding only [r:a:self] is let in
    exactly when it is the owner. *)
Theorem canAccessResource_ownership (u : User) (owner resource action : string) :
  RoleModel.segment resource = true -> RoleModel.segment action = true ->
  let required := resource +:+ ":" +:+ action in
  let access := canAccessResource (Some u) (JsString owner) (JsString required) in
  access = (if bool_decide (hex <$> userId u = Some owner)
            then hasPermission (Some u) (JsString (required +:+ ":self"))
            else hasPermission (Some u) (JsString required))
  /\ (role u = Some {| permissions := Some [required +:+ ":self"] |} ->
      access = Ret (bool_decide (hex <$> userId u = Some owner))).
Proof.
  intros Hres%segment_colonFree Hact%segment_colonFree required access.
  assert (access = (if bool_decide (hex <$> userId u = Some owner)
            then hasPermission (Some u) (JsString (required +:+ ":self"))
            else hasPermission (Some u) (JsString required))) as Haccess.
  { subst access. unfold canAccessResource.
    destruct (userId u) as [id|]; cbn [fmap option_fmap option_map bind toString ToString].
    - destruct (String.eqb_spec (hex id) owner) as [->|Hne].
      + now rewrite bool_decide_eq_true_2.
      + rewrite bool_decide_eq_false_2; [reflexivity | congruence].
    - now rewrite bool_decide_eq_false_2. }
  split; [exact Haccess|]. intros Hrole. rewrite Haccess.
  destruct (bool_decide (hex <$> userId u = Some owner)).
  - apply (hasPermission_exact u _ _ Hrole). cbn.
    now rewrite String.eqb_refl.
  - subst required. rewrite append_self in Hrole.
    now apply hasPermission_self_only_denied.
Qed.

Lemma canAccessResource_ownership_witness :
  let u := holder (Some {| hex := "64b7f0c2a1" |}) ["user:update:self"] in
  (canAccessResource (Some u) (JsString "64b7f0c2a1") (JsString "user:update")
   = hasPermission (Some u) (JsString "user:update:self")
   /\ canAccessResource (Some u) (JsString "64b7f0c2a1") (JsString "user:update")
      = Ret true)
  /\ canAccessResource (Some u) (JsString "64b7f0c2a") (JsString "user:update")
     = Ret false.
Proof.
  intros u. split.
  - destruct (canAccessResource_ownership u "64b7f0c2a1" "user" "update"
                eq_refl eq_refl) as [Hchecked Honly].
    split; [exact Hchecked | exact (Honly eq_refl)].
  - destruct (canAccessResource_ownership u "64b7f0c2a" "user" "update"
                eq_refl eq_refl) as [_ Honly].
    exact (Honly eq_refl).
Defined.

(** C10, as the code has it. The evaluator answers [false] for an absent
    user, an absent role and an absent permission list, and on string
    arguments both functions return a boolean and never raise, provided
    [canAccessResource] is handed a user. *)
Theorem evaluator_total_on_strings (user : option User) (required : jsval)
    (owner p : string) :
  (match user with Some u => role u = None | None => True end ->
   hasPermission user required = Ret false)
  /\ (forall u, user = Some u -> role u = Some {| permissions := None |} ->
      hasPermission user (JsString p) = Ret false)
  /\ (exists b, hasPermission user (JsString p) = Ret b)
  /\ (forall u, user = Some u ->
      exists b, canAccessResource user (JsString owner) (JsString p) = Ret b).
Proof.
  repeat split.
  - apply hasPermission_depth_absent.
  - intros u -> Hrole. now apply hasPermission_no_permissions.
  - apply hasPermission_string_total.
  - intros u ->. unfold canAccessResource.
    destruct (userId u) as [id|]; cbn [bind toString ToString].
    + destruct (String.eqb (hex id) owner); apply hasPermission_string_total.
    + apply hasPermission_string_total.
Qed.

Lemma evaluator_total_on_strings_witness :
  hasPermission None JsUndefined = Ret false
  /\ hasPermission (Some {| userId := None; role := Some {| permissions := None |} |})
       (JsString "user:read:self") = Ret false
  /\ exists b, canAccessResource (Some (holder None ["user:read"]))
                 (JsString "64b7f0c2a1") (JsString "not a permission") = Ret b.
Proof.
  split; [|split].
  - exact (proj1 (evaluator_total_on_strings None JsUndefined "" "") I).
  - exact (proj1 (proj2 (evaluator_total_on_strings
             (Some {| userId := None; role := Some {| permissions := None |} |})
             JsNull "" "user:read:self")) _ eq_refl eq_refl).
  - exact (proj2 (proj2 (proj2 (evaluator_total_on_strings
             (Some (holder None ["user:read"])) JsNull
             "64b7f0c2a1" "not a permission"))) _ eq_refl).
Defined.

(** C10, refuted as stated: a required permission that is not a string
    raises [TypeError] at [requiredPermission.split], and so do an
    absent user and an absent owner id in [canAccessResource]. *)
Lemma evaluator_raises_TypeError :
  let id := {| hex := "64b7f0c2a1" |} in
  hasPermission (Some (holder None ["user:read"])) JsUndefined = Throw TypeError
  /\ hasPermission (Some {| userId := None; role := Some {| permissions := None |} |})
       (JsNumber 7) = Throw TypeError
  /\ canAccessResource None (JsString "64b7f0c2a1") (JsString "user:update")
     = Throw TypeError
  /\ canAccessResource (Some (holder (Some id) ["user:update:self"])) JsUndefined
       (JsString "user:update") = Throw TypeError.
Proof. repeat split. Qed.

End RBACFacts.

(** ** Credential issuer *)
Module JwtFacts.
Import JS Jwt.

Section Issuer.
Context `{Crypto}.
Variable env : Env.

Lemma verify_sign (issued now : Z) (c : Claims) (secret : string) (expiresIn : Z) :
  seconds now < seconds issued + expiresIn ->
  verify now (sign issued c secret expiresIn) secret
  = Ret (payload (sign issued c secret expiresIn)).
Proof.
  intros Hlive. unfold verify, sign. cbn [signature payload exp].
  rewrite String.eqb_refl. cbn [negb].
  destruct (Z.leb_spec (seconds issued + expiresIn) (seconds now)); [lia | reflexivity].
Qed.

(** Whatever the signature and the expiry, a token without the
    [password-reset] tag is refused as a reset token. *)
Lemma verifyPasswordResetToken_rejects_untagged (now : Z) (token : Token) :
  type (claims (payload token)) <> Some "password-reset" ->
  verifyPasswordResetToken env now token
  = Throw (Error "Invalid or expired password reset token").
Proof.
  intros Htype. unfold verifyPasswordResetToken, verify.
  destruct (negb _); [reflexivity|].
  destruct (_ <=? _); [reflexivity|]. cbn [bind].
  now rewrite bool_decide_eq_false_2.
Qed.

(** An access or refresh token of the issuer is never a reset token. *)
Lemma access_token_is_no_reset_token (issued now : Z) (user : Subject) (token : Token) :
  generateAccessToken env issued user = Ret token
  \/ generateRefreshToken env issued user = token ->
  verifyPasswordResetToken env now token
  = Throw (Error "Invalid or expired password reset token").
Proof.
  intros Hgen. apply verifyPasswordResetToken_rejects_untagged.
  destruct Hgen as [Hgen | <-]; [|discriminate].
  unfold generateAccessToken in Hgen.
  destruct (subject_role user); inversion Hgen; discriminate.
Qed.

(** A reset token that verifies decodes to its own payload. *)
Lemma verifyPasswordResetToken_Ret (now : Z) (token : Token) (decoded : Payload) :
  verifyPasswordResetToken env now token = Ret decoded ->
  decoded = payload token
  /\ type (claims (payload token)) = Some "password-reset".
Proof.
  unfold verifyPasswordResetToken, verify.
  destruct (negb _); [discriminate|].
  destruct (_ <=? _); [discriminate|]. cbn [bind].
  destruct (bool_decide _) eqn:E; cbn [negb rethrow]; [|discriminate].
  apply bool_decide_eq_true_1 in E. now intros [= <-].
Qed.

(** C3 (defect). A password-reset token is signed with the access secret
    and [verifyAccessToken] looks at no tag: until it expires, the reset
    token of the issuer is accepted as an access token. *)
Theorem verifyAccessToken_accepts_reset_token (issued now : Z) (user : ObjectId) :
  seconds now < seconds issued + 3600 ->
  let token := generatePasswordResetToken env issued user in
  type (claims (payload token)) = Some "password-reset"
  /\ verifyPasswordResetToken env now token = Ret (payload token)
  /\ verifyAccessToken env now token = Ret (payload token).
Proof.
  intros Hlive token. split; [reflexivity|].
  unfold verifyPasswordResetToken, verifyAccessToken.
  subst token. unfold generatePasswordResetToken.
  now rewrite (verify_sign issued now _ _ 3600 Hlive).
Qed.

End Issuer.

Lemma verifyAccessToken_accepts_reset_token_witness :
  let user := {| hex := "64b7f0c2a1d3e4f5a6b7c8d9" |} in
  let token := @generatePasswordResetToken sampleCrypto sampleEnv 1700000000000 user in
  @verifyAccessToken sampleCrypto sampleEnv 1700000060000 token = Ret (payload token).
Proof.
  intros user token.
  exact (proj2 (proj2 (@verifyAccessToken_accepts_reset_token sampleCrypto sampleEnv
                         1700000000000 1700000060000 user ltac:(vm_compute; reflexivity)))).
Defined.

End JwtFacts.

(** ** Audit interceptor *)
Module AuditLoggerFacts.
Import JS Json AuditLogger.

Lemma log_appends (logData : AuditLogModel.doc) (auditlogs : list AuditLogModel.doc) :
  exists records, log logData auditlogs = (auditlogs ++ records)%list
                  /\ (length records <= 1)%nat.
Proof.
  unfold log. destruct (AuditLogModel.validate logData).
  - exists [logData]. split; [reflexivity | cbn; lia].
  - exists []. split; [now rewrite app_nil_r | cbn; lia].
Qed.

Lemma onFinish_failure (action resource : string) (options : Options)
    (req : Request) (res : Response) (auditlogs : list AuditLogModel.doc) :
  ~ (200 <= statusCode res < 300) ->
  onFinish action resource options req res auditlogs = auditlogs.
Proof.
  intros Hstatus. unfold onFinish.
  destruct (Z.leb_spec 200 (statusCode res)), (Z.ltb_spec (statusCode res) 300);
    cbn [andb]; try reflexivity. lia.
Qed.

(** C5. The interceptor leaves the answer and the effects of the wrapped
    operation as they are; what it adds to the audit log comes after them,
    is at most one record, and is nothing unless the status is 2xx. *)
Theorem auditAction_success_gated (action resource : string) (options : Options)
    (next : Request -> Db -> Response * Db) (req : Request) (db : Db) :
  let operation := next req db in
  let wrapped := auditAction action resource options next req db in
  fst wrapped = fst operation
  /\ users (snd wrapped) = users (snd operation)
  /\ roles (snd wrapped) = roles (snd operation)
  /\ (exists records,
        auditlogs (snd wrapped) = (auditlogs (snd operation) ++ records)%list
        /\ (length records <= 1)%nat
        /\ (records <> [] -> 200 <= statusCode (fst operation) < 300))
  /\ (~ (200 <= statusCode (fst operation) < 300) ->
      snd wrapped = snd operation).
Proof.
  intros operation wrapped. subst wrapped. unfold auditAction.
  fold operation. destruct operation as [res db']. cbn [fst snd].
  repeat split.
  - unfold onFinish.
    destruct (Z.leb_spec 200 (statusCode res)), (Z.ltb_spec (statusCode res) 300);
      cbn [andb set_auditlogs auditlogs].
    2-4: exists []; rewrite app_nil_r; repeat split; cbn; (lia || congruence).
    match goal with
    | |- context [log ?d ?l] =>
        destruct (log_appends d l) as (records & -> & Hlen)
    end.
    exists records. repeat split; (assumption || lia).
  - intros Hstatus. rewrite onFinish_failure by assumption. now destruct db'.
Qed.

Lemma auditAction_success_gated_witness :
  let req := {| user := None; params_id := Some "64b7f0c2a1d3e4f5a6b7c8d9";
                body := None; ip := Some "10.0.0.7"; remoteAddress := None;
                userAgentHeader := Some "curl/8.4" |} in
  let db := {| users := ∅; roles := ∅; auditlogs := [] |} in
  let notFound := fun (_ : Request) (d : Db) =>
    ({| statusCode := 404; responseData := Unparsable "Not Found" |}, d) in
  snd (auditAction "DELETE_USER" "users"
         {| captureBefore := false; captureAfter := false; resourceIdExtractor := None |}
         notFound req db) = db.
Proof.
  intros req db notFound.
  exact (proj2 (proj2 (proj2 (proj2
    (auditAction_success_gated "DELETE_USER" "users"
       {| captureBefore := false; captureAfter := false; resourceIdExtractor := None |}
       notFound req db)))) ltac:(cbn; lia)).
Defined.

Lemma lookup_delete_same (fields : list (string * json)) (key : string) :
  lookup (delete fields key) key = None.
Proof.
  induction fields as [|[k v] fields IH]; [reflexivity|].
  cbn [delete List.filter fst]. destruct (String.eqb k key) eqn:E; cbn [negb].
  - exact IH.
  - cbn [lookup]. rewrite E. exact IH.
Qed.

Lemma lookup_delete_other (fields : list (string * json)) (key other : string) :
  other <> key -> lookup (delete fields key) other = lookup fields other.
Proof.
  intros Hne. induction fields as [|[k v] fields IH]; [reflexivity|].
  cbn [delete List.filter fst lookup].
  destruct (String.eqb_spec k key) as [->|Hk]; cbn [negb lookup].
  - destruct (String.eqb_spec key other); [congruence | exact IH].
  - destruct (String.eqb k other); [reflexivity | exact IH].
Qed.

Lemma removeIfTruthy_same (fields : list (string * json)) (field : string) :
  truthy_opt (lookup (removeIfTruthy fields field) field) = false.
Proof.
  unfold removeIfTruthy. destruct (truthy_opt (lookup fields field)) eqn:E.
  - now rewrite lookup_delete_same.
  - exact E.
Qed.

Lemma removeIfTruthy_keeps_falsy (fields : list (string * json)) (field other : string) :
  truthy_opt (lookup fields other) = false ->
  truthy_opt (lookup (removeIfTruthy fields field) other) = false.
Proof.
  intros Hother. unfold removeIfTruthy.
  destruct (truthy_opt (lookup fields field)); [|exact Hother].
  destruct (String.eqb_spec other field) as [->|Hne].
  - now rewrite lookup_delete_same.
  - now rewrite lookup_delete_other.
Qed.

(** What [sanitizeData] does achieve on an object: afterwards none of
    [password], [token], [secret] is a key with a truthy value. *)
Lemma sanitizeData_strips_truthy (fields sanitized : list (string * json)) (field : string) :
  In field sensitiveFields ->
  sanitizeData (Some (JObject fields)) = Some (JObject sanitized) ->
  truthy_opt (lookup sanitized field) = false.
Proof.
  intros Hfield [= <-]. cbn [sensitiveFields fold_left].
  destruct Hfield as [<- | [<- | [<- | []]]].
  - do 2 apply removeIfTruthy_keeps_falsy. apply removeIfTruthy_same.
  - apply removeIfTruthy_keeps_falsy. apply removeIfTruthy_same.
  - apply removeIfTruthy_same.
Qed.

(** C7 (defect). The [after] snapshot does not go through [sanitizeData]:
    [extractAfterData] deletes only [data.password].  A [token] or [secret]
    under [data], and a [password] of a payload without [data], reach the
    stored record; and [sanitizeData] itself keeps a sensitive key whose
    value is falsy, so an empty [password] stays in the [before] snapshot. *)
Theorem auditAction_after_snapshot_keeps_secrets :
  let req := {| user := Some (RBAC.holder (Some {| hex := "64b7f0c2a1d3e4f5a6b7c8d9" |})
                            ["user:update"]);
                params_id := Some "64b7f0c2a1d3e4f5a6b7c8d0";
                body := Some (JObject [("email", JString "ann@example.com");
                                       ("password", JString "")]);
                ip := Some "10.0.0.7"; remoteAddress := None;
                userAgentHeader := Some "curl/8.4" |} in
  let answer := JObject [("success", JBool true);
                         ("data", JObject [("_id", JString "64b7f0c2a1d3e4f5a6b7c8d0");
                                           ("password", JString "$2a$12$hash");
                                           ("token", JString "eyJhbGciOi");
                                           ("secret", JString "s3cr3t")])] in
  let res := {| statusCode := 200; responseData := Parsable answer |} in
  let flat := JObject [("_id", JString "64b7f0c2a1d3e4f5a6b7c8d0");
                       ("password", JString "$2a$12$hash")] in
  (exists record,
      onFinish "UPDATE_USER" "users" recordBoth req res [] = [record]
      /\ keys (default JNull (AuditLogModel.after record)) = ["_id"; "token"; "secret"]
      /\ keys (default JNull (AuditLogModel.before record)) = ["email"; "password"])
  /\ extractAfterData (Parsable flat) recordBoth = Some flat.
Proof.
  intros req answer res flat. split; [|reflexivity].
  eexists. split; [reflexivity|]. split; reflexivity.
Qed.

End AuditLoggerFacts.

(** ** Role service *)
Module RoleServiceFacts.
Import JS RoleService.

Lemma countByRole_positive (users : gmap string UserModel.doc) (roleId : ObjectId)
    (k : string) (u : UserModel.doc) :
  users !! k = Some u -> UserModel.role u = roleId ->
  (0 < UserModel.countByRole users roleId)%nat.
Proof.
  intros Hk Hrole. unfold UserModel.countByRole.
  assert (In (k, u) (List.filter
            (fun kv => String.eqb (hex (UserModel.role (snd kv))) (hex roleId))
            (map_to_list users))) as Hin.
  { apply filter_In. split.
    - apply list_elem_of_In, elem_of_map_to_list, Hk.
    - cbn. rewrite Hrole. apply String.eqb_refl. }
  destruct (List.filter _ _); [destruct Hin | cbn; lia].
Qed.

Lemma includes_In (array : list string) (s : string) :
  includes array (JsString s) = true -> In s array.
Proof.
  cbn. intros Hex. apply existsb_exists in Hex as (x & Hx & Heq).
  apply String.eqb_eq in Heq. now subst.
Qed.

(** [updateRole] keeps the name of the super role and its wildcard. *)
Lemma updateRole_super (db : Db) (roleId : ObjectId) (r : RoleModel.doc)
    (updateData : RoleModel.update) :
  roles db !! hex roleId = Some r -> RoleModel.name r = "super-admin" ->
  exists r', roles (snd (updateRole db roleId updateData)) !! hex roleId = Some r'
    /\ RoleModel.name r' = "super-admin"
    /\ (In "*:*" (RoleModel.permissions r) -> In "*:*" (RoleModel.permissions r')).
Proof.
  intros Hr Hname. unfold updateRole. rewrite Hr, Hname, String.eqb_refl.
  cbn [andb].
  repeat match goal with
         | |- context [if ?c then (Throw _, db) else _] =>
             destruct c eqn:?; [exists r; cbn [snd]; now repeat split|]
         end.
  unfold RoleModel.findByIdAndUpdate, RoleModel.validateUpdate.
  destruct (RoleModel.validateName updateData) as [[]|e] eqn:Hvn; cbn [bind];
    [|exists r; cbn [snd]; now repeat split].
  destruct (RoleModel.validatePermissions updateData) as [[]|e]; cbn [bind];
    [|exists r; cbn [snd]; now repeat split].
  destruct (RoleModel.validateDescription updateData) as [[]|e]; cbn [bind];
    [|exists r; cbn [snd]; now repeat split].
  rewrite Hr. cbn [snd set_roles roles].
  exists (RoleModel.applyUpdate updateData r).
  split; [apply lookup_insert_eq|].
  unfold RoleModel.applyUpdate. cbn [RoleModel.name RoleModel.permissions].
  split.
  - unfold RoleModel.validateName in Hvn.
    destruct (RoleModel.set_name updateData) as [n|]; cbn [default]; [|exact Hname].
    unfold present, differs in *.
    destruct (String.eqb_spec n ""); [discriminate Hvn|].
    destruct (String.eqb_spec n "super-admin"); [assumption|].
    cbn in *. discriminate.
  - destruct (RoleModel.set_permissions updateData) as [p|]; cbn [default]; [|auto].
    intros _. apply includes_In.
    match goal with
    | H : negb (includes p _) = false |- _ => now apply negb_false_iff in H
    end.
Qed.

(** C8. The role named [super-admin] cannot be deleted; a role that a
    principal references cannot be deleted, with the role-in-use error
    unless it is the super role; in both cases the database is left as it
    was.  [updateRole] leaves the super role its name and its [*:*]. *)
Theorem super_role_protected (db : Db) (roleId : ObjectId) (r : RoleModel.doc)
    (updateData : RoleModel.update) :
  roles db !! hex roleId = Some r ->
  (RoleModel.name r = "super-admin" ->
   deleteRole db roleId = (Throw (Error "Cannot delete super-admin role"), db))
  /\ ((exists k u, users db !! k = Some u /\ UserModel.role u = roleId) ->
      exists message,
        deleteRole db roleId = (Throw (Error message), db)
        /\ (RoleModel.name r <> "super-admin" ->
            message = "Cannot delete role that is assigned to users"))
  /\ (RoleModel.name r = "super-admin" ->
      exists r',
        roles (snd (updateRole db roleId updateData)) !! hex roleId = Some r'
        /\ RoleModel.name r' = "super-admin"
        /\ (In "*:*" (RoleModel.permissions r) -> In "*:*" (RoleModel.permissions r'))).
Proof.
  intros Hr. split; [|split].
  - intros Hname. unfold deleteRole. now rewrite Hr, Hname.
  - intros (k & u & Hk & Hrole). unfold deleteRole. rewrite Hr.
    destruct (String.eqb_spec (RoleModel.name r) "super-admin") as [Hname|Hname].
    + eexists. split; [reflexivity | contradiction].
    + pose proof (countByRole_positive _ _ _ _ Hk Hrole) as Hpos.
      destruct (Nat.ltb_spec 0 (UserModel.countByRole (users db) roleId)); [|lia].
      eexists. split; reflexivity.
  - now apply updateRole_super.
Qed.

Lemma super_role_protected_witness :
  let superId := {| hex := "64b7f0c2a1d3e4f5a6b7c002" |} in
  let userRoleId := {| hex := "64b7f0c2a1d3e4f5a6b7c001" |} in
  deleteRole Samples.db superId
  = (Throw (Error "Cannot delete super-admin role"), Samples.db)
  /\ (exists message,
        deleteRole Samples.db userRoleId = (Throw (Error message), Samples.db)
        /\ (RoleModel.name Samples.userRole <> "super-admin" ->
            message = "Cannot delete role that is assigned to users"))
  /\ exists r',
       roles (snd (updateRole Samples.db superId
                     {| RoleModel.set_name := None;
                        RoleModel.set_permissions := Some ["*:*"; "user:read"];
                        RoleModel.set_description := None |}))
       !! "64b7f0c2a1d3e4f5a6b7c002" = Some r'
       /\ RoleModel.name r' = "super-admin"
       /\ (In "*:*" (RoleModel.permissions Samples.superAdmin) ->
           In "*:*" (RoleModel.permissions r')).
Proof.
  intros superId userRoleId.
  assert (roles Samples.db !! hex superId = Some Samples.superAdmin) as Hsuper
    by (vm_compute; reflexivity).
  assert (roles Samples.db !! hex userRoleId = Some Samples.userRole) as Huser
    by (vm_compute; reflexivity).
  split; [|split].
  - exact (proj1 (super_role_protected Samples.db superId Samples.superAdmin
                    {| RoleModel.set_name := None; RoleModel.set_permissions := None;
                       RoleModel.set_description := None |} Hsuper) eq_refl).
  - apply (proj1 (proj2 (super_role_protected Samples.db userRoleId Samples.userRole
                    {| RoleModel.set_name := None; RoleModel.set_permissions := None;
                       RoleModel.set_description := None |} Huser))).
    exists "64b7f0c2a1d3e4f5a6b7c8d9", Samples.ann.
    split; vm_compute; reflexivity.
  - exact (proj2 (proj2 (super_role_protected Samples.db superId Samples.superAdmin
                    _ Hsuper)) eq_refl).
Defined.

End RoleServiceFacts.

(** ** Session lifecycle manager *)
Module AuthServiceFacts.
Import JS Json AuthService.

Section Service.
Context `{Jwt.Crypto}.
Variable env : Jwt.Env.

Lemma failedLogin_appends (db : Db) (req : AuditLogger.Request)
    (user : option ObjectId) (additionalData : json) :
  failedLogin db req user additionalData
  = set_auditlogs (auditlogs db ++ [failedLoginRecord req user additionalData])%list db.
Proof. reflexivity. Qed.

(** C6, as the code has it. Every refused login appends exactly one
    [FAILED_LOGIN] record, changes nothing else and returns no token.  The
    record has the attempted email and no actor for an unknown email, the
    email and the matched user as actor for a wrong password, and the user
    as actor with the reason, not the email, for a deactivated account,
    which is refused with [Account is deactivated] whatever the password. *)
Theorem login_refused (now : Z) (db : Db) (email password : string)
    (req : AuditLogger.Request) :
  let attempt := login env now db email password req in
  let refused message actor additionalData :=
    attempt = (Throw (Error message),
               set_auditlogs
                 (auditlogs db ++ [failedLoginRecord req actor additionalData])%list db) in
  match UserModel.findByEmail (users db) email with
  | None =>
      refused "Invalid credentials" None (JObject [("email", JString email)])
  | Some (id, user) =>
      (UserModel.isActive user = false ->
       refused "Account is deactivated" (Some id)
         (JObject [("reason", JString "Account deactivated")]))
      /\ (UserModel.isActive user = true ->
          UserModel.comparePassword user password = false ->
          refused "Invalid credentials" (Some id) (JObject [("email", JString email)]))
  end.
Proof.
  intros attempt refused. subst attempt refused. unfold login. cbv beta.
  destruct (UserModel.findByEmail (users db) email) as [[id user]|];
    [|reflexivity].
  split.
  - intros ->. reflexivity.
  - intros -> ->. reflexivity.
Qed.

(** [forgotPassword] always answers with the same message; the result
    carries a reset token exactly when the account exists. *)
Theorem forgotPassword_same_message (now : Z) (db : Db) (email : string)
    (req : AuditLogger.Request) :
  exists result db',
    forgotPassword env now db email req = (Ret result, db')
    /\ message result = forgotMessage
    /\ (resetToken result = None <-> UserModel.findByEmail (users db) email = None).
Proof.
  unfold forgotPassword.
  destruct (UserModel.findByEmail (users db) email) as [[id user]|];
    cbn [UserModel.save]; eexists; eexists;
    (split; [reflexivity|]); cbn [message resetToken];
    (split; [reflexivity | split; congruence]).
Qed.

Lemma findByResetToken_Some (now : Z) (db : Db) (id : ObjectId) (token : Jwt.Token)
    (user : UserModel.doc) :
  findByResetToken now db id token = Some user ->
  users db !! hex id = Some user
  /\ UserModel.resetPasswordToken user = Some token
  /\ exists expires, UserModel.resetPasswordExpires user = Some expires
                     /\ now < expires.
Proof.
  unfold findByResetToken. destruct (users db !! hex id) as [u|]; [|discriminate].
  destruct (bool_decide _) eqn:Htoken; [|discriminate].
  apply bool_decide_eq_true_1 in Htoken.
  destruct (UserModel.resetPasswordExpires u) as [expires|] eqn:He; [|discriminate].
  destruct (Z.ltb_spec now expires); [|discriminate].
  intros [= <-]. repeat split; try assumption. now exists expires.
Qed.

(** Once the stored reset token is cleared, no token resets the password. *)
Lemma resetPassword_cleared (now : Z) (db : Db) (token : Jwt.Token)
    (newPassword : string) (req : AuditLogger.Request) (user : UserModel.doc) :
  users db !! hex (Jwt.userId (Jwt.claims (Jwt.payload token))) = Some user ->
  UserModel.resetPasswordToken user = None ->
  exists e, resetPassword env now db token newPassword req = (Throw e, db).
Proof.
  intros Huser Hcleared. unfold resetPassword.
  destruct (Jwt.verifyPasswordResetToken env now token) as [decoded|e] eqn:Hv;
    [|now exists e].
  apply JwtFacts.verifyPasswordResetToken_Ret in Hv as [-> _].
  unfold findByResetToken. rewrite Huser, Hcleared.
  rewrite bool_decide_eq_false_2 by discriminate. cbn [andb]. now eexists.
Qed.

(** C4. A reset succeeds only for the token stored on the decoded
    principal with an expiry in the future; it stores the hash of the new
    password and clears both reset fields.  The same token, though it
    still verifies, is then refused at any time, and the refusal leaves
    the database, passwords included, as it is. *)
Theorem resetPassword_single_use (now : Z) (db db' : Db) (token : Jwt.Token)
    (newPassword message : string) (req : AuditLogger.Request) :
  resetPassword env now db token newPassword req = (Ret message, db') ->
  let id := Jwt.userId (Jwt.claims (Jwt.payload token)) in
  (exists user expires user',
      users db !! hex id = Some user
      /\ UserModel.resetPasswordToken user = Some token
      /\ UserModel.resetPasswordExpires user = Some expires
      /\ now < expires
      /\ users db' !! hex id = Some user'
      /\ UserModel.password user' = Jwt.bcrypt_hash newPassword
      /\ UserModel.resetPasswordToken user' = None
      /\ UserModel.resetPasswordExpires user' = None)
  /\ Jwt.verifyPasswordResetToken env now token = Ret (Jwt.payload token)
  /\ (forall now' newPassword' req',
        exists e, resetPassword env now' db' token newPassword' req' = (Throw e, db')).
Proof.
  intros Hreset id. unfold resetPassword in Hreset.
  destruct (Jwt.verifyPasswordResetToken env now token) as [decoded|e] eqn:Hv;
    [|discriminate].
  pose proof (JwtFacts.verifyPasswordResetToken_Ret env now token decoded Hv)
    as [-> _].
  fold id in Hreset.
  destruct (findByResetToken now db id token) as [user|] eqn:Hfind; [|discriminate].
  apply findByResetToken_Some in Hfind as (Huser & Htoken & expires & Hexp & Hlt).
  unfold UserModel.save in Hreset.
  destruct (_ <? 6)%nat; [discriminate|].
  injection Hreset as _ <-.
  set (user' := UserModel.set_password (Jwt.bcrypt_hash _) _).
  assert (users (set_auditlogs
            (AuditLogger.logUserAction "CHANGE_PASSWORD" "auth" id id None
               (Some (JObject [("reason", JString "Password reset")])) (Some req)
               (auditlogs (set_users (<[hex id := user']> (users db)) db)))
            (set_users (<[hex id := user']> (users db)) db)) !! hex id
          = Some user') as Hstored by apply lookup_insert_eq.
  split; [|split].
  - exists user, expires, user'. repeat split; assumption || reflexivity.
  - reflexivity.
  - intros now' newPassword' req'.
    now apply (resetPassword_cleared now' _ token newPassword' req' user').
Qed.

End Service.

Lemma resetPassword_single_use_witness :
  let token := @Jwt.generatePasswordResetToken Jwt.sampleCrypto Jwt.sampleEnv
                 1700000000000 Samples.annId in
  let pending := set_users
    {[ "64b7f0c2a1d3e4f5a6b7c8d9" :=
         UserModel.set_reset (Some token) (Some 1700003600000) Samples.ann ]}
    Samples.db in
  exists db',
    @resetPassword Jwt.sampleCrypto Jwt.sampleEnv 1700000060000 pending token
      "tr0ub4dor&3" Samples.req
    = (Ret "Password has been reset successfully", db')
    /\ exists e,
         @resetPassword Jwt.sampleCrypto Jwt.sampleEnv 1700000120000 db' token
           "another one" Samples.req
         = (Throw e, db').
Proof.
  intros token pending. eexists. split; [vm_compute; reflexivity|].
  refine (proj2 (proj2 (@resetPassword_single_use Jwt.sampleCrypto Jwt.sampleEnv
            1700000060000 pending _ token "tr0ub4dor&3" _ Samples.req _))
            1700000120000 "another one" Samples.req).
  vm_compute; reflexivity.
Defined.

Lemma login_refused_witness :
  @login Jwt.sampleCrypto Jwt.sampleEnv 1700000000000 Samples.db
    "ann@example.com" "correct horse" Samples.req
  = (Throw (Error "Account is deactivated"),
     set_auditlogs
       (auditlogs Samples.db
        ++ [failedLoginRecord Samples.req (Some Samples.annId)
              (JObject [("reason", JString "Account deactivated")])])%list
       Samples.db).
Proof.
  pose proof (@login_refused Jwt.sampleCrypto Jwt.sampleEnv 1700000000000
                Samples.db "ann@example.com" "correct horse" Samples.req) as Hrefused.
  cbv zeta in Hrefused.
  assert (UserModel.findByEmail (users Samples.db) "ann@example.com"
          = Some (Samples.annId, Samples.ann)) as Hfind by (vm_compute; reflexivity).
  rewrite Hfind in Hrefused. exact (proj1 Hrefused eq_refl).
Defined.

(** C6, refuted as stated: the record of a login refused for a
    deactivated account names the account as its actor and does not hold
    the attempted email. *)
Lemma login_deactivated_record :
  exists record,
    snd (@login Jwt.sampleCrypto Jwt.sampleEnv 1700000000000 Samples.db
           "ann@example.com" "correct horse" Samples.req)
    = set_auditlogs [record] Samples.db
    /\ AuditLogModel.action record = "FAILED_LOGIN"
    /\ AuditLogModel.userId record = JString "64b7f0c2a1d3e4f5a6b7c8d9"
    /\ AuditLogModel.after record
       = Some (JObject [("reason", JString "Account deactivated")]).
Proof. eexists. split; [vm_compute; reflexivity|]. repeat split. Qed.

Lemma forgotPassword_same_message_witness :
  exists result db',
    @forgotPassword Jwt.sampleCrypto Jwt.sampleEnv 1700000000000 Samples.db
      "bob@example.com" Samples.req = (Ret result, db')
    /\ message result = forgotMessage
    /\ (resetToken result = None
        <-> UserModel.findByEmail (users Samples.db) "bob@example.com" = None).
Proof.
  exact (@forgotPassword_same_message Jwt.sampleCrypto Jwt.sampleEnv 1700000000000
           Samples.db "bob@example.com" Samples.req).
Defined.

(** C9 (defect). The branch for an unknown email is written so as not
    to reveal that the user does not exist, and the message is the same
    in both branches; yet the result for an email with an account also
    holds the minted reset token (marked in the source as to be removed
    in production), so the two answers differ and tell the caller whether
    the account exists. *)
Lemma forgotPassword_reveals_account :
  let known := @forgotPassword Jwt.sampleCrypto Jwt.sampleEnv 1700000000000
                 Samples.db "ann@example.com" Samples.req in
  let unknown := @forgotPassword Jwt.sampleCrypto Jwt.sampleEnv 1700000000000
                   Samples.db "bob@example.com" Samples.req in
  fst unknown = Ret {| message := forgotMessage; resetToken := None |}
  /\ fst known
     = Ret {| message := forgotMessage;
              resetToken :=
                Some (@Jwt.generatePasswordResetToken Jwt.sampleCrypto
                        Jwt.sampleEnv 1700000000000 Samples.annId) |}
  /\ fst known <> fst unknown.
Proof.
  intros known unknown.
  assert (fst unknown = Ret {| message := forgotMessage; resetToken := None |})
    as Hunknown by (vm_compute; reflexivity).
  assert (fst known
          = Ret {| message := forgotMessage;
                   resetToken :=
                     Some (@Jwt.generatePasswordResetToken Jwt.sampleCrypto
                             Jwt.sampleEnv 1700000000000 Samples.annId) |})
    as Hknown by (vm_compute; reflexivity).
  repeat split; [assumption..|]. rewrite Hknown, Hunknown. discriminate.
Qed.

End AuthServiceFacts.

(** ** Splitting and the [Authorization] header *)
Module HeaderProperties.
Import JS Jwt.
#[local] Arguments String.append !s1 s2 : simpl nomatch.

Lemma sepFree_cons (sep c : ascii) (s : string) :
  sepFree sep (String c s) <-> c <> sep /\ sepFree sep s.
Proof.
  unfold sepFree; cbn; split.
  - intros Hfree; split; [apply Hfree; now left | intros d Hd; apply Hfree; now right].
  - intros [Hc Hs] d [<- | Hd]; [exact Hc | now apply Hs].
Qed.

Lemma split_sepFree (sep : ascii) (s : string) :
  sepFree sep s -> split s sep = [s].
Proof.
  induction s as [|c s IH]; intros Hs; cbn; [reflexivity|].
  apply sepFree_cons in Hs as [Hc Hs].
  destruct (Ascii.eqb_spec c sep); [contradiction|]. now rewrite (IH Hs).
Qed.

Lemma split_append_sep (sep : ascii) (a rest : string) :
  sepFree sep a -> split (a +:+ String sep rest) sep = a :: split rest sep.
Proof.
  induction a as [|c a IH]; intros Ha; cbn.
  - now rewrite Ascii.eqb_refl.
  - apply sepFree_cons in Ha as [Hc Ha].
    destruct (Ascii.eqb_spec c sep); [contradiction|]. now rewrite (IH Ha).
Qed.

(** What [split] returns determines the string: the first part is free of
    the separator, and the rest of the parts split the rest of the string. *)
Lemma split_inv (sep : ascii) (s h : string) (t : list string) :
  split s sep = h :: t ->
  sepFree sep h
  /\ ((t = [] /\ s = h)
      \/ exists rest, s = h +:+ String sep rest /\ split rest sep = t /\ t <> []).
Proof.
  revert h t. induction s as [|c s IH]; intros h t; cbn.
  - intros [= <- <-]. split; [intros c [] | now left].
  - destruct (Ascii.eqb_spec c sep) as [->|Hc].
    + intros [= <- <-]. split; [intros c [] |].
      right. exists s. split; [reflexivity|]. split; [reflexivity|].
      apply JSFacts.split_nonempty.
    + destruct (split s sep) as [|h' t'] eqn:Hsplit; [intros [= <- <-] | intros [= <- <-]].
      * exfalso. now apply JSFacts.split_nonempty in Hsplit.
      * destruct (IH h' t' eq_refl) as [Hfree Hshape].
        split; [now apply sepFree_cons|].
        destruct Hshape as [[-> ->] | (rest & -> & Hrest & Hne)].
        -- now left.
        -- right. exists rest. now repeat split.
Qed.

(** X4. [extractTokenFromHeader] yields a token exactly for the headers
    [Bearer <token>] with one space and a token without spaces (an empty
    token included); every other header, and no header, yields [null]. *)
Theorem extractTokenFromHeader_Bearer (authHeader : option string) (token : string) :
  extractTokenFromHeader authHeader = Some token
  <-> authHeader = Some ("Bearer " +:+ token) /\ sepFree " " token.
Proof.
  unfold extractTokenFromHeader. split.
  - destruct authHeader as [header|]; [|discriminate].
    destruct (String.eqb header ""); [discriminate|].
    destruct (split header " ") as [|scheme [|tok [|]]] eqn:Hsplit; try discriminate.
    destruct (String.eqb_spec scheme "Bearer") as [->|]; [|discriminate].
    intros [= ->].
    apply split_inv in Hsplit as [_ [[[=] _] | (rest & -> & Hrest & _)]].
    apply split_inv in Hrest as [Hfree [[_ ->] | (rest' & _ & _ & Hne)]];
      [|congruence].
    now split.
  - intros [-> Hfree].
    change ("Bearer " +:+ token) with ("Bearer" +:+ String " " token).
    rewrite split_append_sep, (split_sepFree _ _ Hfree).
    + reflexivity.
    + intros c [<-|[<-|[<-|[<-|[<-|[<-|[]]]]]]]; discriminate.
Qed.

End HeaderProperties.

(** ** Credential issuer: lifetimes and token classes *)
Module JwtProperties.
Import JS Jwt.

Section Issuer.
Context `{Crypto}.
Variable env : Env.

(** X1. Round trip: until its lifetime ([JWT_ACCESS_EXPIRES_IN], 900
    seconds by default) is over, the access token issued for a user with a
    populated role verifies and decodes to the user's id and email, the
    role's id and the role's permission list as they were at issuance. *)
Theorem access_token_round_trip (issued now : Z) (user : Subject)
    (role_id : ObjectId) (role_permissions : list string) :
  subject_role user = Populated role_id role_permissions ->
  seconds now < seconds issued + default 900 (JWT_ACCESS_EXPIRES_IN env) ->
  exists token decoded,
    generateAccessToken env issued user = Ret token
    /\ verifyAccessToken env now token = Ret decoded
    /\ userId (claims decoded) = subject_id user
    /\ email (claims decoded) = Some (subject_email user)
    /\ roleId (claims decoded) = Some role_id
    /\ permissions (claims decoded) = Some role_permissions
    /\ iat decoded = seconds issued.
Proof.
  intros Hrole Hlive. unfold generateAccessToken, verifyAccessToken. rewrite Hrole.
  eexists. eexists. split; [reflexivity|].
  rewrite (JwtFacts.verify_sign issued now _ _ _ Hlive). cbn [rethrow].
  split; [reflexivity|]. now repeat split.
Qed.

(** X2. The two token classes are kept apart by the secrets alone.  An
    access token is refused as a refresh token as soon as the two secrets
    tag its payload differently; when they tag it alike (the same secret
    configured twice), the access token is accepted as a refresh token. *)
Theorem refresh_rejects_access_token (issued now : Z) (user : Subject) (token : Token) :
  generateAccessToken env issued user = Ret token ->
  (HS256 (JWT_ACCESS_SECRET env) (payload token)
   <> HS256 (JWT_REFRESH_SECRET env) (payload token) ->
   verifyRefreshToken env now token
   = Throw (Error "Invalid or expired refresh token"))
  /\ (HS256 (JWT_ACCESS_SECRET env) (payload token)
      = HS256 (JWT_REFRESH_SECRET env) (payload token) ->
      seconds now < seconds issued + default 900 (JWT_ACCESS_EXPIRES_IN env) ->
      verifyRefreshToken env now token = Ret (payload token)).
Proof.
  intros Hgen.
  assert (signature token = HS256 (JWT_ACCESS_SECRET env) (payload token)
          /\ exp (payload token)
             = seconds issued + default 900 (JWT_ACCESS_EXPIRES_IN env))
    as [Hsig Hexp].
  { unfold generateAccessToken in Hgen.
    destruct (subject_role user); inversion Hgen; now split. }
  unfold verifyRefreshToken, verify. rewrite Hsig. split.
  - intros Hne. destruct (String.eqb_spec (HS256 (JWT_ACCESS_SECRET env) (payload token))
                            (HS256 (JWT_REFRESH_SECRET env) (payload token)));
      [contradiction | reflexivity].
  - intros -> Hlive. rewrite String.eqb_refl, Hexp. cbn [negb].
    destruct (Z.leb_spec (seconds issued + default 900 (JWT_ACCESS_EXPIRES_IN env))
                (seconds now)); [lia | reflexivity].
Qed.

(** X3. A token is refused from the second of its expiry on, whoever
    signed it, and each verifier has a single error for every refusal. *)
Theorem expired_token_rejected (now : Z) (token : Token) :
  (exp (payload token) <= seconds now ->
   verifyAccessToken env now token
   = Throw (Error "Invalid or expired access token")
   /\ verifyRefreshToken env now token
      = Throw (Error "Invalid or expired refresh token")
   /\ verifyPasswordResetToken env now token
      = Throw (Error "Invalid or expired password reset token"))
  /\ (forall e, verifyAccessToken env now token = Throw e ->
                e = Error "Invalid or expired access token")
  /\ (forall e, verifyRefreshToken env now token = Throw e ->
                e = Error "Invalid or expired refresh token")
  /\ (forall e, verifyPasswordResetToken env now token = Throw e ->
                e = Error "Invalid or expired password reset token").
Proof.
  split.
  - intros Hexpired.
    unfold verifyAccessToken, verifyRefreshToken, verifyPasswordResetToken, verify.
    destruct (Z.leb_spec (exp (payload token)) (seconds now)); [|lia].
    repeat split; now destruct (negb _).
  - unfold verifyAccessToken, verifyRefreshToken, verifyPasswordResetToken, rethrow.
    repeat split; intros e;
      match goal with
      | |- match ?m with _ => _ end = _ -> _ => destruct m
      end; congruence.
Qed.

End Issuer.

Lemma access_token_round_trip_witness :
  let user := {| subject_id := {| hex := "64b7f0c2a1d3e4f5a6b7c8d9" |};
                 subject_email := "ann@example.com";
                 subject_role := Populated {| hex := "64b7f0c2a1d3e4f5a6b7c001" |}
                                   ["user:read:self"] |} in
  exists token decoded,
    @generateAccessToken sampleCrypto sampleEnv 1700000000000 user = Ret token
    /\ @verifyAccessToken sampleCrypto sampleEnv 1700000899999 token = Ret decoded
    /\ userId (claims decoded) = subject_id user
    /\ email (claims decoded) = Some (subject_email user)
    /\ roleId (claims decoded) = Some {| hex := "64b7f0c2a1d3e4f5a6b7c001" |}
    /\ permissions (claims decoded) = Some ["user:read:self"]
    /\ iat decoded = seconds 1700000000000.
Proof.
  intros user.
  exact (@access_token_round_trip sampleCrypto sampleEnv 1700000000000 1700000899999
           user _ _ eq_refl ltac:(vm_compute; reflexivity)).
Defined.

Lemma refresh_rejects_access_token_witness :
  let user := {| subject_id := {| hex := "64b7f0c2a1d3e4f5a6b7c8d9" |};
                 subject_email := "ann@example.com";
                 subject_role := Unpopulated {| hex := "64b7f0c2a1d3e4f5a6b7c001" |} |} in
  exists token,
    @generateAccessToken sampleCrypto sampleEnv 1700000000000 user = Ret token
    /\ @verifyRefreshToken sampleCrypto sampleEnv 1700000060000 token
       = Throw (Error "Invalid or expired refresh token").
Proof.
  intros user. eexists. split; [reflexivity|].
  apply (proj1 (@refresh_rejects_access_token sampleCrypto sampleEnv 1700000000000
                  1700000060000 user _ eq_refl)).
  vm_compute. discriminate.
Defined.

Lemma expired_token_rejected_witness :
  let token := @generateRefreshToken sampleCrypto sampleEnv 1700000000000
                 {| subject_id := {| hex := "64b7f0c2a1d3e4f5a6b7c8d9" |};
                    subject_email := "ann@example.com";
                    subject_role := Dangling |} in
  @verifyRefreshToken sampleCrypto sampleEnv 1700604800000 token
  = Throw (Error "Invalid or expired refresh token").
Proof.
  intros token.
  exact (proj1 (proj2 (proj1 (@expired_token_rejected sampleCrypto sampleEnv
                                1700604800000 token)
                         ltac:(vm_compute; discriminate)))).
Defined.

End JwtProperties.

(** ** Permission evaluator: lists of permissions, the Role method *)
Module RBACProperties.
Import JS RBAC JSFacts RBACFacts.
#[local] Arguments String.append !s1 s2 : simpl nomatch.

Lemma some_strings (user : option User) (array : list string) :
  exists b, some (hasPermission user) (map JsString array) = Ret b
    /\ (b = true <-> exists p, In p array /\ hasPermission user (JsString p) = Ret true).
Proof.
  induction array as [|p array IH]; cbn [map some].
  - exists false. split; [reflexivity|]. split; [discriminate | intros (p & [] & _)].
  - destruct (hasPermission_string_total user p) as [[|] Hp]; rewrite Hp; cbn [bind].
    + exists true. split; [reflexivity|]. split; [|reflexivity].
      intros _. exists p. split; [now left | exact Hp].
    + destruct IH as (b & -> & Hb). exists b. split; [reflexivity|].
      rewrite Hb. split.
      * intros (q & Hq & Hgranted). exists q. split; [now right | exact Hgranted].
      * intros (q & [<- | Hq] & Hgranted); [congruence|]. now exists q.
Qed.

Lemma every_strings (user : option User) (array : list string) :
  exists b, every (hasPermission user) (map JsString array) = Ret b
    /\ (b = true <-> forall p, In p array -> hasPermission user (JsString p) = Ret true).
Proof.
  induction array as [|p array IH]; cbn [map every].
  - exists true. split; [reflexivity|]. split; [intros _ p [] | reflexivity].
  - destruct (hasPermission_string_total user p) as [[|] Hp]; rewrite Hp; cbn [bind].
    + destruct IH as (b & -> & Hb). exists b. split; [reflexivity|].
      rewrite Hb. split.
      * intros Hall q [<- | Hq]; [exact Hp | now apply Hall].
      * intros Hall q Hq. apply Hall. now right.
    + exists false. split; [reflexivity|]. split; [discriminate|].
      intros Hall. specialize (Hall p (or_introl eq_refl)). congruence.
Qed.

(** On a list of strings [hasAnyPermission] returns a boolean: [true]
    exactly when one of the listed permissions is granted, hence [false]
    for the empty list. *)
Lemma hasAnyPermission_strings (user : option User) (permissions : list string) :
  exists b,
    hasAnyPermission user (Some (map JsString permissions)) = Ret b
    /\ (b = true
        <-> exists p, In p permissions /\ hasPermission user (JsString p) = Ret true).
Proof.
  destruct permissions as [|p permissions].
  - exists false. split; [reflexivity|]. split; [discriminate | intros (p & [] & _)].
  - apply (some_strings user (p :: permissions)).
Qed.

(** On a list of strings [hasAllPermissions] returns a boolean:
    [true] exactly when the list is not empty and every listed permission
    is granted.  The empty list is refused, not vacuously accepted. *)
Lemma hasAllPermissions_strings (user : option User) (permissions : list string) :
  exists b,
    hasAllPermissions user (Some (map JsString permissions)) = Ret b
    /\ (b = true
        <-> permissions <> []
            /\ forall p, In p permissions -> hasPermission user (JsString p) = Ret true).
Proof.
  destruct permissions as [|p permissions].
  - exists false. split; [reflexivity|]. split; [discriminate | now intros [? _]].
  - destruct (every_strings user (p :: permissions)) as (b & Hb & Hiff).
    exists b. split; [exact Hb|]. rewrite Hiff. split.
    + intros Hall. split; [discriminate | exact Hall].
    + now intros [_ Hall].
Qed.

Lemma In_includes (array : list string) (s : string) :
  In s array -> includes array (JsString s) = true.
Proof.
  intros Hin. cbn. apply existsb_exists. exists s. split; [exact Hin|].
  apply String.eqb_refl.
Qed.

(** X7. Every permission that [getUserPermissions] lists for a user is
    granted to that user by [hasPermission]. *)
Theorem getUserPermissions_granted (user : option User) (p : string) :
  In p (getUserPermissions user) -> hasPermission user (JsString p) = Ret true.
Proof.
  unfold getUserPermissions. destruct user as [u|]; [|intros []].
  destruct (role u) as [r|] eqn:Hrole; [|intros []].
  destruct (permissions r) as [array|] eqn:Hperm; [|intros []].
  cbn [default]. intros Hin. apply (hasPermission_exact u r p Hrole).
  unfold permissionsInclude. rewrite Hperm. now apply In_includes.
Qed.

Lemma getUserPermissions_granted_witness :
  hasPermission (Some (holder None ["user:read"; "audit:read:self"]))
    (JsString "audit:read:self") = Ret true.
Proof.
  apply (getUserPermissions_granted
           (Some (holder None ["user:read"; "audit:read:self"])) "audit:read:self").
  cbn. right. left. reflexivity.
Defined.

(** X8. The evaluator grants whatever the [hasPermission] method of the
    Role model grants for the same permission list, and the two agree on
    every permission that does not end in [:self]; the method knows no
    self scope. *)
Theorem role_method_agrees (r : RoleModel.doc) (id : option ObjectId) (p : string) :
  let user := Some (holder id (RoleModel.permissions r)) in
  (RoleModel.hasPermission r p = true -> hasPermission user (JsString p) = Ret true)
  /\ (endsWith p ":self" = false ->
      hasPermission user (JsString p) = Ret (RoleModel.hasPermission r p)).
Proof.
  intros user. subst user.
  rewrite (hasPermission_unfold (holder id (RoleModel.permissions r))
             {| permissions := Some (RoleModel.permissions r) |} p eq_refl).
  unfold RoleModel.hasPermission, permissionsInclude. cbn [permissions].
  split.
  - repeat match goal with
           | |- (if ?c then _ else _) = true -> _ => destruct c; [reflexivity|]
           end.
    intros ->. reflexivity.
  - intros ->.
    now repeat match goal with
               | |- context [if ?c then _ else _] => destruct c
               end.
Qed.

Lemma role_method_agrees_witness :
  hasPermission (Some (holder None ["user:*"])) (JsString "user:delete") = Ret true
  /\ hasPermission (Some (holder None ["user:read"])) (JsString "user:create")
     = Ret false.
Proof.
  split.
  - exact (proj1 (role_method_agrees
             {| RoleModel.name := "admin"; RoleModel.permissions := ["user:*"];
                RoleModel.description := "" |} None "user:delete") eq_refl).
  - exact (proj2 (role_method_agrees
             {| RoleModel.name := "reader"; RoleModel.permissions := ["user:read"];
                RoleModel.description := "" |} None "user:create") eq_refl).
Defined.

End RBACProperties.

(** ** Audit logger: the actor, the sanitizer *)
Module AuditLoggerProperties.
Import JS Json AuditLogger AuditLoggerFacts.

Lemma responseUserId_truthy (responseData : SentData) (id : json) :
  responseUserId responseData = Some id -> truthy id = true.
Proof.
  unfold responseUserId. destruct responseData as [| |parsed]; try discriminate.
  destruct (get parsed "data") as [data|]; [|discriminate].
  destruct (truthy_opt data && truthy_opt _) eqn:Hdata.
  - intros Hid. apply andb_prop in Hdata as [_ Hdata]. now rewrite Hid in Hdata.
  - destruct (get parsed "_id") as [top|]; [|discriminate].
    destruct (truthy_opt top) eqn:Htop; [|discriminate]. now intros ->.
Qed.

Lemma responseUserId_sent (responseData : SentData) :
  sent responseData = false -> responseUserId responseData = None.
Proof. destruct responseData; cbn; [reflexivity.. | discriminate]. Qed.

(** X9. The actor of an intercepted request does not depend on the
    action: it is the id of the authenticated user when there is one, else
    the id found in the response ([data._id], then [_id]), else [null].
    The branches for [CREATE_USER] and for the other actions coincide. *)
Theorem resolveUserId_fallback (action : string) (req : Request)
    (responseData : SentData) :
  (forall u id, user req = Some u -> RBAC.userId u = Some id -> hex id <> "") ->
  resolveUserId action req responseData
  = match user req with
    | Some {| RBAC.userId := Some id |} => JString (hex id)
    | _ => default JNull (responseUserId responseData)
    end.
Proof.
  intros Hid. unfold resolveUserId.
  destruct (user req) as [[[id|] r]|] eqn:Huser; cbn [RBAC.userId objectIdJson truthy].
  - specialize (Hid _ id eq_refl eq_refl).
    assert (String.eqb (hex id) "" = false) as Hne
      by (destruct (String.eqb_spec (hex id) ""); [contradiction | reflexivity]).
    repeat (rewrite ?Hne; cbn [truthy negb andb RBAC.userId objectIdJson]).
    reflexivity.
  - destruct (sent responseData) eqn:Hsent;
      rewrite ?(responseUserId_sent _ Hsent);
      destruct (responseUserId responseData) as [found|] eqn:Hfound;
      cbn [default from_option id truthy negb andb];
      destruct (String.eqb action "CREATE_USER"); cbn [negb andb truthy];
      rewrite ?(responseUserId_truthy _ _ Hfound), ?andb_false_r, ?andb_true_r;
      cbn [negb andb truthy]; reflexivity.
  - destruct (sent responseData) eqn:Hsent;
      rewrite ?(responseUserId_sent _ Hsent);
      destruct (responseUserId responseData) as [found|] eqn:Hfound;
      cbn [default from_option id truthy negb andb];
      destruct (String.eqb action "CREATE_USER"); cbn [negb andb truthy];
      rewrite ?(responseUserId_truthy _ _ Hfound), ?andb_false_r, ?andb_true_r;
      cbn [negb andb truthy]; reflexivity.
Qed.

Lemma resolveUserId_fallback_witness :
  resolveUserId "CREATE_USER" Samples.req
    (Parsable (JObject [("success", JBool true);
                        ("data", JObject [("_id", JString "64b7f0c2a1d3e4f5a6b7c8d0")])]))
  = JString "64b7f0c2a1d3e4f5a6b7c8d0".
Proof.
  apply (resolveUserId_fallback "CREATE_USER" Samples.req).
  intros u id Huser. discriminate Huser.
Defined.

Lemma lookup_removeIfTruthy (fields : list (string * json)) (field key : string) :
  lookup (removeIfTruthy fields field) key
  = if String.eqb key field && truthy_opt (lookup fields field) then None
    else lookup fields key.
Proof.
  unfold removeIfTruthy.
  destruct (truthy_opt (lookup fields field)) eqn:Htruthy;
    [|now rewrite andb_false_r].
  rewrite andb_true_r. destruct (String.eqb_spec key field) as [->|Hne].
  - apply lookup_delete_same.
  - now apply lookup_delete_other.
Qed.

(** X10. On an object [sanitizeData] removes exactly the keys [password],
    [token] and [secret] whose value is truthy; every other key keeps its
    value, and so does a sensitive key with a falsy value. *)
Theorem sanitizeData_object (fields : list (string * json)) (key : string) :
  exists sanitized,
    sanitizeData (Some (JObject fields)) = Some (JObject sanitized)
    /\ lookup sanitized key
       = if existsb (String.eqb key) sensitiveFields && truthy_opt (lookup fields key)
         then None else lookup fields key.
Proof.
  eexists. split; [reflexivity|].
  cbn [sensitiveFields fold_left existsb].
  rewrite !lookup_removeIfTruthy. cbn [String.eqb Ascii.eqb Bool.eqb andb].
  destruct (String.eqb_spec key "password") as [->|Hp];
    [cbn [String.eqb Ascii.eqb Bool.eqb andb orb];
     now destruct (truthy_opt (lookup fields "password"))|].
  destruct (String.eqb_spec key "token") as [->|Ht];
    [cbn [String.eqb Ascii.eqb Bool.eqb andb orb];
     now destruct (truthy_opt (lookup fields "token"))|].
  destruct (String.eqb_spec key "secret") as [->|Hs];
    [cbn [String.eqb Ascii.eqb Bool.eqb andb orb];
     now destruct (truthy_opt (lookup fields "secret"))|].
  reflexivity.
Qed.

Lemma removeIfTruthy_falsy (fields : list (string * json)) (field : string) :
  truthy_opt (lookup fields field) = false -> removeIfTruthy fields field = fields.
Proof. unfold removeIfTruthy. now intros ->. Qed.

Lemma sanitize_fields_fixed (fields : list (string * json)) :
  let sanitized := fold_left removeIfTruthy sensitiveFields fields in
  fold_left removeIfTruthy sensitiveFields sanitized = sanitized.
Proof.
  cbn [sensitiveFields fold_left].
  rewrite (removeIfTruthy_falsy _ "password");
    [|do 2 apply removeIfTruthy_keeps_falsy; apply removeIfTruthy_same].
  rewrite (removeIfTruthy_falsy _ "token");
    [|apply removeIfTruthy_keeps_falsy; apply removeIfTruthy_same].
  apply removeIfTruthy_falsy, removeIfTruthy_same.
Qed.

(** X11. [sanitizeData] is idempotent: sanitizing a sanitized value
    changes nothing, whatever the value (object, array, primitive or
    absent). *)
Theorem sanitizeData_idempotent (data : option json) :
  sanitizeData (sanitizeData data) = sanitizeData data.
Proof.
  destruct data as [[| | | |items|fields]|]; try reflexivity;
    cbn [sanitizeData]; do 2 f_equal; apply sanitize_fields_fixed.
Qed.

(** X12. [logUserAction] keeps the records already in the log, in
    place and in order, and adds at most one record at the end: exactly
    one when the action and the resource are of the schema's enumerations.
    The record it adds never holds a truthy [password], [token] or
    [secret] at the top level of its [before] or [after] object. *)
Theorem logUserAction_sanitized (action resource : string) (resourceId user : ObjectId)
    (before after : option json) (req : option Request)
    (auditlogs : list AuditLogModel.doc) :
  exists written,
    logUserAction action resource resourceId user before after req auditlogs
    = (auditlogs ++ written)%list
    /\ (length written <= 1)%nat
    /\ (In action AuditLogModel.actions -> In resource AuditLogModel.resources ->
        length written = 1%nat)
    /\ forall record field fields,
         In record written ->
         In field sensitiveFields ->
         AuditLogModel.before record = Some (JObject fields)
         \/ AuditLogModel.after record = Some (JObject fields) ->
         truthy_opt (lookup fields field) = false.
Proof.
  assert (forall field fields data,
            In field sensitiveFields ->
            sanitizeData data = Some (JObject fields) ->
            truthy_opt (lookup fields field) = false) as Hclean.
  { intros field fields [[| | | |items|original]|] Hfield; cbn [sanitizeData];
      try discriminate.
    - intros [= <-]. cbn [sensitiveFields fold_left].
      destruct Hfield as [<- | [<- | [<- | []]]];
        repeat first [apply removeIfTruthy_same | apply removeIfTruthy_keeps_falsy].
    - intros Hsan. now apply (sanitizeData_strips_truthy original). }
  unfold logUserAction, log.
  destruct (AuditLogModel.validate _) eqn:Hvalid.
  - eexists [_]. split; [reflexivity|]. split; [cbn; lia|]. split; [reflexivity|].
    intros record field fields [<- | []] Hfield Hsnapshot.
    cbn [AuditLogModel.before AuditLogModel.after] in Hsnapshot.
    destruct Hsnapshot as [Hb | Ha]; eapply Hclean; eassumption.
  - exists []. split; [now rewrite app_nil_r|]. split; [cbn; lia|]. split.
    + intros Haction Hresource. exfalso.
      unfold AuditLogModel.validate in Hvalid.
      cbn [AuditLogModel.action AuditLogModel.resource] in Hvalid.
      apply andb_false_iff in Hvalid as [Hno | Hno];
        apply not_true_iff_false in Hno; apply Hno, existsb_exists; eexists;
        (split; [eassumption | apply String.eqb_refl]).
    + intros record field fields [].
Qed.

Lemma logUserAction_sanitized_witness :
  let record :=
    {| AuditLogModel.userId := JString "64b7f0c2a1d3e4f5a6b7c8d9";
       AuditLogModel.action := "UPDATE_USER";
       AuditLogModel.resource := "users";
       AuditLogModel.resourceId := Some "64b7f0c2a1d3e4f5a6b7c8d9";
       AuditLogModel.before := None;
       AuditLogModel.after := Some (JObject [("email", JString "ann@example.com")]);
       AuditLogModel.ipAddress := None;
       AuditLogModel.userAgent := None |} in
  logUserAction "UPDATE_USER" "users" Samples.annId Samples.annId None
    (Some (JObject [("email", JString "ann@example.com");
                    ("password", JString "hunter2")])) None []
  = [record]
  /\ truthy_opt (lookup [("email", JString "ann@example.com")] "password") = false.
Proof.
  intros record.
  destruct (logUserAction_sanitized "UPDATE_USER" "users" Samples.annId Samples.annId
              None (Some (JObject [("email", JString "ann@example.com");
                                   ("password", JString "hunter2")])) None [])
    as (written & Hlog & _ & _ & Hclean).
  split; [vm_compute; reflexivity|].
  apply (Hclean record "password" [("email", JString "ann@example.com")]).
  - cbn [app] in Hlog. rewrite <- Hlog. vm_compute. left. reflexivity.
  - left. reflexivity.
  - right. reflexivity.
Defined.

End AuditLoggerProperties.

(** ** Session lifecycle manager: how the operations compose *)
Module SessionProperties.
Import JS Json AuthService Session.

Lemma findByEmail_Some (users : gmap string UserModel.doc) (e : string)
    (id : ObjectId) (u : UserModel.doc) :
  UserModel.findByEmail users e = Some (id, u) ->
  users !! hex id = Some u /\ UserModel.email u = e.
Proof.
  unfold UserModel.findByEmail.
  destruct (List.find _ _) as [[k v]|] eqn:Hfind; [|discriminate].
  intros [= <- <-]. apply find_some in Hfind as [Hin Heq]. cbn in *.
  split; [now apply elem_of_map_to_list, list_elem_of_In | now apply String.eqb_eq].
Qed.

Lemma findByEmail_unique (users : gmap string UserModel.doc) (k : string)
    (u : UserModel.doc) :
  uniqueEmails users -> users !! k = Some u ->
  UserModel.findByEmail users (UserModel.email u) = Some ({| hex := k |}, u).
Proof.
  intros Hunique Hk. unfold UserModel.findByEmail.
  destruct (List.find _ _) as [[k' v]|] eqn:Hfind.
  - apply find_some in Hfind as [Hin Heq]. cbn in Heq.
    apply String.eqb_eq in Heq.
    apply list_elem_of_In, elem_of_map_to_list in Hin.
    pose proof (Hunique _ _ _ _ Hin Hk Heq) as ->. congruence.
  - assert (In (k, u) (map_to_list users)) as Hin
      by now apply list_elem_of_In, elem_of_map_to_list.
    pose proof (find_none _ _ Hfind (k, u) Hin) as Hno. cbn in Hno.
    now rewrite String.eqb_refl in Hno.
Qed.

Lemma log_extends (logData : AuditLogModel.doc) (db : Db) :
  extends db (set_auditlogs (AuditLogger.log logData (auditlogs db)) db).
Proof.
  destruct (AuditLoggerFacts.log_appends logData (auditlogs db)) as (records & Hlog & _).
  exists records. exact Hlog.
Qed.

Lemma extends_refl (db : Db) : extends db db.
Proof. exists []. now rewrite app_nil_r. Qed.

Lemma extends_users (db : Db) (users' : gmap string UserModel.doc)
    (logData : AuditLogModel.doc) :
  extends db (set_auditlogs
                (AuditLogger.log logData (auditlogs (set_users users' db)))
                (set_users users' db)).
Proof. apply (log_extends logData (set_users users' db)). Qed.

Section Service.
Context `{Jwt.Crypto}.
Variable env : Jwt.Env.

Lemma populate_roles (db1 db2 : Db) (id : ObjectId) (user : UserModel.doc) :
  roles db1 = roles db2 -> populate db1 id user = populate db2 id user.
Proof. unfold populate. now intros ->. Qed.

Lemma generateAccessToken_any_time (now now' : Z) (user : Jwt.Subject) (token : Jwt.Token) :
  Jwt.generateAccessToken env now user = Ret token ->
  exists token',
    Jwt.generateAccessToken env now' user = Ret token'
    /\ Jwt.userId (Jwt.claims (Jwt.payload token')) = Jwt.subject_id user.
Proof.
  unfold Jwt.generateAccessToken.
  destruct (Jwt.subject_role user); [| |discriminate]; intros _;
    eexists; split; reflexivity.
Qed.

(** X13. A refresh never writes to the database: whatever it answers,
    success or refusal, the database is as it was.  It succeeds only for a
    token that verifies against the refresh secret and whose user still
    exists and is active, and then both new tokens are issued at the time
    of the refresh for that same user; a token that fails verification,
    or whose user is gone or deactivated, is refused. *)
Theorem refreshToken_rotates (now : Z) (db : Db) (token : Jwt.Token)
    (req : AuditLogger.Request) :
  let id := Jwt.userId (Jwt.claims (Jwt.payload token)) in
  snd (refreshToken env now db token req) = db
  /\ (forall tokens,
        fst (refreshToken env now db token req) = Ret tokens ->
        Jwt.verifyRefreshToken env now token = Ret (Jwt.payload token)
        /\ (exists user, users db !! hex id = Some user /\ UserModel.isActive user = true)
        /\ Jwt.userId (Jwt.claims (Jwt.payload (newAccessToken tokens))) = id
        /\ Jwt.userId (Jwt.claims (Jwt.payload (newRefreshToken tokens))) = id
        /\ Jwt.iat (Jwt.payload (newAccessToken tokens)) = Jwt.seconds now
        /\ Jwt.iat (Jwt.payload (newRefreshToken tokens)) = Jwt.seconds now)
  /\ ((exists e, Jwt.verifyRefreshToken env now token = Throw e)
      \/ users db !! hex id = None
      \/ (exists user, users db !! hex id = Some user /\ UserModel.isActive user = false) ->
      exists e, refreshToken env now db token req = (Throw e, db)).
Proof.
  intros id. unfold refreshToken.
  destruct (Jwt.verifyRefreshToken env now token) as [decoded|e] eqn:Hv.
  - assert (decoded = Jwt.payload token) as ->.
    { unfold Jwt.verifyRefreshToken, Jwt.verify in Hv.
      destruct (negb _); [discriminate|]. destruct (_ <=? _); [discriminate|].
      now injection Hv. }
    fold id.
    destruct (users db !! hex id) as [user|] eqn:Huser.
    + destruct (UserModel.isActive user) eqn:Hactive; cbn [negb].
      * destruct (Jwt.generateAccessToken env now _) as [access|e] eqn:Hgen.
        -- cbn [fst snd]. split; [reflexivity|]. split.
           ++ intros tokens [= <-]. cbn [newAccessToken newRefreshToken].
              unfold Jwt.generateAccessToken in Hgen.
              split; [reflexivity|]. split; [now exists user|].
              split; [destruct (Jwt.subject_role _); inversion Hgen; reflexivity|].
              split; [reflexivity|].
              split; [destruct (Jwt.subject_role _); inversion Hgen; reflexivity|].
              reflexivity.
           ++ intros [[e He] | [Hnone | (user' & Hsome & Hoff)]]; congruence.
        -- cbn [fst snd]. split; [reflexivity|]. split; [discriminate|].
           intros _. now exists e.
      * cbn [fst snd]. split; [reflexivity|]. split; [discriminate|].
        intros _. now eexists.
    + cbn [fst snd]. split; [reflexivity|]. split; [discriminate|].
      intros _. now eexists.
  - cbn [fst snd]. split; [reflexivity|]. split; [discriminate|].
    intros _. now exists e.
Qed.

(** The refusals: a refresh token of a user who was deleted or
    deactivated is refused although it verifies. *)
Lemma refreshToken_stale_user (now : Z) (db : Db) (token : Jwt.Token)
    (req : AuditLogger.Request) :
  match users db !! hex (Jwt.userId (Jwt.claims (Jwt.payload token))) with
  | Some user => UserModel.isActive user = false
  | None => True
  end ->
  exists e, refreshToken env now db token req = (Throw e, db).
Proof.
  intros Hstale. unfold refreshToken.
  destruct (Jwt.verifyRefreshToken env now token) as [decoded|e] eqn:Hv;
    [|now exists e].
  assert (decoded = Jwt.payload token) as ->.
  { unfold Jwt.verifyRefreshToken, Jwt.verify in Hv.
    destruct (negb _); [discriminate|]. destruct (_ <=? _); [discriminate|].
    now injection Hv. }
  destruct (users db !! _) as [user|]; [rewrite Hstale|]; now eexists.
Qed.

(** X14. The refresh token that a successful login returns is accepted
    by [refreshToken] on the database the login left, at any time before
    its lifetime ([JWT_REFRESH_EXPIRES_IN], 7 days by default) is over. *)
Theorem login_then_refresh (now now' : Z) (db db' : Db) (email password : string)
    (req req' : AuditLogger.Request) (result : LoginResult) :
  login env now db email password req = (Ret result, db') ->
  Jwt.seconds now' < Jwt.seconds now + default 604800 (Jwt.JWT_REFRESH_EXPIRES_IN env) ->
  exists tokens,
    Session.refreshToken env now' db' (AuthService.refreshToken result) req'
    = (Ret tokens, db')
    /\ Jwt.userId (Jwt.claims (Jwt.payload (newAccessToken tokens)))
       = fst (login_user result).
Proof.
  intros Hlogin Hlive. unfold login in Hlogin.
  destruct (UserModel.findByEmail (users db) email) as [[id user]|]; [|discriminate].
  destruct (UserModel.isActive user) eqn:Hactive; [|discriminate]. cbn [negb] in Hlogin.
  destruct (UserModel.comparePassword user password); [|discriminate].
  cbn [negb UserModel.save] in Hlogin.
  destruct (Jwt.generateAccessToken env now _) as [access|] eqn:Hgen; [|discriminate].
  injection Hlogin as <- <-. cbn [AuthService.refreshToken login_user fst].
  unfold Session.refreshToken, Jwt.verifyRefreshToken, Jwt.generateRefreshToken.
  rewrite (JwtFacts.verify_sign now now' _ _ _ Hlive).
  cbn [Jwt.rethrow Jwt.payload Jwt.sign Jwt.claims Jwt.userId populate
       Jwt.subject_id users set_auditlogs set_users].
  rewrite lookup_insert_eq. cbn [UserModel.isActive UserModel.set_lastLogin].
  rewrite Hactive. cbn [negb].
  destruct (generateAccessToken_any_time now now' _ _ Hgen) as (access' & Hgen' & Hid).
  erewrite (populate_roles _ _ id _) in Hgen'; [rewrite Hgen' | reflexivity].
  eexists. split; [reflexivity|]. exact Hid.
Qed.

End Service.

End SessionProperties.

(** ** Session lifecycle manager: sample runs *)
Module SessionRuns.
Import JS Json AuthService Session SessionProperties.

Lemma refreshToken_rotates_witness :
  let token := @Jwt.generateRefreshToken Jwt.sampleCrypto Jwt.sampleEnv 1700000000000
                 (populate Samples.live Samples.cyId Samples.cy) in
  exists tokens,
    @refreshToken Jwt.sampleCrypto Jwt.sampleEnv 1700000060000 Samples.live token
      Samples.req = (Ret tokens, Samples.live)
    /\ Jwt.userId (Jwt.claims (Jwt.payload (newAccessToken tokens))) = Samples.cyId
    /\ Jwt.iat (Jwt.payload (newRefreshToken tokens)) = 1700000060.
Proof.
  intros token. eexists. split; [vm_compute; reflexivity|].
  pose proof (@refreshToken_rotates Jwt.sampleCrypto Jwt.sampleEnv 1700000060000
                Samples.live token Samples.req) as (_ & Hrot & _).
  specialize (Hrot _ ltac:(vm_compute; reflexivity))
    as (_ & _ & Haccess & _ & _ & Hrefresh).
  split; [exact Haccess | exact Hrefresh].
Defined.

Lemma refreshToken_stale_user_witness :
  let token := @Jwt.generateRefreshToken Jwt.sampleCrypto Jwt.sampleEnv 1700000000000
                 (populate Samples.live Samples.annId Samples.ann) in
  exists e,
    @refreshToken Jwt.sampleCrypto Jwt.sampleEnv 1700000060000 Samples.live token
      Samples.req = (Throw e, Samples.live).
Proof.
  intros token.
  apply (@refreshToken_stale_user Jwt.sampleCrypto Jwt.sampleEnv 1700000060000
           Samples.live token Samples.req).
  vm_compute. reflexivity.
Defined.

Lemma login_then_refresh_witness :
  exists result db' tokens,
    @login Jwt.sampleCrypto Jwt.sampleEnv 1700000000000 Samples.live
      "cy@example.com" "battery staple" Samples.req = (Ret result, db')
    /\ @Session.refreshToken Jwt.sampleCrypto Jwt.sampleEnv 1700600000000 db'
         (AuthService.refreshToken result) Samples.req = (Ret tokens, db').
Proof.
  destruct (@login Jwt.sampleCrypto Jwt.sampleEnv 1700000000000 Samples.live
              "cy@example.com" "battery staple" Samples.req)
    as [[result|e] db'] eqn:Hlogin; [|vm_compute in Hlogin; discriminate].
  destruct (@login_then_refresh Jwt.sampleCrypto Jwt.sampleEnv 1700000000000
              1700600000000 _ _ _ _ Samples.req Samples.req _ Hlogin
              ltac:(vm_compute; reflexivity)) as (tokens & Hrefresh & _).
  exists result, db', tokens. split; [reflexivity | exact Hrefresh].
Defined.

End SessionRuns.

(** ** Session lifecycle manager: logout, password change, recovery *)
Module LifecycleProperties.
Import JS Json AuthService Session SessionProperties.

Lemma seconds_bound (now now' span : Z) :
  Jwt.seconds now' < Jwt.seconds now + span -> now' < now + span * 1000.
Proof.
  unfold Jwt.seconds. intros Hlt.
  pose proof (Z.div_mod now 1000 ltac:(lia)).
  pose proof (Z.mod_pos_bound now 1000 ltac:(lia)).
  pose proof (Z.div_mod now' 1000 ltac:(lia)).
  pose proof (Z.mod_pos_bound now' 1000 ltac:(lia)).
  lia.
Qed.

Lemma objectId_eta (id : ObjectId) : {| hex := hex id |} = id.
Proof. now destruct id. Qed.

Section Service.
Context `{Jwt.Crypto}.
Variable env : Jwt.Env.

(** What a refresh answers depends on the users and the roles only. *)
Lemma refreshToken_reads (now : Z) (db1 db2 : Db) (token : Jwt.Token)
    (req1 req2 : AuditLogger.Request) :
  roles db1 = roles db2 ->
  (forall id, match users db1 !! id, users db2 !! id with
              | Some u1, Some u2 =>
                  UserModel.isActive u1 = UserModel.isActive u2
                  /\ UserModel.role u1 = UserModel.role u2
                  /\ UserModel.email u1 = UserModel.email u2
              | None, None => True
              | _, _ => False
              end) ->
  fst (refreshToken env now db1 token req1) = fst (refreshToken env now db2 token req2).
Proof.
  intros Hroles Husers. unfold refreshToken.
  destruct (Jwt.verifyRefreshToken env now token) as [decoded|]; [|reflexivity].
  specialize (Husers (hex (Jwt.userId (Jwt.claims decoded)))).
  destruct (users db1 !! _) as [u1|], (users db2 !! _) as [u2|];
    try contradiction; [|reflexivity].
  destruct Husers as (-> & Hrole & Hemail).
  destruct (UserModel.isActive u2); [|reflexivity]. cbn [negb].
  unfold populate. rewrite Hroles, Hrole, Hemail.
  now destruct (Jwt.generateAccessToken env now _).
Qed.

(** X15. Logout revokes nothing.  It appends one [LOGOUT] record, which
    names no actor because [req.user] has no [_id], and leaves users and
    roles alone: every refresh token is answered after the logout exactly
    as before it. *)
Theorem logout_revokes_nothing (now : Z) (db : Db) (user : option RBAC.User)
    (req req' : AuditLogger.Request) (token : Jwt.Token) :
  let db' := snd (logout db user req) in
  fst (logout db user req) = Ret "Logged out successfully"
  /\ users db' = users db
  /\ roles db' = roles db
  /\ (exists record,
        auditlogs db' = (auditlogs db ++ [record])%list
        /\ AuditLogModel.action record = "LOGOUT"
        /\ AuditLogModel.userId record = JNull
        /\ AuditLogModel.resourceId record = None)
  /\ fst (refreshToken env now db' token req')
     = fst (refreshToken env now db token req').
Proof.
  cbn [logout fst snd]. repeat split.
  - eexists. split; [reflexivity|]. now repeat split.
  - apply refreshToken_reads; [reflexivity|].
    intros id. cbn [users set_auditlogs]. now destruct (users db !! id).
Qed.

(** X16. A password change is refused, with no effect, unless the
    current password matches.  When it succeeds, the stored password is
    the hash of the new one (which then has at least six characters)
    unless the new value is the stored value itself; the account keeps its
    email, role, active flag and any pending reset token; one
    [CHANGE_PASSWORD] record is appended. *)
Theorem changePassword_outcome (db db' : Db) (user : RBAC.User)
    (currentPassword newPassword message : string) (req : AuditLogger.Request) :
  (forall id u, RBAC.userId user = Some id -> users db !! hex id = Some u ->
                UserModel.comparePassword u currentPassword = false ->
                changePassword db user currentPassword newPassword req
                = (Throw (Error "Current password is incorrect"), db))
  /\ (changePassword db user currentPassword newPassword req = (Ret message, db') ->
      exists id u u' record,
        RBAC.userId user = Some id
        /\ users db !! hex id = Some u
        /\ UserModel.comparePassword u currentPassword = true
        /\ users db' = <[hex id := u']> (users db)
        /\ (newPassword <> UserModel.password u ->
            UserModel.password u' = Jwt.bcrypt_hash newPassword
            /\ (6 <= String.length newPassword)%nat)
        /\ UserModel.email u' = UserModel.email u
        /\ UserModel.role u' = UserModel.role u
        /\ UserModel.isActive u' = UserModel.isActive u
        /\ UserModel.resetPasswordToken u' = UserModel.resetPasswordToken u
        /\ UserModel.resetPasswordExpires u' = UserModel.resetPasswordExpires u
        /\ roles db' = roles db
        /\ auditlogs db' = (auditlogs db ++ [record])%list
        /\ AuditLogModel.action record = "CHANGE_PASSWORD"
        /\ AuditLogModel.userId record = JString (hex id)).
Proof.
  split.
  - intros id u Hid Hu Hwrong. unfold changePassword. now rewrite Hid, Hu, Hwrong.
  - unfold changePassword.
    destruct (RBAC.userId user) as [id|]; [|discriminate].
    destruct (users db !! hex id) as [u|] eqn:Hu; [|discriminate].
    destruct (UserModel.comparePassword u currentPassword) eqn:Hok; [|discriminate].
    cbn [negb]. unfold UserModel.save.
    destruct (String.eqb_spec newPassword (UserModel.password u)) as [Hsame|Hnew];
      cbn [negb].
    + intros [= <- <-]. eexists id, u, _, _.
      repeat split; try reflexivity; try assumption; contradiction.
    + cbn [UserModel.password UserModel.set_password].
      destruct (Nat.ltb_spec (String.length newPassword) 6); [discriminate|].
      intros [= <- <-]. eexists id, u, _, _.
      repeat split; try reflexivity; try assumption; lia.
Qed.

(** X17. A password change revokes nothing either: every refresh token
    is answered after it exactly as before it. *)
Theorem changePassword_keeps_sessions (now : Z) (db : Db) (user : RBAC.User)
    (currentPassword newPassword : string) (req req' : AuditLogger.Request)
    (token : Jwt.Token) :
  let db' := snd (changePassword db user currentPassword newPassword req) in
  fst (refreshToken env now db' token req') = fst (refreshToken env now db token req').
Proof.
  cbv zeta. unfold changePassword.
  destruct (RBAC.userId user) as [id|]; [|reflexivity].
  destruct (users db !! hex id) as [u|] eqn:Hu; [|reflexivity].
  destruct (negb (UserModel.comparePassword u currentPassword)); [reflexivity|].
  unfold UserModel.save.
  destruct (negb (String.eqb newPassword (UserModel.password u)));
    [destruct (_ <? 6)%nat; [reflexivity|]|];
    cbn [snd]; apply refreshToken_reads; try reflexivity;
    intros j; cbn [users set_auditlogs set_users];
    (destruct (decide (hex id = j)) as [<-|Hne];
     [rewrite lookup_insert_eq, Hu; now repeat split
     |rewrite lookup_insert_ne by assumption; now destruct (users db !! j)]).
Qed.

Lemma resetPassword_success (now : Z) (db : Db) (token : Jwt.Token)
    (newPassword : string) (req : AuditLogger.Request) (u : UserModel.doc)
    (expires : Z) :
  let id := Jwt.userId (Jwt.claims (Jwt.payload token)) in
  Jwt.verifyPasswordResetToken env now token = Ret (Jwt.payload token) ->
  users db !! hex id = Some u ->
  UserModel.resetPasswordToken u = Some token ->
  UserModel.resetPasswordExpires u = Some expires ->
  now < expires ->
  (6 <= String.length newPassword)%nat ->
  exists db',
    resetPassword env now db token newPassword req
    = (Ret "Password has been reset successfully", db')
    /\ roles db' = roles db
    /\ users db'
       = <[hex id := UserModel.set_password (Jwt.bcrypt_hash newPassword)
                       (UserModel.set_reset None None u)]> (users db).
Proof.
  intros id Hv Hu Htoken Hexp Hlive Hlen. unfold resetPassword.
  rewrite Hv. fold id. unfold findByResetToken. rewrite Hu, Htoken, Hexp.
  rewrite bool_decide_eq_true_2 by reflexivity.
  destruct (Z.ltb_spec now expires); [|lia]. cbn [andb].
  unfold UserModel.save. cbn [UserModel.password UserModel.set_password UserModel.set_reset].
  destruct (Nat.ltb_spec (String.length newPassword) 6); [lia|].
  eexists. split; [reflexivity|]. split; reflexivity.
Qed.

(** X18. Recovery: the reset token that [forgotPassword] returns for an
    existing account, active or not, is accepted by [resetPassword] with a
    new password of six characters or more while the second count of the
    clock is below issue + 3600, and the account then holds the hash of
    the new password.  From that second on the token is refused, although
    the expiry stored on the account (issue + 3600000 ms) may not be
    reached yet. *)
Theorem forgot_then_reset (now now' : Z) (db : Db) (email newPassword : string)
    (req req' : AuditLogger.Request) (id : ObjectId) (u : UserModel.doc) :
  UserModel.findByEmail (users db) email = Some (id, u) ->
  (6 <= String.length newPassword)%nat ->
  exists token db1,
    forgotPassword env now db email req
    = (Ret {| message := forgotMessage; resetToken := Some token |}, db1)
    /\ (Jwt.seconds now' < Jwt.seconds now + 3600 ->
        exists db2 u2,
          resetPassword env now' db1 token newPassword req'
          = (Ret "Password has been reset successfully", db2)
          /\ users db2 !! hex id = Some u2
          /\ UserModel.password u2 = Jwt.bcrypt_hash newPassword
          /\ UserModel.email u2 = email)
    /\ (Jwt.seconds now + 3600 <= Jwt.seconds now' ->
        resetPassword env now' db1 token newPassword req'
        = (Throw (Error "Invalid or expired password reset token"), db1)).
Proof.
  intros Hfind Hlen. apply findByEmail_Some in Hfind as Hfound.
  destruct Hfound as [Hu Hemail].
  unfold forgotPassword. rewrite Hfind. cbn [UserModel.save].
  eexists. eexists. split; [reflexivity|]. split.
  - intros Hlive.
    set (token := Jwt.generatePasswordResetToken env now id).
    set (pending := UserModel.set_reset (Some token) (Some (now + 3600000)) u).
    match goal with
    | |- exists db2 u2, resetPassword _ _ ?d _ _ _ = _ /\ _ =>
        destruct (resetPassword_success now' d token newPassword req' pending
                    (now + 3600000)) as (db2 & Hreset & _ & Husers)
    end.
    + unfold Jwt.verifyPasswordResetToken. subst token.
      unfold Jwt.generatePasswordResetToken.
      now rewrite (JwtFacts.verify_sign now now' _ _ 3600 Hlive).
    + apply lookup_insert_eq.
    + reflexivity.
    + reflexivity.
    + apply seconds_bound in Hlive. lia.
    + exact Hlen.
    + exists db2. eexists. split; [exact Hreset|]. rewrite Husers.
      split; [apply lookup_insert_eq|]. split; [reflexivity | exact Hemail].
  - intros Hexpired. unfold resetPassword, Jwt.verifyPasswordResetToken, Jwt.verify.
    cbn [Jwt.generatePasswordResetToken Jwt.sign Jwt.payload Jwt.exp].
    destruct (negb _); [reflexivity|].
    destruct (Z.leb_spec (Jwt.seconds now + 3600) (Jwt.seconds now')); [|lia].
    reflexivity.
Qed.

End Service.

End LifecycleProperties.

(** ** Session lifecycle manager: recovery to login, the audit trail *)
Module TrailProperties.
Import JS Json AuthService Session SessionProperties LifecycleProperties.

Lemma uniqueEmails_insert (users : gmap string UserModel.doc) (k : string)
    (u u' : UserModel.doc) :
  uniqueEmails users -> users !! k = Some u ->
  UserModel.email u' = UserModel.email u ->
  uniqueEmails (<[k := u']> users).
Proof.
  intros Hunique Hk Hemail k1 k2 u1 u2 H1 H2 Heq.
  destruct (decide (k = k1)) as [<-|Hne1], (decide (k = k2)) as [<-|Hne2];
    try reflexivity.
  - rewrite lookup_insert_eq in H1. rewrite lookup_insert_ne in H2 by assumption.
    injection H1 as <-. apply (Hunique _ _ _ _ Hk H2). congruence.
  - rewrite lookup_insert_ne in H1 by assumption. rewrite lookup_insert_eq in H2.
    injection H2 as <-. apply (Hunique _ _ _ _ H1 Hk). congruence.
  - rewrite lookup_insert_ne in H1, H2 by assumption. now apply (Hunique _ _ _ _ H1 H2).
Qed.

Section Service.
Context `{Jwt.Crypto}.
Variable env : Jwt.Env.

(** X19. After a successful reset the account can log in with the new
    password: for an active account with a unique email and an existing
    role, and a password hash that [bcrypt.compare] recognises, login with
    the account's email and the new password succeeds. *)
Theorem reset_then_login (now now' : Z) (db db' : Db) (token : Jwt.Token)
    (newPassword message : string) (req req' : AuditLogger.Request)
    (u : UserModel.doc) :
  let id := Jwt.userId (Jwt.claims (Jwt.payload token)) in
  (forall plain, Jwt.bcrypt_compare plain (Jwt.bcrypt_hash plain) = true) ->
  uniqueEmails (users db) ->
  users db !! hex id = Some u ->
  UserModel.isActive u = true ->
  is_Some (roles db !! hex (UserModel.role u)) ->
  resetPassword env now db token newPassword req = (Ret message, db') ->
  exists result db'',
    login env now' db' (UserModel.email u) newPassword req' = (Ret result, db'')
    /\ fst (login_user result) = id.
Proof.
  intros id Hbcrypt Hunique Hu Hactive [r Hrole] Hreset.
  unfold resetPassword in Hreset.
  destruct (Jwt.verifyPasswordResetToken env now token) as [decoded|] eqn:Hv;
    [|discriminate].
  apply JwtFacts.verifyPasswordResetToken_Ret in Hv as [-> _]. fold id in Hreset.
  unfold findByResetToken in Hreset. rewrite Hu in Hreset.
  destruct (_ && _); [|discriminate]. unfold UserModel.save in Hreset.
  cbn [UserModel.password UserModel.set_password UserModel.set_reset] in Hreset.
  destruct (_ <? 6)%nat; [discriminate|]. injection Hreset as _ <-.
  set (u' := UserModel.set_password (Jwt.bcrypt_hash newPassword) _).
  assert (UserModel.findByEmail (<[hex id := u']> (users db)) (UserModel.email u)
          = Some (id, u')) as Hfind.
  { rewrite <- (objectId_eta id) at 2.
    apply (findByEmail_unique (<[hex id := u']> (users db)) (hex id) u').
    - now apply (uniqueEmails_insert _ _ u).
    - apply lookup_insert_eq. }
  unfold login. cbn [users set_auditlogs set_users]. rewrite Hfind.
  cbn [UserModel.isActive UserModel.set_password UserModel.set_reset u'].
  rewrite Hactive. cbn [negb]. unfold UserModel.comparePassword.
  cbn [UserModel.password UserModel.set_password u']. rewrite Hbcrypt. cbn [negb].
  cbn [UserModel.save]. unfold Jwt.generateAccessToken, populate.
  cbn [Jwt.subject_role roles set_auditlogs set_users UserModel.role
       UserModel.set_lastLogin UserModel.set_password UserModel.set_reset].
  change (UserModel.role u') with (UserModel.role u). rewrite Hrole.
  eexists. eexists. split; reflexivity.
Qed.

(** X20. The audit trail is append-only: every operation of the session
    lifecycle manager, and every role operation, leaves the records that
    were in the log in place and in order, adding its own at the end; a
    wrapped operation that does so keeps doing so under the interceptor. *)
Theorem audit_trail_append_only (now : Z) (db : Db) (email password newPassword : string)
    (token : Jwt.Token) (user : RBAC.User) (req : AuditLogger.Request)
    (roleId : ObjectId) (updateData : RoleModel.update)
    (action resource : string) (options : AuditLogger.Options)
    (next : AuditLogger.Request -> Db -> AuditLogger.Response * Db) :
  extends db (snd (login env now db email password req))
  /\ extends db (snd (forgotPassword env now db email req))
  /\ extends db (snd (resetPassword env now db token newPassword req))
  /\ extends db (snd (refreshToken env now db token req))
  /\ extends db (snd (changePassword db user password newPassword req))
  /\ extends db (snd (logout db (Some user) req))
  /\ extends db (snd (RoleService.updateRole db roleId updateData))
  /\ extends db (snd (RoleService.deleteRole db roleId))
  /\ (extends db (snd (next req db)) ->
      extends db (snd (AuditLogger.auditAction action resource options next req db))).
Proof.
  repeat split.
  - unfold login.
    destruct (UserModel.findByEmail _ _) as [[id u]|]; [|apply log_extends].
    destruct (negb (UserModel.isActive u)); [apply log_extends|].
    destruct (negb (UserModel.comparePassword u password)); [apply log_extends|].
    cbn [UserModel.save]. destruct (Jwt.generateAccessToken _ _ _);
      cbn [snd]; [apply extends_users | exists []; cbn; now rewrite app_nil_r].
  - unfold forgotPassword.
    destruct (UserModel.findByEmail _ _) as [[id u]|]; [|apply extends_refl].
    cbn [UserModel.save snd]. apply extends_users.
  - unfold resetPassword.
    destruct (Jwt.verifyPasswordResetToken _ _ _); [|apply extends_refl].
    destruct (findByResetToken _ _ _ _); [|apply extends_refl].
    destruct (UserModel.save _ _ _ _); cbn [snd];
      [apply extends_users | apply extends_refl].
  - unfold refreshToken.
    destruct (Jwt.verifyRefreshToken _ _ _); [|apply extends_refl].
    destruct (users db !! _); [|apply extends_refl].
    destruct (negb _); [apply extends_refl|].
    destruct (Jwt.generateAccessToken _ _ _); apply extends_refl.
  - unfold changePassword.
    destruct (RBAC.userId user); [|apply extends_refl].
    destruct (users db !! _); [|apply extends_refl].
    destruct (negb _); [apply extends_refl|].
    destruct (UserModel.save _ _ _ _); cbn [snd];
      [apply extends_users | apply extends_refl].
  - apply log_extends.
  - unfold RoleService.updateRole.
    destruct (roles db !! _); [|apply extends_refl].
    repeat match goal with
           | |- context [if ?c then (Throw _, db) else _] =>
               destruct c; [apply extends_refl|]
           end.
    destruct (RoleModel.findByIdAndUpdate _ _ _) as [[updated roles']|];
      exists []; cbn; now rewrite app_nil_r.
  - unfold RoleService.deleteRole.
    destruct (roles db !! _); [|apply extends_refl].
    repeat match goal with
           | |- context [if ?c then (Throw _, db) else _] =>
               destruct c; [apply extends_refl|]
           end.
    exists []; cbn; now rewrite app_nil_r.
  - intros (records & Hnext). unfold AuditLogger.auditAction.
    destruct (next req db) as [res db1]. cbn [snd] in *.
    unfold AuditLogger.onFinish.
    destruct (_ && _); cbn [auditlogs set_auditlogs];
      [|exists records; exact Hnext].
    match goal with
    | |- context [AuditLogger.log ?d ?l] =>
        destruct (AuditLoggerFacts.log_appends d l) as (more & Hlog & _)
    end.
    exists (records ++ more)%list. unfold extends. cbn [auditlogs set_auditlogs].
    rewrite Hlog, Hnext. now rewrite app_assoc.
Qed.

End Service.

End TrailProperties.

(** ** Role service: creation, deletion, the invariants of the store *)
Module RoleServiceProperties.
Import JS RoleService RoleServiceFacts.

Lemma hex_inj (a b : ObjectId) : hex a = hex b -> a = b.
Proof. destruct a, b. cbn. now intros ->. Qed.

Lemma countByRole_zero (users : gmap string UserModel.doc) (roleId : ObjectId) :
  (forall k u, users !! k = Some u -> UserModel.role u <> roleId) ->
  UserModel.countByRole users roleId = 0%nat.
Proof.
  intros Hnone. unfold UserModel.countByRole.
  destruct (List.filter _ _) as [|[k u] rest] eqn:Hfilter; [reflexivity|].
  exfalso.
  assert (In (k, u) (List.filter
            (fun kv => String.eqb (hex (UserModel.role (snd kv))) (hex roleId))
            (map_to_list users))) as Hin by (rewrite Hfilter; now left).
  apply filter_In in Hin as [Hin Heq]. cbn in Heq.
  apply String.eqb_eq, hex_inj in Heq.
  apply list_elem_of_In, elem_of_map_to_list in Hin. exact (Hnone k u Hin Heq).
Qed.

Lemma findByName_None (roles : gmap string RoleModel.doc) (n : string) :
  RoleModel.findByName roles n = None ->
  forall k r, roles !! k = Some r -> RoleModel.name r <> n.
Proof.
  unfold RoleModel.findByName. intros Hfind k r Hk Hname.
  assert (In (k, r) (map_to_list roles)) as Hin
    by now apply list_elem_of_In, elem_of_map_to_list.
  pose proof (find_none _ _ Hfind (k, r) Hin) as Hno. cbn in Hno.
  rewrite Hname, String.eqb_refl in Hno. discriminate.
Qed.

(** X21. A role that is not the super role and that no user references
    is deleted: [deleteRole] returns it, [getRoleById] no longer finds it,
    and every other role, every user and the audit log stay as they are. *)
Theorem deleteRole_removes (db : Db) (roleId : ObjectId) (r : RoleModel.doc) :
  roles db !! hex roleId = Some r ->
  RoleModel.name r <> "super-admin" ->
  (forall k u, users db !! k = Some u -> UserModel.role u <> roleId) ->
  exists db',
    deleteRole db roleId = (Ret r, db')
    /\ getRoleById db' roleId = Throw (Error "Role not found")
    /\ (forall other, other <> roleId -> getRoleById db' other = getRoleById db other)
    /\ users db' = users db
    /\ auditlogs db' = auditlogs db.
Proof.
  intros Hr Hname Hnone. unfold deleteRole. rewrite Hr.
  destruct (String.eqb_spec (RoleModel.name r) "super-admin"); [contradiction|].
  rewrite (countByRole_zero _ _ Hnone). cbn [Nat.ltb Nat.leb].
  eexists. split; [reflexivity|]. unfold getRoleById. cbn [roles set_roles].
  split; [now rewrite lookup_delete_eq|]. split; [|now split].
  intros other Hother. rewrite lookup_delete_ne; [reflexivity|].
  intros Heq. apply Hother. now apply hex_inj.
Qed.

(** X22. Referential integrity is kept: if every user references a role
    of the database before [deleteRole], [updateRole] or [createRole],
    then every user does so after it, whatever the operation answers. *)
Theorem role_operations_keep_references (db : Db) (roleId : ObjectId)
    (updateData : RoleModel.update) (roleData : RoleData) :
  referencesResolve db ->
  referencesResolve (snd (deleteRole db roleId))
  /\ referencesResolve (snd (updateRole db roleId updateData))
  /\ referencesResolve (snd (createRole db roleId roleData)).
Proof.
  intros Hrefs. repeat split.
  - unfold deleteRole. destruct (roles db !! hex roleId) as [r|]; [|exact Hrefs].
    destruct (String.eqb _ _); [exact Hrefs|].
    destruct (Nat.ltb_spec 0 (UserModel.countByRole (users db) roleId)) as [|Hzero];
      [exact Hrefs|].
    intros k u Hk. cbn [snd users roles set_roles] in *.
    rewrite lookup_delete_ne; [now apply (Hrefs k u)|].
    intros Heq. apply hex_inj in Heq.
    pose proof (countByRole_positive _ _ _ _ Hk (eq_sym Heq)). lia.
  - unfold updateRole. destruct (roles db !! hex roleId) as [r|] eqn:Hr; [|exact Hrefs].
    repeat match goal with
           | |- context [if ?c then (Throw _, db) else _] =>
               destruct c; [exact Hrefs|]
           end.
    unfold RoleModel.findByIdAndUpdate.
    destruct (RoleModel.validateUpdate updateData); cbn [bind]; [|exact Hrefs].
    rewrite Hr. intros k u Hk. cbn [snd users roles set_roles] in *.
    destruct (decide (hex roleId = hex (UserModel.role u))) as [<-|Hne].
    + rewrite lookup_insert_eq. now eexists.
    + rewrite lookup_insert_ne by assumption. now apply (Hrefs k u).
  - unfold createRole. destruct (RoleModel.findByName _ _); [exact Hrefs|].
    unfold RoleModel.save.
    destruct (RoleModel.validate _); cbn [bind]; [|exact Hrefs].
    destruct (RoleModel.preSave _); cbn [bind]; [|exact Hrefs].
    destruct (roles db !! hex roleId) eqn:Hfree; [exact Hrefs|].
    intros k u Hk. cbn [snd users roles set_roles] in *.
    destruct (decide (hex roleId = hex (UserModel.role u))) as [<-|Hne].
    + rewrite lookup_insert_eq. now eexists.
    + rewrite lookup_insert_ne by assumption. now apply (Hrefs k u).
Qed.

(** X23. Role names stay unique: if no two roles of the database share
    a name before [updateRole], [createRole] or [deleteRole], then none do
    after it, whatever the operation answers. *)
Theorem role_operations_keep_names_unique (db : Db) (roleId : ObjectId)
    (updateData : RoleModel.update) (roleData : RoleData) :
  uniqueNames (roles db) ->
  uniqueNames (roles (snd (updateRole db roleId updateData)))
  /\ uniqueNames (roles (snd (createRole db roleId roleData)))
  /\ uniqueNames (roles (snd (deleteRole db roleId))).
Proof.
  intros Hunique. repeat split.
  - unfold updateRole. destruct (roles db !! hex roleId) as [r|] eqn:Hr; [|exact Hunique].
    destruct (present (RoleModel.set_name updateData)
              && differs (RoleModel.set_name updateData) (RoleModel.name r)
              && bool_decide (is_Some (RoleModel.findByName (roles db)
                    (default "" (RoleModel.set_name updateData))))) eqn:Htaken;
      [exact Hunique|].
    repeat match goal with
           | |- context [if ?c then (Throw _, db) else _] =>
               destruct c; [exact Hunique|]
           end.
    unfold RoleModel.findByIdAndUpdate, RoleModel.validateUpdate.
    destruct (RoleModel.validateName updateData) as [[]|] eqn:Hvalid; cbn [bind];
      [|exact Hunique].
    destruct (RoleModel.validatePermissions updateData); cbn [bind]; [|exact Hunique].
    destruct (RoleModel.validateDescription updateData); cbn [bind]; [|exact Hunique].
    rewrite Hr. cbn [snd roles set_roles].
    assert (forall k r', roles db !! k = Some r' -> k <> hex roleId ->
              RoleModel.name r' <> RoleModel.name (RoleModel.applyUpdate updateData r))
      as Hfresh.
    { intros k r' Hk Hne. unfold RoleModel.applyUpdate. cbn [RoleModel.name].
      unfold RoleModel.validateName in Hvalid.
      destruct (RoleModel.set_name updateData) as [n|]; cbn [default present differs] in *.
      - unfold id in *.
        destruct (String.eqb_spec n "") as [Hempty|Hfull]; [discriminate|].
        cbn [negb andb] in Htaken.
        destruct (String.eqb_spec n (RoleModel.name r)) as [Hsame|Hrenamed].
        + rewrite Hsame. intros Heq. apply Hne. exact (Hunique _ _ _ _ Hk Hr Heq).
        + cbn [negb andb] in Htaken. apply bool_decide_eq_false_1 in Htaken.
          destruct (RoleModel.findByName (roles db) n) eqn:Hfind;
            [exfalso; apply Htaken; now eexists|].
          exact (findByName_None _ _ Hfind k r' Hk).
      - intros Heq. apply Hne. exact (Hunique _ _ _ _ Hk Hr Heq). }
    intros k1 k2 r1 r2 H1 H2 Heq.
    destruct (decide (hex roleId = k1)) as [<-|Hne1],
             (decide (hex roleId = k2)) as [<-|Hne2]; try reflexivity.
    + rewrite lookup_insert_eq in H1. rewrite lookup_insert_ne in H2 by assumption.
      injection H1 as <-. exfalso. now apply (Hfresh k2 r2 H2).
    + rewrite lookup_insert_ne in H1 by assumption. rewrite lookup_insert_eq in H2.
      injection H2 as <-. exfalso. now apply (Hfresh k1 r1 H1).
    + rewrite lookup_insert_ne in H1, H2 by assumption.
      exact (Hunique _ _ _ _ H1 H2 Heq).
  - unfold createRole.
    destruct (RoleModel.findByName _ _) eqn:Hfind; [exact Hunique|].
    unfold RoleModel.save.
    destruct (RoleModel.validate _); cbn [bind]; [|exact Hunique].
    destruct (RoleModel.preSave _); cbn [bind]; [|exact Hunique].
    destruct (roles db !! hex roleId) eqn:Hfree; [exact Hunique|].
    cbn [snd roles set_roles].
    intros k1 k2 r1 r2 H1 H2 Heq.
    destruct (decide (hex roleId = k1)) as [<-|Hne1],
             (decide (hex roleId = k2)) as [<-|Hne2]; try reflexivity.
    + rewrite lookup_insert_eq in H1. rewrite lookup_insert_ne in H2 by assumption.
      injection H1 as <-. exfalso.
      exact (findByName_None _ _ Hfind k2 r2 H2 (eq_sym Heq)).
    + rewrite lookup_insert_ne in H1 by assumption. rewrite lookup_insert_eq in H2.
      injection H2 as <-. exfalso.
      exact (findByName_None _ _ Hfind k1 r1 H1 Heq).
    + rewrite lookup_insert_ne in H1, H2 by assumption.
      exact (Hunique _ _ _ _ H1 H2 Heq).
  - unfold deleteRole. destruct (roles db !! hex roleId) as [r|]; [|exact Hunique].
    repeat match goal with
           | |- context [if ?c then (Throw _, db) else _] =>
               destruct c; [exact Hunique|]
           end.
    cbn [snd roles set_roles]. intros k1 k2 r1 r2 H1 H2.
    apply lookup_delete_Some in H1 as [_ H1]. apply lookup_delete_Some in H2 as [_ H2].
    exact (Hunique _ _ _ _ H1 H2).
Qed.

End RoleServiceProperties.

(** ** Role service: the permission format on creation and on update *)
Module RoleFormatProperties.
Import JS RoleService RoleServiceFacts RoleServiceProperties.

Lemma findByName_Some_exists (roles : gmap string RoleModel.doc) (n k : string)
    (r : RoleModel.doc) :
  roles !! k = Some r -> RoleModel.name r = n ->
  is_Some (RoleModel.findByName roles n).
Proof.
  intros Hk Hname. unfold RoleModel.findByName.
  destruct (List.find _ _) eqn:Hfind; [now eexists|]. exfalso.
  assert (In (k, r) (map_to_list roles)) as Hin
    by now apply list_elem_of_In, elem_of_map_to_list.
  pose proof (find_none _ _ Hfind (k, r) Hin) as Hno. cbn in Hno.
  rewrite Hname, String.eqb_refl in Hno. discriminate.
Qed.

(** X24. [createRole] refuses a name that a role of the database has,
    with no effect.  When it succeeds, the role is stored under the new
    id, where [getRoleById] finds it, with a non-empty name and with
    permissions that all match the format of the schema; the id was free,
    and the other roles and the users are as before. *)
Theorem createRole_outcome (db db' : Db) (id : ObjectId) (roleData : RoleData)
    (role : RoleModel.doc) :
  ((exists k r, roles db !! k = Some r /\ RoleModel.name r = data_name roleData) ->
   createRole db id roleData
   = (Throw (Error "Role with this name already exists"), db))
  /\ (createRole db id roleData = (Ret role, db') ->
      getRoleById db' id = Ret role
      /\ RoleModel.name role = data_name roleData
      /\ RoleModel.name role <> ""
      /\ RoleModel.permissions role = data_permissions roleData
      /\ (forall p, In p (RoleModel.permissions role) -> RoleModel.validPattern p = true)
      /\ roles db !! hex id = None
      /\ (forall other, other <> id -> getRoleById db' other = getRoleById db other)
      /\ users db' = users db).
Proof.
  split.
  - intros (k & r & Hk & Hname). unfold createRole.
    destruct (findByName_Some_exists _ _ _ _ Hk Hname) as [found ->]. reflexivity.
  - unfold createRole. destruct (RoleModel.findByName _ _); [discriminate|].
    unfold RoleModel.save, RoleModel.validate, RoleModel.preSave.
    cbn [RoleModel.name RoleModel.description RoleModel.permissions].
    destruct (String.eqb_spec (data_name roleData) "") as [|Hname]; [discriminate|].
    destruct (_ <? _)%nat; [discriminate|].
    destruct (RoleModel.validateElements _ _ _); cbn [bind]; [|discriminate].
    destruct (_ <? _)%nat; [discriminate|].
    cbn [bind].
    destruct (List.find _ (data_permissions roleData)) eqn:Hfind; [discriminate|].
    cbn [bind]. destruct (roles db !! hex id) eqn:Hfree; [discriminate|].
    intros [= <- <-]. unfold getRoleById. cbn [roles set_roles users RoleModel.name
                                                RoleModel.permissions].
    rewrite lookup_insert_eq. repeat split; try assumption.
    + intros p Hp. pose proof (find_none _ _ Hfind p Hp) as Hok. cbn in Hok.
      now apply negb_false_iff in Hok.
    + intros other Hother. rewrite lookup_insert_ne; [reflexivity|].
      intros Heq. apply Hother. symmetry. now apply hex_inj.
Qed.

Lemma validateElements_Ret (label : string) (permissions : list string) (i : nat) :
  (forall p, In p permissions -> p <> "") ->
  RoleModel.validateElements label i permissions = Ret tt.
Proof.
  revert i. induction permissions as [|p rest IH]; intros i Hfull; [reflexivity|].
  cbn [RoleModel.validateElements].
  destruct (String.eqb_spec p "") as [Hempty|_].
  - exfalso. apply (Hfull p); [now left | exact Hempty].
  - apply IH. intros q Hq. apply Hfull. now right.
Qed.

Lemma validateElements_Throw (label : string) (permissions : list string) (i : nat) :
  In "" permissions ->
  exists e, RoleModel.validateElements label i permissions = Throw e.
Proof.
  revert i. induction permissions as [|p rest IH]; intros i Hin; [destruct Hin|].
  cbn [RoleModel.validateElements].
  destruct (String.eqb_spec p "") as [_|Hfull]; [now eexists|].
  destruct Hin as [Hp|Hrest]; [congruence|]. now apply IH.
Qed.

(** X25. The permission format is checked on creation only.  On update
    the elements meet only the [required] of the schema: for a role other
    than the super role, [updateRole] stores every list of non-empty
    strings it is given, whatever their format, and refuses, with no
    effect, a list that holds the empty string.  [createRole] refuses,
    with no effect, every list with a permission that fails the format of
    the schema. *)
Theorem updateRole_skips_format_check (db : Db) (id fresh : ObjectId)
    (r : RoleModel.doc) (permissions : list string) (name : string)
    (description : option string) :
  roles db !! hex id = Some r ->
  RoleModel.name r <> "super-admin" ->
  let stored := {| RoleModel.name := RoleModel.name r;
                   RoleModel.permissions := permissions;
                   RoleModel.description := RoleModel.description r |} in
  let updateData := {| RoleModel.set_name := None;
                       RoleModel.set_permissions := Some permissions;
                       RoleModel.set_description := None |} in
  ((forall p, In p permissions -> p <> "") ->
   updateRole db id updateData
   = (Ret (Some stored), set_roles (<[hex id := stored]> (roles db)) db))
  /\ (In "" permissions -> exists e, updateRole db id updateData = (Throw e, db))
  /\ ((exists p, In p permissions /\ RoleModel.validPattern p = false) ->
      exists e,
        createRole db fresh {| data_name := name; data_description := description;
                               data_permissions := permissions |}
        = (Throw e, db)).
Proof.
  intros Hr Hname stored updateData.
  assert (updateRole db id updateData
          = match RoleModel.validateElements "Validation failed: " 0 permissions with
            | Ret _ => (Ret (Some stored), set_roles (<[hex id := stored]> (roles db)) db)
            | Throw e => (Throw e, db)
            end) as Hupdate.
  { unfold updateRole, updateData. rewrite Hr.
    cbn [RoleModel.set_name RoleModel.set_permissions present differs andb].
    destruct (String.eqb_spec (RoleModel.name r) "super-admin"); [contradiction|].
    cbn [andb]. unfold RoleModel.findByIdAndUpdate, RoleModel.validateUpdate,
      RoleModel.validatePermissions.
    cbn [bind RoleModel.validateName RoleModel.validateDescription RoleModel.set_name
         RoleModel.set_permissions RoleModel.set_description].
    destruct (RoleModel.validateElements _ _ _) as [[]|e]; cbn [bind]; [|reflexivity].
    now rewrite Hr. }
  split; [|split].
  - intros Hfull. rewrite Hupdate. now rewrite (validateElements_Ret _ _ _ Hfull).
  - intros Hempty. rewrite Hupdate.
    destruct (validateElements_Throw "Validation failed: " permissions 0 Hempty)
      as [e ->].
    now exists e.
  - intros (p & Hp & Hbad). unfold createRole.
    destruct (RoleModel.findByName _ _); [now eexists|].
    unfold RoleModel.save. destruct (RoleModel.validate _); cbn [bind]; [|now eexists].
    unfold RoleModel.preSave.
    cbn [RoleModel.permissions data_permissions data_name data_description].
    destruct (List.find (fun permission => negb (RoleModel.validPattern permission))
                permissions) eqn:Hfind; cbn [bind]; [now eexists|].
    pose proof (find_none (fun permission => negb (RoleModel.validPattern permission))
                  permissions Hfind p Hp) as Hok.
    cbn in Hok. now rewrite Hbad in Hok.
Qed.

Lemma createRole_outcome_witness :
  createRole Samples.db {| hex := "64b7f0c2a1d3e4f5a6b7c003" |}
    {| data_name := "user"; data_description := None;
       data_permissions := ["user:read"] |}
  = (Throw (Error "Role with this name already exists"), Samples.db).
Proof.
  apply (proj1 (createRole_outcome Samples.db Samples.db
                  {| hex := "64b7f0c2a1d3e4f5a6b7c003" |}
                  {| data_name := "user"; data_description := None;
                     data_permissions := ["user:read"] |} Samples.userRole)).
  exists "64b7f0c2a1d3e4f5a6b7c001", Samples.userRole.
  split; vm_compute; reflexivity.
Defined.

Lemma updateRole_skips_format_check_witness :
  let malformed := ["user read"; "audit"] in
  (exists db', updateRole Samples.db {| hex := "64b7f0c2a1d3e4f5a6b7c001" |}
                 {| RoleModel.set_name := None;
                    RoleModel.set_permissions := Some malformed;
                    RoleModel.set_description := None |}
               = (Ret (Some {| RoleModel.name := "user";
                               RoleModel.permissions := malformed;
                               RoleModel.description :=
                                 "Standard user with limited permissions" |}), db'))
  /\ exists e,
       createRole Samples.db {| hex := "64b7f0c2a1d3e4f5a6b7c003" |}
         {| data_name := "guest"; data_description := None;
            data_permissions := malformed |}
       = (Throw e, Samples.db).
Proof.
  intros malformed.
  destruct (updateRole_skips_format_check Samples.db
              {| hex := "64b7f0c2a1d3e4f5a6b7c001" |}
              {| hex := "64b7f0c2a1d3e4f5a6b7c003" |}
              Samples.userRole malformed "guest" None
              ltac:(vm_compute; reflexivity) ltac:(vm_compute; discriminate))
    as (Hupdate & _ & Hcreate).
  split.
  - eexists. apply Hupdate. intros p [<-|[<-|[]]]; discriminate.
  - apply Hcreate. exists "user read". split; [now left | vm_compute; reflexivity].
Defined.

Lemma deleteRole_removes_witness :
  let guestId := {| hex := "64b7f0c2a1d3e4f5a6b7c003" |} in
  let guest := {| RoleModel.name := "guest"; RoleModel.permissions := ["user:read"];
                  RoleModel.description := "" |} in
  let db := set_roles (<[ "64b7f0c2a1d3e4f5a6b7c003" := guest ]> (roles Samples.db))
              Samples.db in
  exists db', deleteRole db guestId = (Ret guest, db')
              /\ getRoleById db' guestId = Throw (Error "Role not found").
Proof.
  intros guestId guest db.
  destruct (deleteRole_removes db guestId guest) as (db' & Hdelete & Hgone & _).
  - vm_compute. reflexivity.
  - vm_compute. discriminate.
  - intros k u Hk. cbn [db users set_roles Samples.db] in Hk.
    apply lookup_singleton_Some in Hk as [_ <-]. vm_compute. discriminate.
  - exists db'. now split.
Defined.

Lemma sample_references_resolve : referencesResolve Samples.db.
Proof.
  intros k u Hk. cbn [users Samples.db] in Hk.
  apply lookup_singleton_Some in Hk as [_ <-]. vm_compute. now eexists.
Defined.

Lemma sample_names_unique : uniqueNames (roles Samples.db).
Proof.
  intros k1 k2 r1 r2 H1 H2 Heq. cbn [roles Samples.db] in H1, H2.
  apply lookup_insert_Some in H1 as [[<- <-] | [_ H1]];
    apply lookup_insert_Some in H2 as [[<- <-] | [_ H2]];
    try apply lookup_singleton_Some in H1 as [<- <-];
    try apply lookup_singleton_Some in H2 as [<- <-];
    try reflexivity; vm_compute in Heq; discriminate.
Defined.

Lemma role_operations_keep_references_witness :
  referencesResolve
    (snd (deleteRole Samples.db {| hex := "64b7f0c2a1d3e4f5a6b7c002" |})).
Proof.
  exact (proj1 (role_operations_keep_references Samples.db
                  {| hex := "64b7f0c2a1d3e4f5a6b7c002" |}
                  {| RoleModel.set_name := None; RoleModel.set_permissions := None;
                     RoleModel.set_description := None |}
                  {| data_name := "guest"; data_description := None;
                     data_permissions := [] |}
                  sample_references_resolve)).
Defined.

Lemma role_operations_keep_names_unique_witness :
  uniqueNames
    (roles (snd (updateRole Samples.db {| hex := "64b7f0c2a1d3e4f5a6b7c001" |}
                   {| RoleModel.set_name := Some "member";
                      RoleModel.set_permissions := None;
                      RoleModel.set_description := None |}))).
Proof.
  exact (proj1 (role_operations_keep_names_unique Samples.db
                  {| hex := "64b7f0c2a1d3e4f5a6b7c001" |}
                  {| RoleModel.set_name := Some "member";
                     RoleModel.set_permissions := None;
                     RoleModel.set_description := None |}
                  {| data_name := "guest"; data_description := None;
                     data_permissions := [] |}
                  sample_names_unique)).
Defined.

End RoleFormatProperties.

(** ** Express middleware: the authentication and authorization gates *)
Module MiddlewareProperties.
Import JS Json AuditLogger Middleware.
#[local] Arguments String.append !s1 s2 : simpl nomatch.

Lemma extract_bearer (token : string) :
  sepFree " " token ->
  Jwt.extractTokenFromHeader (Some ("Bearer " +:+ token)) = Some token.
Proof.
  intros Hfree. unfold Jwt.extractTokenFromHeader.
  change ("Bearer " +:+ token) with ("Bearer" +:+ String " " token).
  rewrite HeaderProperties.split_append_sep, (HeaderProperties.split_sepFree _ _ Hfree).
  - reflexivity.
  - intros c [<-|[<-|[<-|[<-|[<-|[<-|[]]]]]]]; discriminate.
Qed.

Lemma extract_inv (authorization : option string) (token : string) :
  Jwt.extractTokenFromHeader authorization = Some token ->
  authorization = Some ("Bearer " +:+ token).
Proof.
  unfold Jwt.extractTokenFromHeader.
  destruct authorization as [header|]; [|discriminate].
  destruct (String.eqb header ""); [discriminate|].
  destruct (split header " ") as [|scheme [|tok [|]]] eqn:Hsplit; try discriminate.
  destruct (String.eqb_spec scheme "Bearer") as [->|]; [|discriminate].
  intros [= ->].
  apply HeaderProperties.split_inv in Hsplit as [_ [[[=] _] | (rest & -> & Hrest & _)]].
  apply HeaderProperties.split_inv in Hrest as [_ [[_ ->] | (rest' & _ & _ & Hne)]];
    [reflexivity | congruence].
Qed.

(** X26. The permission gate runs the rest of the chain exactly when the
    request has a user to whom the required permission is granted.
    Otherwise it answers 401 (no user) or 403 (not granted) and the
    database is as it was: no protected operation has run. *)
Theorem checkPermission_gate (p : string) (next : Request -> Db -> Response * Db)
    (req : Request) (db : Db) :
  exists out,
    checkPermission (JsString p) next req db = Ret out
    /\ ((user req <> None
         /\ RBAC.hasPermission (user req) (JsString p) = Ret true
         /\ out = next req db)
        \/ (user req = None
            /\ out = (respond 401 (failure "Authentication required"), db))
        \/ (user req <> None
            /\ RBAC.hasPermission (user req) (JsString p) = Ret false
            /\ out = (respond 403 (failure "Insufficient permissions"), db))).
Proof.
  unfold checkPermission. destruct (user req) as [u|] eqn:Huser.
  - destruct (RBACFacts.hasPermission_string_total (Some u) p) as [[|] Hp];
      rewrite Hp; cbn [bind negb]; eexists; (split; [reflexivity|]).
    + left. now repeat split.
    + right. right. now repeat split.
  - eexists. split; [reflexivity|]. right. left. now split.
Qed.

(** X27. For an authenticated user with an id, the ownership gate raises
    [TypeError], and the chain does not run, when the request has no
    parameter of the name the gate reads; with the parameter it runs the
    chain exactly when [canAccessResource] grants, and answers 403 on the
    unchanged database otherwise. *)
Theorem checkSelfPermission_gate (p userIdParam : string)
    (next : Request -> Db -> Response * Db) (req : Request) (db : Db)
    (u : RBAC.User) (id : ObjectId) :
  user req = Some u -> RBAC.userId u = Some id ->
  (param req userIdParam = JsUndefined ->
   checkSelfPermission (JsString p) userIdParam next req db = Throw TypeError)
  /\ (forall owner, param req userIdParam = JsString owner ->
      exists granted,
        RBAC.canAccessResource (Some u) (JsString owner) (JsString p) = Ret granted
        /\ checkSelfPermission (JsString p) userIdParam next req db
           = Ret (if granted then next req db
                  else (respond 403 (failure "Insufficient permissions"), db))).
Proof.
  intros Huser Hid. unfold checkSelfPermission. rewrite Huser. split.
  - intros ->. unfold RBAC.canAccessResource. now rewrite Hid.
  - intros owner ->. unfold RBAC.canAccessResource. rewrite Hid.
    cbn [bind toString ToString].
    destruct (String.eqb (hex id) owner);
      match goal with
      | |- context [RBAC.hasPermission ?who (JsString ?q)] =>
          destruct (RBACFacts.hasPermission_string_total who q) as [granted Hq]
      end; rewrite Hq; exists granted; (split; [reflexivity|]); now destruct granted.
Qed.

Section Auth.
Context `{Jwt.Crypto}.
Variable env : Jwt.Env.
Variable decode : string -> option Jwt.Token.

Lemma authenticateToken_admits (now : Z) (token : string) (t : Jwt.Token)
    (decoded : Jwt.Payload) (u : UserModel.doc)
    (next : Request -> Db -> Response * Db) (req : Request) (db : Db) :
  sepFree " " token -> token <> "" ->
  decode token = Some t ->
  Jwt.verifyAccessToken env now t = Ret decoded ->
  users db !! hex (Jwt.userId (Jwt.claims decoded)) = Some u ->
  UserModel.isActive u = true ->
  authenticateToken env decode now (Some ("Bearer " +:+ token)) next req db
  = next (set_user (Some (attached db (Jwt.userId (Jwt.claims decoded)) u)) req) db.
Proof.
  intros Hfree Hne Hdecode Hverify Hu Hactive. unfold authenticateToken.
  rewrite (extract_bearer token Hfree).
  destruct (String.eqb_spec token ""); [contradiction|].
  unfold verifyAccessString. rewrite Hdecode, Hverify, Hu, Hactive. reflexivity.
Qed.

(** X28. Authentication runs the rest of the chain only for a header
    [Bearer <token>] whose token verifies as an access token for a user
    who exists and is active, and then with the [req.user] built from the
    database; every other request is answered 401 or 403 on the unchanged
    database. *)
Theorem authenticateToken_outcome (now : Z) (authorization : option string)
    (next : Request -> Db -> Response * Db) (req : Request) (db : Db) :
  (exists token t decoded u,
      authorization = Some ("Bearer " +:+ token)
      /\ decode token = Some t
      /\ Jwt.verifyAccessToken env now t = Ret decoded
      /\ users db !! hex (Jwt.userId (Jwt.claims decoded)) = Some u
      /\ UserModel.isActive u = true
      /\ authenticateToken env decode now authorization next req db
         = next (set_user (Some (attached db (Jwt.userId (Jwt.claims decoded)) u)) req)
             db)
  \/ (exists status message,
        (status = 401 \/ status = 403)
        /\ authenticateToken env decode now authorization next req db
           = (respond status (failure message), db)).
Proof.
  unfold authenticateToken.
  destruct (Jwt.extractTokenFromHeader authorization) as [token|] eqn:Hextract;
    [|right; exists 401; eexists; split; [now left | reflexivity]].
  apply extract_inv in Hextract.
  destruct (String.eqb token "");
    [right; exists 401; eexists; split; [now left | reflexivity]|].
  unfold verifyAccessString.
  destruct (decode token) as [t|] eqn:Hdecode;
    [|right; exists 403; eexists; split; [now right | reflexivity]].
  destruct (Jwt.verifyAccessToken env now t) as [decoded|] eqn:Hverify;
    [|right; exists 403; eexists; split; [now right | reflexivity]].
  destruct (users db !! _) as [u|] eqn:Hu;
    [|right; exists 401; eexists; split; [now left | reflexivity]].
  destruct (UserModel.isActive u) eqn:Hactive;
    [|right; exists 401; eexists; split; [now left | reflexivity]].
  left. exists token, t, decoded, u. now repeat split.
Qed.

(** X29. What a verified token claims beyond its subject is never
    consulted: two tokens that verify as access tokens for the same user
    id lead to the same outcome, whatever email, role id or permission
    list each carries.  The permissions in force are those of the role in
    the database. *)
Theorem authenticateToken_ignores_claims (now : Z) (token1 token2 : string)
    (t1 t2 : Jwt.Token) (d1 d2 : Jwt.Payload)
    (next : Request -> Db -> Response * Db) (req : Request) (db : Db) :
  sepFree " " token1 -> token1 <> "" -> sepFree " " token2 -> token2 <> "" ->
  decode token1 = Some t1 -> decode token2 = Some t2 ->
  Jwt.verifyAccessToken env now t1 = Ret d1 ->
  Jwt.verifyAccessToken env now t2 = Ret d2 ->
  Jwt.userId (Jwt.claims d1) = Jwt.userId (Jwt.claims d2) ->
  authenticateToken env decode now (Some ("Bearer " +:+ token1)) next req db
  = authenticateToken env decode now (Some ("Bearer " +:+ token2)) next req db.
Proof.
  intros Hf1 Hn1 Hf2 Hn2 Hd1 Hd2 Hv1 Hv2 Hid. unfold authenticateToken.
  rewrite (extract_bearer token1 Hf1), (extract_bearer token2 Hf2).
  destruct (String.eqb_spec token1 ""); [contradiction|].
  destruct (String.eqb_spec token2 ""); [contradiction|].
  unfold verifyAccessString. rewrite Hd1, Hd2, Hv1, Hv2, Hid. reflexivity.
Qed.

(** X30. A password-reset token opens the protected routes: presented as
    a bearer token within the hour of its issue, the reset token of an
    active user passes authentication as that user. *)
Theorem reset_token_authenticates (issued now : Z) (token : string)
    (id : ObjectId) (u : UserModel.doc)
    (next : Request -> Db -> Response * Db) (req : Request) (db : Db) :
  sepFree " " token -> token <> "" ->
  decode token = Some (Jwt.generatePasswordResetToken env issued id) ->
  Jwt.seconds now < Jwt.seconds issued + 3600 ->
  users db !! hex id = Some u ->
  UserModel.isActive u = true ->
  authenticateToken env decode now (Some ("Bearer " +:+ token)) next req db
  = next (set_user (Some (attached db id u)) req) db.
Proof.
  intros Hfree Hne Hdecode Hlive Hu Hactive.
  apply (authenticateToken_admits now token
           (Jwt.generatePasswordResetToken env issued id)
           (Jwt.payload (Jwt.generatePasswordResetToken env issued id)) u);
    try assumption.
  unfold Jwt.verifyAccessToken, Jwt.generatePasswordResetToken.
  now rewrite (JwtFacts.verify_sign issued now _ _ 3600 Hlive).
Qed.

End Auth.

End MiddlewareProperties.

(** ** Validator vocabulary and permission lists *)
Module VocabularyProperties.
Import JS RBAC JSFacts RBACFacts RBACProperties.

(** X5. On lists of strings [hasAnyPermission] and [hasAllPermissions]
    return a boolean.  The first is [true] exactly when one of the listed
    permissions is granted; the second exactly when the list is not empty
    and every listed permission is granted: the empty list is refused by
    both, not vacuously accepted by the second. *)
Theorem permission_lists (user : option User) (permissions : list string) :
  (exists b,
      hasAnyPermission user (Some (map JsString permissions)) = Ret b
      /\ (b = true
          <-> exists p, In p permissions /\ hasPermission user (JsString p) = Ret true))
  /\ (exists b,
        hasAllPermissions user (Some (map JsString permissions)) = Ret b
        /\ (b = true
            <-> permissions <> []
                /\ forall p, In p permissions ->
                             hasPermission user (JsString p) = Ret true)).
Proof.
  split; [apply hasAnyPermission_strings | apply hasAllPermissions_strings].
Qed.

Lemma custom_In (permissions : list string) :
  RoleValidator.custom permissions = Ret true ->
  forall p, In p permissions -> In p RoleValidator.validPermissions.
Proof.
  induction permissions as [|q permissions IH]; [intros _ p []|].
  cbn [RoleValidator.custom].
  destruct (includes RoleValidator.validPermissions (JsString q)) eqn:Hq;
    cbn [negb]; [|discriminate].
  intros Hrest p [<- | Hp]; [|now apply IH].
  now apply RoleServiceFacts.includes_In.
Qed.

(** X6. Every permission list that the route validator accepts passes
    the format check of the Role schema, and on each of its self-scoped
    permissions [replace] does strip the suffix: a user who is granted the
    base permission is granted the self-scoped one. *)
Theorem validator_vocabulary (permissions : list string) (p : string) (u : User) :
  RoleValidator.custom permissions = Ret true ->
  In p permissions ->
  RoleModel.validPattern p = true
  /\ (endsWith p ":self" = true ->
      replace p ":self" "" +:+ ":self" = p
      /\ (hasPermission (Some u) (JsString (replace p ":self" "")) = Ret true ->
          hasPermission (Some u) (JsString p) = Ret true)).
Proof.
  intros Hcustom Hp. pose proof (custom_In _ Hcustom p Hp) as Hvocabulary.
  split.
  - cbn in Hvocabulary.
    repeat (destruct Hvocabulary as [<- | Hvocabulary]; [reflexivity|]).
    destruct Hvocabulary.
  - intros Hself. split.
    + cbn in Hvocabulary.
      repeat (destruct Hvocabulary as [<- | Hvocabulary];
              [first [reflexivity | discriminate Hself]|]).
      destruct Hvocabulary.
    + intros Hbase. destruct (role u) as [r|] eqn:Hrole.
      * rewrite (hasPermission_unfold u r p Hrole), Hself, Hbase.
        now repeat match goal with |- (if ?c then _ else _) = _ => destruct c end.
      * unfold hasPermission in Hbase.
        rewrite (hasPermission_depth_absent _ (Some u) _ Hrole) in Hbase.
        discriminate.
Qed.

Lemma validator_vocabulary_witness :
  RoleModel.validPattern "audit:read:self" = true
  /\ (hasPermission (Some (holder None ["audit:read"])) (JsString "audit:read") = Ret true ->
      hasPermission (Some (holder None ["audit:read"])) (JsString "audit:read:self")
      = Ret true).
Proof.
  destruct (validator_vocabulary ["user:read"; "audit:read:self"] "audit:read:self"
              (holder None ["audit:read"]) eq_refl
              ltac:(right; left; reflexivity)) as [Hformat Hself].
  split; [exact Hformat | exact (proj2 (Hself eq_refl))].
Defined.

End VocabularyProperties.

(** ** Sample runs of the lifecycle and of the gates *)
Module LifecycleRuns.
Import JS Json AuditLogger AuthService Session Middleware.

Lemma changePassword_outcome_witness :
  changePassword (H := Jwt.sampleCrypto) Samples.live
    (RBAC.holder (Some Samples.cyId) []) "not my password" "tr0ub4dor&3" Samples.req
  = (Throw (Error "Current password is incorrect"), Samples.live).
Proof.
  apply (proj1 (@LifecycleProperties.changePassword_outcome Jwt.sampleCrypto
                  Samples.live Samples.live (RBAC.holder (Some Samples.cyId) [])
                  "not my password" "tr0ub4dor&3" "" Samples.req)
           Samples.cyId Samples.cy);
    vm_compute; reflexivity.
Defined.

Lemma forgot_then_reset_witness :
  exists token db1 db2 u2,
    @forgotPassword Jwt.sampleCrypto Jwt.sampleEnv 1700000000000 Samples.db
      "ann@example.com" Samples.req
    = (Ret {| message := forgotMessage; resetToken := Some token |}, db1)
    /\ @resetPassword Jwt.sampleCrypto Jwt.sampleEnv 1700003599999 db1 token
         "tr0ub4dor&3" Samples.req
       = (Ret "Password has been reset successfully", db2)
    /\ users db2 !! "64b7f0c2a1d3e4f5a6b7c8d9" = Some u2
    /\ UserModel.password u2 = "$2a$12$tr0ub4dor&3".
Proof.
  destruct (@LifecycleProperties.forgot_then_reset Jwt.sampleCrypto Jwt.sampleEnv
              1700000000000 1700003599999 Samples.db "ann@example.com" "tr0ub4dor&3"
              Samples.req Samples.req Samples.annId Samples.ann
              ltac:(vm_compute; reflexivity) ltac:(vm_compute; lia))
    as (token & db1 & Hforgot & Hreset & _).
  destruct (Hreset ltac:(vm_compute; reflexivity)) as (db2 & u2 & Hok & Hu2 & Hpw & _).
  exists token, db1, db2, u2. repeat split; assumption.
Defined.

Lemma sample_emails_unique : uniqueEmails (users Samples.live).
Proof.
  intros k1 k2 u1 u2 H1 H2 Heq. cbn [users Samples.live] in H1, H2.
  apply lookup_insert_Some in H1 as [[<- <-] | [_ H1]];
    apply lookup_insert_Some in H2 as [[<- <-] | [_ H2]];
    try apply lookup_singleton_Some in H1 as [<- <-];
    try apply lookup_singleton_Some in H2 as [<- <-];
    try reflexivity; vm_compute in Heq; discriminate.
Defined.

Lemma reset_then_login_witness :
  let token := @Jwt.generatePasswordResetToken Jwt.sampleCrypto Jwt.sampleEnv
                 1700000000000 Samples.cyId in
  let pending := set_users
    (<[ "64b7f0c2a1d3e4f5a6b7c8da" :=
          UserModel.set_reset (Some token) (Some 1700003600000) Samples.cy ]>
       (users Samples.live)) Samples.live in
  exists db' result db'',
    @resetPassword Jwt.sampleCrypto Jwt.sampleEnv 1700000060000 pending token
      "tr0ub4dor&3" Samples.req
    = (Ret "Password has been reset successfully", db')
    /\ @login Jwt.sampleCrypto Jwt.sampleEnv 1700000120000 db' "cy@example.com"
         "tr0ub4dor&3" Samples.req = (Ret result, db'').
Proof.
  intros token pending.
  destruct (@resetPassword Jwt.sampleCrypto Jwt.sampleEnv 1700000060000 pending token
              "tr0ub4dor&3" Samples.req) as [[message|e] db'] eqn:Hreset;
    [|vm_compute in Hreset; discriminate].
  assert (message = "Password has been reset successfully") as ->
    by (vm_compute in Hreset; now injection Hreset as <- _).
  destruct (@TrailProperties.reset_then_login Jwt.sampleCrypto Jwt.sampleEnv
              1700000060000 1700000120000 pending db' token "tr0ub4dor&3"
              "Password has been reset successfully" Samples.req Samples.req
              (UserModel.set_reset (Some token) (Some 1700003600000) Samples.cy)
              (fun plain => String.eqb_refl _))
    as (result & db'' & Hlogin & _).
  - apply (TrailProperties.uniqueEmails_insert _ _ Samples.cy);
      [exact sample_emails_unique | vm_compute; reflexivity | reflexivity].
  - vm_compute. reflexivity.
  - reflexivity.
  - vm_compute. now eexists.
  - exact Hreset.
  - exists db', result, db''. split; [reflexivity | exact Hlogin].
Defined.

Lemma checkSelfPermission_gate_witness :
  let request := set_user (Some (RBAC.holder (Some Samples.cyId) ["user:update:self"]))
                   Samples.req in
  checkSelfPermission (JsString "user:update") "id" Samples.ok request Samples.live
  = Throw TypeError.
Proof.
  intros request.
  exact (proj1 (MiddlewareProperties.checkSelfPermission_gate "user:update" "id" Samples.ok
                  request Samples.live
                  (RBAC.holder (Some Samples.cyId) ["user:update:self"]) Samples.cyId
                  eq_refl eq_refl) eq_refl).
Defined.

Lemma word_sepFree (s : string) :
  forallb (fun c => negb (Ascii.eqb c " ")) (list_ascii_of_string s) = true ->
  sepFree " " s.
Proof.
  intros Hall c Hc. rewrite forallb_forall in Hall. specialize (Hall c Hc).
  intros ->. discriminate Hall.
Defined.

Lemma reset_token_authenticates_witness :
  @authenticateToken Jwt.sampleCrypto Jwt.sampleEnv Samples.decode 1700000060000
    (Some "Bearer reset.cy") Samples.ok Samples.req Samples.live
  = Samples.ok (set_user (Some (attached Samples.live Samples.cyId Samples.cy)) Samples.req)
      Samples.live.
Proof.
  apply (@MiddlewareProperties.reset_token_authenticates Jwt.sampleCrypto
           Jwt.sampleEnv Samples.decode 1700000000000 1700000060000 "reset.cy" Samples.cyId
           Samples.cy Samples.ok Samples.req Samples.live).
  - apply word_sepFree. reflexivity.
  - discriminate.
  - reflexivity.
  - vm_compute. reflexivity.
  - vm_compute. reflexivity.
  - reflexivity.
Defined.

Lemma authenticateToken_ignores_claims_witness :
  @authenticateToken Jwt.sampleCrypto Jwt.sampleEnv Samples.decode 1700000060000
    (Some "Bearer access.cy") Samples.ok Samples.req Samples.live
  = @authenticateToken Jwt.sampleCrypto Jwt.sampleEnv Samples.decode 1700000060000
      (Some "Bearer reset.cy") Samples.ok Samples.req Samples.live.
Proof.
  eapply (@MiddlewareProperties.authenticateToken_ignores_claims Jwt.sampleCrypto
            Jwt.sampleEnv Samples.decode 1700000060000 "access.cy" "reset.cy").
  - apply word_sepFree. reflexivity.
  - discriminate.
  - apply word_sepFree. reflexivity.
  - discriminate.
  - reflexivity.
  - reflexivity.
  - vm_compute. reflexivity.
  - vm_compute. reflexivity.
  - reflexivity.
Defined.

Lemma audit_trail_append_only_witness :
  extends Samples.live
    (snd (auditAction "READ_USERS" "users" recordBoth Samples.ok Samples.req
            Samples.live)).
Proof.
  pose proof (@TrailProperties.audit_trail_append_only Jwt.sampleCrypto Jwt.sampleEnv
                1700000000000 Samples.live "cy@example.com" "battery staple"
                "tr0ub4dor&3"
                (@Jwt.generatePasswordResetToken Jwt.sampleCrypto Jwt.sampleEnv
                   1700000000000 Samples.cyId)
                (RBAC.holder (Some Samples.cyId) []) Samples.req Samples.cyId
                {| RoleModel.set_name := None; RoleModel.set_permissions := None;
                   RoleModel.set_description := None |}
                "READ_USERS" "users" recordBoth Samples.ok)
    as (_ & _ & _ & _ & _ & _ & _ & _ & Hwrapped).
  apply Hwrapped. exists []. reflexivity.
Defined.

End LifecycleRuns.
